(** * Kindergarten: rules, governesses, perimeters and sandboxes

    A shallow embedding of the JavaScript sources

      - [src/rules/Type.js], [src/rules/Definition.js], [src/Rule.js]
      - [src/utils/AllowedMethodsService.js]
      - [src/governesses/HeadGoverness.js], [EasyGoverness.js],
        [StrictGoverness.js]
      - [src/Perimeter.js], [src/Purpose.js], [src/Sandbox.js]

    Conventions of the embedding.

    - A JavaScript value is a [Value]; objects of the library's classes are
      references into a [Heap], tagged with the class that made them.  The
      [instanceof] tests of [isGoverness], [isPerimeter] and [isPurpose]
      are tests on the tag; [isSandbox] also asks the heap whether the
      sandbox still has the prototype of its class.
    - Code that can throw returns a [Res]; code that also mutates objects is a
      state transformer [M S A], with [try_finally] for [try { } finally { }].
    - Host code (rule predicates, regular expressions, prototype chains of
      host objects) is a parameter, the class [Host].  A rule predicate is a
      function of its receiver and arguments that returns a value or throws.
      Callbacks handed to [governed] and [doUnguarded] are state transformers
      over the governess, so they can call back into it.
    - A method call [o.m(...)] looks [m] up on the object.  Governesses and
      perimeters are taken with the methods and accessors of their classes
      ([governessGuard] for [g.guard]).  A sandbox gets an own property for
      every purpose that [loadPerimeter] attaches, and an own property
      hides the method of the same name, as the assignment to [__proto__]
      hides all of them: the members of [Sandbox] are looked up with
      [Sandbox.method] and [Sandbox.query], by [Sandbox.hides].  A purpose
      gets an own property, a trampoline, for every exposed method.
      Trampolines are installed and never run.
    - Numbers are IEEE doubles.  The only arithmetic is [++] on the two
      counters of [StrictGoverness], [plusPlus], which is exact below 2^53
      and rounds above. *)

From stdpp Require Import base strings list gmap.
From Stdlib Require Import ZArith Ascii.

(** ** JavaScript values, errors and results *)

Inductive Ref :=
| GovernessRef (n : nat)
| PerimeterRef (n : nat)
| SandboxRef (n : nat)
| PurposeRef (n : nat)
| ObjectRef (n : nat).

#[global] Instance Ref_eq_dec : EqDecision Ref.
Proof. solve_decision. Defined.

#[warnings="-register-all"]
Inductive Value :=
| VUndefined
| VNull
| VBool (b : bool)
| VNumber (n : Z)
| VString (s : string)
| VArray (id : nat) (elems : list Value)
| VRegExp (re : nat)
| VFunction (f : nat)
| VObject (r : Ref).

#[global] Instance Value_inhabited : Inhabited Value := populate VUndefined.

Inductive Error :=
| AccessDenied (message : string)
| ArgumentError
| WrongRuleDefinition
| NoSandboxError
| NoGovernessError
| NoPurposeError
| RestrictedMethodError
| NoExposedMethodError
| TypeError
| GenericError
| HostError (thrown : Value).

Inductive Res (A : Type) :=
| Ret (a : A)
| Throw (e : Error).
Arguments Ret {A} a.
Arguments Throw {A} e.

#[global] Instance Res_ret : MRet Res := fun A a => Ret a.
#[global] Instance Res_bind : MBind Res := fun A B k r =>
  match r with
  | Ret a => k a
  | Throw e => Throw e
  end.

(** [ToBoolean]: undefined, null, false, 0 and the empty string are falsy. *)
Definition truthy (v : Value) : bool :=
  match v with
  | VUndefined | VNull => false
  | VBool b => b
  | VNumber n => negb (n =? 0)%Z
  | VString s => negb (String.eqb s "")
  | VArray _ _ | VRegExp _ | VFunction _ | VObject _ => true
  end.

(** [a === b]: primitives by value, objects by identity. *)
Definition strict_eq (a b : Value) : bool :=
  match a, b with
  | VUndefined, VUndefined => true
  | VNull, VNull => true
  | VBool x, VBool y => Bool.eqb x y
  | VNumber x, VNumber y => (x =? y)%Z
  | VString x, VString y => String.eqb x y
  | VArray i _, VArray j _ => Nat.eqb i j
  | VRegExp i, VRegExp j => Nat.eqb i j
  | VFunction i, VFunction j => Nat.eqb i j
  | VObject r, VObject r' => bool_decide (r = r')
  | _, _ => false
  end.

(** The [lodash] type tests the sources use. *)
Definition isString (v : Value) : bool :=
  match v with VString _ => true | _ => false end.
Definition isArray (v : Value) : bool :=
  match v with VArray _ _ => true | _ => false end.
Definition isRegExp (v : Value) : bool :=
  match v with VRegExp _ => true | _ => false end.
Definition isFunction (v : Value) : bool :=
  match v with VFunction _ => true | _ => false end.
Definition isEmpty (v : Value) : bool :=
  match v with
  | VArray _ elems => match elems with [] => true | _ => false end
  | VString s => String.eqb s ""
  | _ => true
  end.

(** [args[i]], [undefined] past the end. *)
Definition arg (i : nat) (args : list Value) : Value := nth i args VUndefined.

(** The text a template literal gives a string value. *)
Definition string_of (v : Value) : string :=
  match v with VString s => s | _ => "" end.

(** ** The state and exception monad of mutating methods *)

Definition M (S A : Type) : Type := S -> Res A * S.

#[global] Instance M_ret {S} : MRet (M S) := fun A a s => (Ret a, s).
#[global] Instance M_bind {S} : MBind (M S) := fun A B k m s =>
  match m s with
  | (Ret a, s') => k a s'
  | (Throw e, s') => (Throw e, s')
  end.

Definition throw {S A} (e : Error) : M S A := fun s => (Throw e, s).
Definition lift {S A} (r : Res A) : M S A := fun s => (r, s).
Definition gets {S A} (f : S -> A) : M S A := fun s => (Ret (f s), s).
Definition reads {S A} (f : S -> Res A) : M S A := fun s => (f s, s).
Definition modify {S} (f : S -> S) : M S unit := fun s => (Ret tt, f s).

(** [try { body } finally { fin }]: [fin] runs whatever [body] did; the
    outcome of [body] stands unless [fin] throws. *)
Definition try_finally {S A} (body : M S A) (fin : M S unit) : M S A := fun s =>
  let '(r, s1) := body s in
  match fin s1 with
  | (Ret _, s2) => (r, s2)
  | (Throw e, s2) => (Throw e, s2)
  end.

(** [each(xs, f)] for a callback that never returns [false]. *)
Fixpoint each {S A} (xs : list A) (f : A -> M S unit) : M S unit :=
  match xs with
  | [] => mret tt
  | x :: rest => f x ;; each rest f
  end.

(** A local counter next to the state: [let counter = 0], [++counter] in the
    loop, and the counter is what the method returns if nothing was thrown.
    Such a counter counts the arguments of one call or the properties of one
    object, which are far fewer than 2^53, so here [++] is the successor. *)
Definition on_snd {C S A} (m : M S A) : M (C * S) A := fun st =>
  let '(r, s') := m st.2 in (r, (st.1, s')).
Definition incr {S} : M (Z * S) unit :=
  modify (fun st => ((st.1 + 1)%Z, st.2)).
Definition counting {S} (m : M (Z * S) unit) : M S Z := fun s =>
  match m (0%Z, s) with
  | (Ret _, (counter, s')) => (Ret counter, s')
  | (Throw e, (_, s')) => (Throw e, s')
  end.

(** ** Host code *)

(** What host code does is given for one state of the host: a predicate
    that answers by something else than its receiver and arguments, and a
    regular expression with the [g] or [y] flag, whose [lastIndex] moves
    with every test, have one [Host] per state, and a statement about two
    calls is about two calls in the same state. *)
Class Host := {
  (** [f.apply(thisArg, args)] for a rule predicate [f] *)
  apply_fn : nat -> Value -> list Value -> Res Value;
  (** [re.test(subject)] *)
  regex_test : nat -> Value -> Res bool;
  (** [subject instanceof item], [false] where the operator throws (the
      source catches that) *)
  instance_of : Value -> Value -> bool;
}.

(** ** [AllowedMethodsService] *)

Module AllowedMethodsService.

Definition is_upper (c : ascii) : bool :=
  let n := nat_of_ascii c in (65 <=? n) && (n <=? 90).
Definition is_lower (c : ascii) : bool :=
  let n := nat_of_ascii c in (97 <=? n) && (n <=? 122).
Definition is_digit (c : ascii) : bool :=
  let n := nat_of_ascii c in (48 <=? n) && (n <=? 57).
Definition lower (c : ascii) : ascii :=
  if is_upper c then ascii_of_nat (nat_of_ascii c + 32) else c.

(** [[a-z_$]] under the [i] flag *)
Definition ident_start (c : ascii) : bool :=
  is_lower c || is_upper c || Ascii.eqb c "_" || Ascii.eqb c "$".
(** [[a-zA-Z0-9_$]] *)
Definition ident_char (c : ascii) : bool := ident_start c || is_digit c.

Fixpoint all_chars (p : ascii -> bool) (s : string) : bool :=
  match s with
  | EmptyString => true
  | String c rest => p c && all_chars p rest
  end.

(** [METHOD_NAME_REGEX.test(s)], [/^[a-z_$][a-zA-Z0-9_$]*$/i] *)
Definition METHOD_NAME_REGEX (s : string) : bool :=
  match s with
  | EmptyString => false
  | String c rest => ident_start c && all_chars ident_char rest
  end.

Definition _getReservedWords : list string :=
  [ "abstract"; "arguments"; "await"; "boolean"; "break"; "byte";
    "case"; "catch"; "char"; "class"; "const"; "continue";
    "debugger"; "default"; "delete"; "do"; "double"; "else";
    "enum"; "eval"; "export"; "extends"; "false"; "final";
    "finally"; "float"; "for"; "function"; "goto"; "if";
    "implements"; "import"; "in"; "instanceof"; "int"; "interface";
    "let"; "long"; "native"; "new"; "null"; "package";
    "private"; "protected"; "public"; "return"; "short"; "static";
    "super"; "switch"; "synchronized"; "this"; "throw"; "throws";
    "transient"; "true"; "try"; "typeof"; "var"; "void";
    "volatile"; "while"; "with"; "yield" ].

Definition _getCustomUnsafeList : list string :=
  [ "constructor"; "prototype"; "hasOwnProperty"; "isPrototypeOf";
    "propertyIsEnumerable"; "toLocaleString"; "toString"; "valueOf" ].

Definition includes (xs : list string) (x : string) : bool :=
  existsb (String.eqb x) xs.

(** [isRestricted(methodName)], for a service whose dummy object has the own
    enumerable keys [dummyKeys] at the time of the call. *)
Definition isRestricted (dummyKeys : list string) (methodName : Value) : bool :=
  match methodName with
  | VString name =>
      if negb (METHOD_NAME_REGEX name) then true
      else includes dummyKeys name
           || includes _getCustomUnsafeList name
           || includes _getReservedWords name
  | _ => true
  end.

End AllowedMethodsService.

(** ** [Type]: the parsed rule string *)

Module Type_.

Import AllowedMethodsService.

Record t := mk {
  type : string;        (* the action, group 2 of the match *)
  raw : string;         (* the rule string *)
  _isPositive : bool;
}.

(** [str.match(TYPE_REGEX)]: the whole string is [can], an optional [not]
    (group 1), one space and an identifier (group 2), letters in either case.
    The result says whether group 1 took part, and gives group 2. *)
Definition TYPE_REGEX (str : string) : option (bool * string) :=
  match str with
  | String c (String a (String n rest)) =>
      if Ascii.eqb (lower c) "c" && Ascii.eqb (lower a) "a"
         && Ascii.eqb (lower n) "n"
      then
        match rest with
        | String " " action =>
            if METHOD_NAME_REGEX action then Some (false, action) else None
        | String n' (String o (String t' (String " " action))) =>
            if Ascii.eqb (lower n') "n" && Ascii.eqb (lower o) "o"
               && Ascii.eqb (lower t') "t" && METHOD_NAME_REGEX action
            then Some (true, action) else None
        | _ => None
        end
      else None
  | _ => None
  end.

(** The constructor, [validate] included (its service has the empty dummy
    object). *)
Definition new (str : Value) : Res t :=
  match str with
  | VString s =>
      match TYPE_REGEX s with
      | Some (not_, action) =>
          if isRestricted [] (VString action) then Throw WrongRuleDefinition
          else Ret {| type := action; raw := s; _isPositive := negb not_ |}
      | None => Throw WrongRuleDefinition
      end
  | _ => Throw WrongRuleDefinition
  end.

Definition isPositive (ty : t) : bool := _isPositive ty.
Definition isNegative (ty : t) : bool := negb (isPositive ty).
Definition isOfType (ty : t) (action : string) : bool :=
  String.eqb (type ty) action.

End Type_.

(** ** [Definition]: the classified rule definition *)

Module Definition_.

Inductive kind := items | regex | customMethod.

#[global] Instance kind_eq_dec : EqDecision kind.
Proof. solve_decision. Defined.

Record t := mk {
  raw : Value;
  type : kind;          (* [this[this.type]] is [raw] again *)
  ruleContext : Value;  (* [undefined] unless the function carries one *)
}.

(** [this.TYPES]: name, condition, strict by default. *)
Definition TYPES : list (kind * (Value -> bool) * bool) :=
  [ (items, fun ruleDef => isArray ruleDef && negb (isEmpty ruleDef), false);
    (regex, isRegExp, true);
    (customMethod, isFunction, true) ].

(** The [ruleContext] property of a function object; [fprops] holds the
    properties that were set. *)
Definition ruleContext_of (fprops : gmap nat Value) (v : Value) : Value :=
  match v with
  | VFunction f => default VUndefined (fprops !! f)
  | _ => VUndefined
  end.

(** The constructor, which is [_resolve]. *)
Definition new (fprops : gmap nat Value) (def : Value) : Res t :=
  match List.find (fun typeConfig => typeConfig.1.2 def) TYPES with
  | Some definitionObj =>
      Ret {| raw := def;
             type := definitionObj.1.1;
             ruleContext :=
               if isFunction def && truthy (ruleContext_of fprops def)
               then ruleContext_of fprops def else VUndefined |}
  | None => Throw WrongRuleDefinition
  end.

Definition _isStrictByDefault (ty : kind) : bool :=
  match List.find (fun t => bool_decide (ty = t.1.1)) TYPES with
  | Some typeConfig => typeConfig.2
  | None => false
  end.

(** [isStrict()]; the rule's [Type] is reached through [this.rule.type]. *)
Definition isStrict (rule_type : Type_.t) (d : t) : bool :=
  Type_.isNegative rule_type || _isStrictByDefault (type d).

End Definition_.

(** ** [Rule] *)

Module Rule.

Record t := mk {
  type : Type_.t;
  definition : Definition_.t;
  _perimeter : option nat;   (* set by [learnRules], a perimeter of the heap *)
}.

(** The constructor: the [Type] first, then the [Definition]. *)
Definition new (fprops : gmap nat Value) (str def : Value) : Res t :=
  ty ← Type_.new str;
  d ← Definition_.new fprops def;
  mret {| type := ty; definition := d; _perimeter := None |}.

Section Verify.
Context `{Host}.

(** [some(this.definition.items, item => isInstance || item === subject)] *)
Definition _verifyItems (r : t) (args : list Value) : Res Value :=
  let subject := arg 0 args in
  match Definition_.raw (definition r) with
  | VArray _ its =>
      Ret (VBool (existsb (fun item =>
                             instance_of subject item || strict_eq item subject)
                          its))
  | _ => Ret (VBool false)
  end.

Definition _verifyRegex (r : t) (args : list Value) : Res Value :=
  let subject := arg 0 args in
  match Definition_.raw (definition r) with
  | VRegExp re => b ← regex_test re subject; mret (VBool b)
  | _ => Throw TypeError
  end.

Definition _verifyCustomMethod (r : t) (args : list Value) : Res Value :=
  match Definition_.raw (definition r) with
  | VFunction f => apply_fn f (Definition_.ruleContext (definition r)) args
  | _ => Throw TypeError
  end.

(** The raw result, [this[verifyMethodName](...args)]. *)
Definition raw_result (r : t) (args : list Value) : Res Value :=
  match Definition_.type (definition r) with
  | Definition_.items => _verifyItems r args
  | Definition_.regex => _verifyRegex r args
  | Definition_.customMethod => _verifyCustomMethod r args
  end.

Definition verify (r : t) (args : list Value) : Res Value :=
  result ← raw_result r args;
  mret (if Type_.isPositive (type r) then result
        else VBool (negb (truthy result))).

End Verify.

End Rule.

(** A value that [isRule] accepts, or any other value. *)
Inductive RuleOrValue :=
| IsRule (r : Rule.t)
| NotRule (v : Value).

Definition isRule (x : RuleOrValue) : bool :=
  match x with IsRule _ => true | NotRule _ => false end.

(** ** Governesses *)

Inductive GovernessClass :=
| Head
| Easy
| German
| Middleware
| Strict.

#[global] Instance GovernessClass_eq_dec : EqDecision GovernessClass.
Proof. solve_decision. Defined.

(** The double nearest to the integer [m], ties to the even significand.
    An integer of magnitude up to 2^53 is a double; beyond, the doubles are
    2^e apart, where 2^(52+e) is the power of two at or below the
    magnitude. *)
Definition toDouble (m : Z) : Z :=
  let a := Z.abs m in
  if (a <=? 2 ^ 53)%Z then m
  else
    let e := (Z.log2 a - 52)%Z in
    let q := (a / 2 ^ e)%Z in
    let r := (a mod 2 ^ e)%Z in
    let half := (2 ^ (e - 1))%Z in
    let q' := if (r <? half)%Z then q
              else if (half <? r)%Z then (q + 1)%Z
              else if Z.even q then q else (q + 1)%Z in
    (Z.sgn m * (q' * 2 ^ e))%Z.

(** [n++] on a number that holds the integer [n]: the new value. *)
Definition plusPlus (n : Z) : Z := toDouble (n + 1).

(** A governess object.  The two counters are fields of [StrictGoverness]
    instances only; the methods of the other classes never touch them.
    They are numbers that hold integers. *)
Record Governess := mkGoverness {
  class : GovernessClass;
  rules : list Rule.t;
  _unguarded : bool;
  _guardCount : Z;
  _governedCount : Z;
}.

#[global] Instance Governess_inhabited : Inhabited Governess :=
  populate (mkGoverness Head [] false 0 0).

Definition set_rules (rs : list Rule.t) (g : Governess) : Governess :=
  mkGoverness (class g) rs (_unguarded g) (_guardCount g) (_governedCount g).
Definition set__unguarded (b : bool) (g : Governess) : Governess :=
  mkGoverness (class g) (rules g) b (_guardCount g) (_governedCount g).
Definition set__guardCount (n : Z) (g : Governess) : Governess :=
  mkGoverness (class g) (rules g) (_unguarded g) n (_governedCount g).
Definition set__governedCount (n : Z) (g : Governess) : Governess :=
  mkGoverness (class g) (rules g) (_unguarded g) (_guardCount g) n.

(** What [governed] and [doUnguarded] receive as [callback].  [Fn f] is a
    function, which runs with a receiver and arguments and may use the
    governess.  [HasApply a] is an object that is no function but has a
    method [apply]; [a] is what [callback.apply(receiver, args)] does.
    [NotFn v] is any other value: it is no function, and [v.apply] cannot
    be called. *)
Inductive Callable :=
| Fn (f : Value -> list Value -> M Governess Value)
| HasApply (a : Value -> list Value -> M Governess Value)
| NotFn (v : Value).

Module HeadGoverness.

Definition new : Governess := mkGoverness Head [] false 0 0.

(** The getter and the setter of [unguarded]. *)
Definition unguarded (g : Governess) : bool := _unguarded g.
Definition set_unguarded (value : bool) : M Governess unit :=
  modify (set__unguarded value).

Definition isUnguarded (g : Governess) : bool := unguarded g.
Definition isGuarded (g : Governess) : bool := negb (isUnguarded g).

(** [getRules(action)]: a falsy action, the empty string, selects all rules. *)
Definition getRules (g : Governess) (action : string) : list Rule.t :=
  if truthy (VString action)
  then List.filter (fun rule => Type_.isOfType (Rule.type rule) action)
                   (rules g)
  else rules g.

(** [rule.definition.isStrict] as [isAllowed] reads it: the property, not a
    call of it.  The property holds the method, a function object, and a
    function object is truthy whatever the method would return; [VFunction 0]
    stands for that object, and only its truthiness is used. *)
Definition isStrict_property (d : Definition_.t) : Value := VFunction 0.

Section Rules.
Context `{Host}.

(** The body of the [each] callback of [isAllowed]; the state is the pair
    [(allowRules, strictDisallowRules)]. *)
Definition isAllowed_visit (args : list Value) (rule : Rule.t)
  : M (list Rule.t * list Rule.t) unit :=
  verificationResult ← lift (Rule.verify rule args);
  (if Type_.isPositive (Rule.type rule) && truthy verificationResult
   then modify (fun st => (st.1 ++ [rule], st.2))
   else mret tt) ;;
  if Type_.isNegative (Rule.type rule) && truthy verificationResult
  then modify (fun st => (st.1, st.2 ++ [rule]))
  else if Type_.isPositive (Rule.type rule)
          && truthy (isStrict_property (Rule.definition rule))
          && negb (truthy verificationResult)
  then modify (fun st => (st.1, st.2 ++ [rule]))
  else mret tt.

Definition isAllowed (g : Governess) (action : string) (args : list Value)
  : Res bool :=
  if isUnguarded g then Ret true
  else
    match each (getRules g action) (isAllowed_visit args) ([], []) with
    | (Ret _, (allowRules, strictDisallowRules)) =>
        Ret (negb (bool_decide (allowRules = []))
             && bool_decide (strictDisallowRules = []))
    | (Throw e, _) => Throw e
    end.

Definition isNotAllowed (g : Governess) (action : string) (args : list Value)
  : Res bool :=
  b ← isAllowed g action args; mret (negb b).

(** [guard(action, ...args)] *)
Definition guard (g : Governess) (action : string) (args : list Value)
  : Res Value :=
  let target := arg 0 args in
  b ← isAllowed g action args;
  if b : bool then Ret target
  else Throw (AccessDenied
                ("Child is not allowed to " +:+ action +:+ " "
                 +:+ (if isString target then string_of target
                      else "the target") +:+ ".")).

End Rules.

(** [governed(callback, args, callingContext)]: [callback.apply], with no
    test of what [callback] is. *)
Definition governed (callback : Callable) (args : list Value)
    (callingContext : Value) : M Governess Value :=
  match callback with
  | Fn f => f callingContext args
  | HasApply a => a callingContext args
  | NotFn _ => throw TypeError
  end.

(** [addRule(...rules)] *)
Definition addRule_visit (rule : RuleOrValue) : M (Z * Governess) unit :=
  match rule with
  | NotRule _ => throw ArgumentError
  | IsRule r =>
      incr ;;
      on_snd (modify (fun g => set_rules (rules g ++ [r]) g))
  end.

Definition addRule (rs : list RuleOrValue) : M Governess Z :=
  counting (each rs addRule_visit).

(** [hasRule(perimeter, rule)] *)
Definition hasRule (g : Governess) (perimeter : nat) (rule : Rule.t) : bool :=
  existsb (fun r =>
             String.eqb (Type_.raw (Rule.type r)) (Type_.raw (Rule.type rule))
             && bool_decide (Rule._perimeter r = Some perimeter))
          (rules g).

Definition hasAnyRules (g : Governess) : bool :=
  negb (bool_decide (rules g = [])).

(** [doUnguarded(callback, context)] *)
Definition doUnguarded (callback : Callable) (context : Value)
  : M Governess Value :=
  let context := if truthy context then context else VNull in
  match callback with
  | Fn f =>
      previousUnguardedState ← gets unguarded;
      set_unguarded true ;;
      try_finally (f context []) (set_unguarded previousUnguardedState)
  | HasApply _ | NotFn _ => mret VUndefined
  end.

End HeadGoverness.

Module EasyGoverness.

(** [super(...args); this.unguarded = true] *)
Definition new : Governess :=
  (HeadGoverness.set_unguarded true
     (mkGoverness Easy [] false 0 0)).2.

End EasyGoverness.

Module StrictGoverness.

(** [super(...args)], then the two counters at 0 *)
Definition new : Governess :=
  set__governedCount 0 (set__guardCount 0 (mkGoverness Strict [] false 0 0)).

Definition _resetCounts : M Governess unit :=
  modify (set__guardCount 0) ;; modify (set__governedCount 0).

Definition message : string :=
  "StrictGoverness: guard() was not called for an exposed method or was called an incorrect number of times.".

Definition governed (callback : Callable) (args : list Value)
    (callingContext : Value) : M Governess Value :=
  returnVal ← HeadGoverness.governed callback args callingContext;
  modify (fun g => set__governedCount (plusPlus (_governedCount g)) g) ;;
  g ← gets id;
  if bool_decide (_governedCount g > _guardCount g)%Z
     && negb (HeadGoverness.unguarded g)
  then _resetCounts ;; throw (AccessDenied message)
  else mret returnVal.

Definition guard `{Host} (action : string) (args : list Value)
  : M Governess Value :=
  modify (fun g => set__guardCount (plusPlus (_guardCount g)) g) ;;
  g ← gets id;
  lift (HeadGoverness.guard g action args).

End StrictGoverness.

(** [g.guard(action, ...args)]: the method that the class of [g] has.
    [StrictGoverness] overrides [guard]; the other classes inherit it. *)
Definition governessGuard `{Host} (action : string) (args : list Value)
  : M Governess Value :=
  g ← gets id;
  match class g with
  | Strict => StrictGoverness.guard action args
  | _ => lift (HeadGoverness.guard g action args)
  end.

(** ** The heap: perimeters, purposes and sandboxes *)

(** A perimeter object, an instance of class [Perimeter] with the methods
    and accessors of the class.  The fields are its state, with the types
    the class gives them; [members] is what [perimeter[name]] evaluates to
    for every other name that resolves at all (the options mixed in by the
    constructor, and inherited methods). *)
Record PerimeterObj := mkPerimeter {
  _purpose : string;
  govern : list (string * Value);   (* own properties, in iteration order *)
  expose : list Value;
  p_governess : option nat;         (* [_governess], when a governess *)
  _sandbox : option nat;
  p_child : Value;
  purposeGoverness : option nat;
  members : gmap string Value;
}.

(** A purpose object: its name, its sandbox, and the trampolines installed
    on it as own properties, each the perimeter and the method it calls.
    Trampolines are installed here and never run. *)
Record PurposeObj := mkPurpose {
  _name : string;
  pu_sandbox : nat;
  trampolines : gmap string (nat * Value);
}.

(** A sandbox object; [s_purposes] are the own properties that
    [_extendPurpose] installed, a purpose under its name.  [s_prototype] is
    [None] while the prototype of the object is that of class [Sandbox],
    and the purpose that an assignment to [__proto__] has put in its
    place. *)
Record SandboxObj := mkSandbox {
  s_child : Value;
  s_governess : nat;
  _perimeters : list nat;
  s_purposes : gmap string nat;
  s_prototype : option nat;
}.

Record Heap := mkHeap {
  governesses : gmap nat Governess;
  perimeters : gmap nat PerimeterObj;
  purposes : gmap nat PurposeObj;
  sandboxes : gmap nat SandboxObj;
  fprops : gmap nat Value;   (* the [ruleContext] property of functions *)
  next : nat;                (* the next fresh object identity *)
}.

#[global] Instance PerimeterObj_inhabited : Inhabited PerimeterObj :=
  populate (mkPerimeter "" [] [] None None VUndefined None ∅).
#[global] Instance PurposeObj_inhabited : Inhabited PurposeObj :=
  populate (mkPurpose "" 0 ∅).
#[global] Instance SandboxObj_inhabited : Inhabited SandboxObj :=
  populate (mkSandbox VNull 0 [] ∅ None).

Definition set_governesses (f : gmap nat Governess -> gmap nat Governess)
    (h : Heap) : Heap :=
  mkHeap (f (governesses h)) (perimeters h) (purposes h) (sandboxes h)
         (fprops h) (next h).
Definition set_perimeters (f : gmap nat PerimeterObj -> gmap nat PerimeterObj)
    (h : Heap) : Heap :=
  mkHeap (governesses h) (f (perimeters h)) (purposes h) (sandboxes h)
         (fprops h) (next h).
Definition set_purposes (f : gmap nat PurposeObj -> gmap nat PurposeObj)
    (h : Heap) : Heap :=
  mkHeap (governesses h) (perimeters h) (f (purposes h)) (sandboxes h)
         (fprops h) (next h).
Definition set_sandboxes (f : gmap nat SandboxObj -> gmap nat SandboxObj)
    (h : Heap) : Heap :=
  mkHeap (governesses h) (perimeters h) (purposes h) (f (sandboxes h))
         (fprops h) (next h).
Definition set_fprops (f : gmap nat Value -> gmap nat Value) (h : Heap) : Heap :=
  mkHeap (governesses h) (perimeters h) (purposes h) (sandboxes h)
         (f (fprops h)) (next h).

(** A fresh object identity. *)
Definition alloc : M Heap nat := fun h =>
  (Ret (next h),
   mkHeap (governesses h) (perimeters h) (purposes h) (sandboxes h)
          (fprops h) (S (next h))).

Definition the_governess (g : nat) (h : Heap) : Governess :=
  governesses h !!! g.
Definition the_perimeter (p : nat) (h : Heap) : PerimeterObj :=
  perimeters h !!! p.
Definition the_purpose (pu : nat) (h : Heap) : PurposeObj :=
  purposes h !!! pu.
Definition the_sandbox (s : nat) (h : Heap) : SandboxObj :=
  sandboxes h !!! s.

(** A method of governess [g] run on the heap. *)
Definition onGoverness {A} (g : nat) (m : M Governess A) : M Heap A := fun h =>
  let '(r, g') := m (the_governess g h) in
  (r, set_governesses <[g := g']> h).

Definition update_perimeter (p : nat) (f : PerimeterObj -> PerimeterObj)
  : M Heap unit :=
  modify (fun h => set_perimeters <[p := f (the_perimeter p h)]> h).
Definition update_purpose (pu : nat) (f : PurposeObj -> PurposeObj)
  : M Heap unit :=
  modify (fun h => set_purposes <[pu := f (the_purpose pu h)]> h).
Definition update_sandbox (s : nat) (f : SandboxObj -> SandboxObj)
  : M Heap unit :=
  modify (fun h => set_sandboxes <[s := f (the_sandbox s h)]> h).

Definition isPerimeter (v : Value) : bool :=
  match v with VObject (PerimeterRef _) => true | _ => false end.
Definition isSandbox (v : Value) (h : Heap) : bool :=
  match v with
  | VObject (SandboxRef s) =>
      match s_prototype (the_sandbox s h) with
      | None => true
      | Some _ => false
      end
  | _ => false
  end.
Definition isPurpose (v : Value) : bool :=
  match v with VObject (PurposeRef _) => true | _ => false end.

(** [new Class()] for the class of a governess; [MiddlewareGoverness]
    refuses to be built without its middleware. *)
Definition construct (c : GovernessClass) : Res Governess :=
  match c with
  | Head => Ret HeadGoverness.new
  | Easy => Ret EasyGoverness.new
  | German => Ret (mkGoverness German [] false 0 0)
  | Strict => Ret StrictGoverness.new
  | Middleware => Throw GenericError
  end.

(** [HeadGoverness.learnRules(perimeter)], for governess [g] of the heap. *)
Definition learnRules_visit (g perimeter : nat) (entry : string * Value)
  : M (Z * Heap) unit :=
  let '(key, ruleDef) := entry in
  (match ruleDef with
   | VFunction f =>
       on_snd (modify (set_fprops (fun fp =>
         <[f := if truthy (Definition_.ruleContext_of fp ruleDef)
                then Definition_.ruleContext_of fp ruleDef
                else VObject (PerimeterRef perimeter)]> fp)))
   | _ => mret tt
   end) ;;
  fp ← on_snd (gets fprops);
  rule ← lift (Rule.new fp (VString key) ruleDef);
  let rule := Rule.mk (Rule.type rule) (Rule.definition rule) (Some perimeter) in
  gov ← on_snd (gets (the_governess g));
  if negb (HeadGoverness.hasRule gov perimeter rule)
  then on_snd (onGoverness g (HeadGoverness.addRule [IsRule rule])) ;; incr
  else mret tt.

Definition learnRules (g perimeter : nat) : M Heap Z := fun h =>
  counting (each (govern (the_perimeter perimeter h))
                 (learnRules_visit g perimeter)) h.

Module Perimeter.

Definition purpose (p : nat) (h : Heap) : string := _purpose (the_perimeter p h).
Definition sandbox (p : nat) (h : Heap) : option nat := _sandbox (the_perimeter p h).

Definition hasOwnGoverness (p : nat) (h : Heap) : bool :=
  bool_decide (is_Some (p_governess (the_perimeter p h))).

(** [isSandbox(this.sandbox) ? this.sandbox.governess : null]; the getter
    of the sandbox returns its [_governess]. *)
Definition sandbox_governess (p : nat) (h : Heap) : option nat :=
  match sandbox p h with
  | Some s =>
      if isSandbox (VObject (SandboxRef s)) h
      then Some (s_governess (the_sandbox s h))
      else None
  | None => None
  end.

(** The getter of [governess]: the perimeter's own one, else the one of its
    sandbox, else [null]. *)
Definition governess (p : nat) (h : Heap) : option nat :=
  match p_governess (the_perimeter p h) with
  | Some g => Some g
  | None => sandbox_governess p h
  end.

(** The setter of [sandbox]. *)
Definition set_sandbox (p : nat) (value : Value) : M Heap Value :=
  ok ← gets (isSandbox value);
  match value with
  | VObject (SandboxRef s) =>
      if ok : bool then
        child ← gets (fun h => s_child (the_sandbox s h));
        update_perimeter p (fun o =>
          mkPerimeter (_purpose o) (govern o) (expose o) (p_governess o)
                      (Some s) child (purposeGoverness o) (members o)) ;;
        mret value
      else throw NoSandboxError
  | _ => throw NoSandboxError
  end.

Definition set_purposeGoverness (p g : nat) : M Heap unit :=
  update_perimeter p (fun o =>
    mkPerimeter (_purpose o) (govern o) (expose o) (p_governess o)
                (_sandbox o) (p_child o) (Some g) (members o)).

(** The setter of [purpose]; its service has the empty dummy object. *)
Definition set_purpose (p : nat) (value : Value) : M Heap Value :=
  if negb (isString value) || AllowedMethodsService.isRestricted [] value
  then throw NoPurposeError
  else
    update_perimeter p (fun o =>
      mkPerimeter (string_of value) (govern o) (expose o) (p_governess o)
                  (_sandbox o) (p_child o) (purposeGoverness o) (members o)) ;;
    mret value.

(** The setter of [governess]: a governess is taken as it is, for any other
    value the governess of the sandbox, if there is a sandbox, else [null];
    what was stored then learns the rules. *)
Definition set_governess (p : nat) (value : Value) : M Heap Value :=
  stored ← gets (fun h =>
    match value with
    | VObject (GovernessRef g) => Some g
    | _ => sandbox_governess p h
    end);
  update_perimeter p (fun o =>
    mkPerimeter (_purpose o) (govern o) (expose o) stored
                (_sandbox o) (p_child o) (purposeGoverness o) (members o)) ;;
  (match stored with
   | Some g => learnRules g p ;; mret tt
   | None => mret tt
   end) ;;
  mret value.

(** [isAllowed(...args)]: forwarded to the governess the getter gives; on
    [null] the property read throws. *)
Definition isAllowed `{Host} (p : nat) (action : string) (args : list Value)
    (h : Heap) : Res bool :=
  match governess p h with
  | Some g => HeadGoverness.isAllowed (the_governess g h) action args
  | None => Throw TypeError
  end.

Definition isNotAllowed `{Host} (p : nat) (action : string)
    (args : list Value) (h : Heap) : Res bool :=
  match governess p h with
  | Some g => HeadGoverness.isNotAllowed (the_governess g h) action args
  | None => Throw TypeError
  end.

(** The names under which a perimeter has its state, as a field or through
    an accessor, and the name of its prototype: what [perimeter[name]]
    evaluates to for them is no function. *)
Definition state_names : list string :=
  [ "_purpose"; "purpose"; "_sandbox"; "sandbox"; "_governess"; "governess";
    "purposeGoverness"; "govern"; "expose"; "__proto__" ].

(** The function that [perimeter[name]] is, if it is one: the [child], which
    the setter of [sandbox] writes, or one of the other members. *)
Definition function_at (p : nat) (name : string) (h : Heap) : option Value :=
  if AllowedMethodsService.includes state_names name then None
  else
    let v := if String.eqb name "child" then p_child (the_perimeter p h)
             else default VUndefined (members (the_perimeter p h) !! name) in
    if isFunction v then Some v else None.

(** [obj[key] = value] on the own properties of an object, which keep their
    insertion order. *)
Fixpoint assign (key : string) (value : Value) (obj : list (string * Value))
  : list (string * Value) :=
  match obj with
  | [] => [(key, value)]
  | (k, v) :: rest =>
      if String.eqb k key then (key, value) :: rest
      else (k, v) :: assign key value rest
  end.

(** [obj[key]] for an own property. *)
Definition own_property (key : string) (obj : list (string * Value))
  : option Value :=
  match List.find (fun kv => String.eqb kv.1 key) obj with
  | Some kv => Some kv.2
  | None => None
  end.

(** [extractGovern({ govern, can, cannot })]; an absent option is [None]. *)
Definition extractGovern (govern can cannot : option (list (string * Value)))
  : list (string * Value) :=
  let govern := default [] govern in
  let govern :=
    fold_left (fun g kv => assign ("can " +:+ kv.1) kv.2 g)
              (default [] can) govern in
  fold_left (fun g kv => assign ("cannot " +:+ kv.1) kv.2 g)
            (default [] cannot) govern.

End Perimeter.

Module Purpose.

(** The constructor: the name must be a string and the sandbox a sandbox. *)
Definition new (name : Value) (sandbox : Value) : M Heap nat :=
  ok ← gets (isSandbox sandbox);
  match name, sandbox with
  | VString n, VObject (SandboxRef s) =>
      if ok : bool then
        pu ← alloc;
        modify (set_purposes <[pu := mkPurpose n s ∅]>) ;;
        mret pu
      else throw ArgumentError
  | _, _ => throw ArgumentError
  end.

(** The own enumerable keys of a purpose object. *)
Definition keys (o : PurposeObj) : list string :=
  ["_name"; "_sandbox"] ++ (map_to_list (trampolines o)).*1.

Definition _loadPerimeter_visit (pu perimeter : nat)
    (_initRestricted : list string) (exposedMethod : Value) : M Heap unit :=
  if AllowedMethodsService.isRestricted _initRestricted exposedMethod
  then throw RestrictedMethodError
  else
    method ← gets (Perimeter.function_at perimeter (string_of exposedMethod));
    match method with
    | None => throw NoExposedMethodError
    | Some method =>
        update_purpose pu (fun o =>
          mkPurpose (_name o) (pu_sandbox o)
            (<[string_of exposedMethod := (perimeter, method)]>
               (trampolines o)))
    end.

(** [_loadPerimeter(perimeter)]; the warning it may log is no part of the
    state. *)
Definition _loadPerimeter (pu : nat) (perimeter : Value) : M Heap unit :=
  match perimeter with
  | VObject (PerimeterRef p) =>
      exposedMethods ← gets (fun h => expose (the_perimeter p h));
      _initRestricted ← gets (fun h => keys (the_purpose pu h));
      match exposedMethods with
      | [] => mret tt
      | _ => each exposedMethods (_loadPerimeter_visit pu p _initRestricted)
      end
  | _ => throw ArgumentError
  end.

End Purpose.

Module Sandbox.

(** A member of class [Sandbox] is looked up when it is used.  An own
    property of the same name hides it, and the own properties that
    [_extendPurpose] makes are purposes, which are no functions: calling
    one is a [TypeError].  The member is also gone with the prototype of
    the class, and the call is a [TypeError] again, unless the purpose
    that is the prototype now has a trampoline of that name; that the
    embedding does not tell apart, as it never runs a trampoline, and the
    properties below that state an outcome for a call ask for an instance
    of the class. *)
Definition hides (o : SandboxObj) (member : string) : bool :=
  bool_decide (is_Some (s_purposes o !! member))
  || bool_decide (is_Some (s_prototype o)).

(** [this.member(...)] for a method that changes the heap, and for one that
    only reads it. *)
Definition method {A} (s : nat) (member : string) (body : M Heap A)
  : M Heap A := fun h =>
  if hides (the_sandbox s h) member then (Throw TypeError, h) else body h.

Definition query {A} (s : nat) (member : string) (body : Heap -> Res A)
    (h : Heap) : Res A :=
  if hides (the_sandbox s h) member then Throw TypeError else body h.

(** The body of [getPerimeters()]: the perimeters the sandbox holds. *)
Definition getPerimeters (s : nat) (h : Heap) : list nat :=
  _perimeters (the_sandbox s h).

(** Whether some perimeter that the sandbox holds has the purpose asked
    for, given as a perimeter or as a purpose name. *)
Definition holds (s : nat) (perimeter : Value) (h : Heap) : bool :=
  let purpose :=
    match perimeter with
    | VObject (PerimeterRef p) => VString (Perimeter.purpose p h)
    | _ => perimeter
    end in
  existsb (fun p => strict_eq (VString (Perimeter.purpose p h)) purpose)
          (getPerimeters s h).

(** [this.hasPerimeter(perimeter)], which calls [this.getPerimeters()] *)
Definition hasPerimeter (s : nat) (perimeter : Value) : Heap -> Res bool :=
  query s "hasPerimeter"
    (query s "getPerimeters" (fun h => Ret (holds s perimeter h))).

(** The first perimeter of that purpose among those the sandbox holds, or
    [null]. *)
Definition first_of (s : nat) (purpose : Value) (h : Heap) : Value :=
  match List.find (fun p => strict_eq (VString (Perimeter.purpose p h)) purpose)
                  (getPerimeters s h) with
  | Some p => VObject (PerimeterRef p)
  | None => VNull
  end.

(** [sandbox.getPerimeter(purpose)], which calls [this.getPerimeters()] *)
Definition getPerimeter (s : nat) (purpose : Value) : Heap -> Res Value :=
  query s "getPerimeter"
    (query s "getPerimeters" (fun h => Ret (first_of s purpose h))).

(** The own enumerable keys of a sandbox object. *)
Definition keys (o : SandboxObj) : list string :=
  ["child"; "_governess"; "_perimeters"] ++ (map_to_list (s_purposes o)).*1.

(** [this[name] = purpose].  The accessor [governess] of the class takes the
    value and refuses it, the accessor [__proto__] makes it the prototype;
    any other name becomes an own property. *)
Definition assign (s : nat) (name : string) (pu : nat) : M Heap unit :=
  o ← gets (the_sandbox s);
  if String.eqb name "governess"
     && negb (bool_decide (is_Some (s_prototype o)))
  then throw NoGovernessError
  else if String.eqb name "__proto__"
  then update_sandbox s (fun o =>
         mkSandbox (s_child o) (s_governess o) (_perimeters o)
                   (s_purposes o) (Some pu))
  else update_sandbox s (fun o =>
         mkSandbox (s_child o) (s_governess o) (_perimeters o)
                   (<[name := pu]> (s_purposes o)) (s_prototype o)).

(** [this._extendPurpose(perimeter)].  Where the prototype is that of the
    class, [this[name]] is a purpose only if it is an own property. *)
Definition _extendPurpose (s p : nat) : M Heap unit :=
  method s "_extendPurpose" (
    name ← gets (Perimeter.purpose p);
    restricted ← gets (fun h =>
      AllowedMethodsService.isRestricted (keys (the_sandbox s h))
                                         (VString name));
    if restricted : bool then throw RestrictedMethodError
    else
      existing ← gets (fun h => s_purposes (the_sandbox s h) !! name);
      pu ← match existing with
           | Some pu => mret pu
           | None => Purpose.new (VString name) (VObject (SandboxRef s))
           end;
      assign s name pu ;;
      Purpose._loadPerimeter pu (VObject (PerimeterRef p))).

(** The body of the [each] callback of [loadPerimeter]. *)
Definition loadPerimeter_visit (s : nat) (perimeter : Value)
  : M (Z * Heap) unit :=
  match perimeter with
  | VObject (PerimeterRef p) =>
      has ← on_snd (reads (hasPerimeter s perimeter));
      if has : bool then mret tt
      else
        own ← on_snd (gets (Perimeter.governess p));
        (match own with
         | Some g => on_snd (learnRules g p) ;; mret tt
         | None => mret tt
         end) ;;
        pg ← on_snd (gets (fun h => purposeGoverness (the_perimeter p h)));
        (match pg with
         | Some _ => mret tt
         | None =>
             main ← on_snd (gets (fun h =>
               the_governess (s_governess (the_sandbox s h)) h));
             fresh ← lift (construct (class main));
             g ← on_snd alloc;
             on_snd (modify (set_governesses <[g := fresh]>)) ;;
             on_snd (Perimeter.set_purposeGoverness p g) ;;
             on_snd (learnRules g p) ;; mret tt
         end) ;;
        main ← on_snd (gets (fun h => s_governess (the_sandbox s h)));
        on_snd (learnRules main p) ;;
        on_snd (Perimeter.set_sandbox p (VObject (SandboxRef s))) ;;
        on_snd (update_sandbox s (fun o =>
          mkSandbox (s_child o) (s_governess o) (_perimeters o ++ [p])
                    (s_purposes o) (s_prototype o))) ;;
        on_snd (_extendPurpose s p) ;;
        incr
  | _ => throw ArgumentError
  end.

(** [sandbox.loadPerimeter(...perimeters)] on sandbox [s] *)
Definition loadPerimeter (s : nat) (perimeters : list Value) : M Heap Z :=
  method s "loadPerimeter" (counting (each perimeters (loadPerimeter_visit s))).

(** [this._learnRules()]: the main governess learns the rules of every
    perimeter the sandbox holds. *)
Definition _learnRules (s : nat) : M Heap unit :=
  method s "_learnRules" (
    held ← reads (query s "getPerimeters" (fun h => Ret (getPerimeters s h)));
    each held (fun p =>
      main ← gets (fun h => s_governess (the_sandbox s h));
      learnRules main p ;; mret tt)).

(** The setter of [governess]. *)
Definition set_governess (s : nat) (value : Value) : M Heap Value :=
  match value with
  | VObject (GovernessRef g) =>
      update_sandbox s (fun o =>
        mkSandbox (s_child o) g (_perimeters o) (s_purposes o)
                  (s_prototype o)) ;;
      _learnRules s ;;
      mret value
  | _ => throw NoGovernessError
  end.

End Sandbox.

(** The queries of a purpose, [src/Purpose.js]: they go to the perimeter that
    the sandbox holds under the purpose's name, and there to the perimeter's
    own governess if it has one, else to its [purposeGoverness].  This is
    the method [isAllowed] of class [Purpose]; on a purpose that has a
    trampoline of that name, the name gives the trampoline. *)
Module PurposeQueries.

Definition isAllowed `{Host} (pu : nat) (action : string) (args : list Value)
    (h : Heap) : Res bool :=
  perimeter ← Sandbox.getPerimeter (pu_sandbox (the_purpose pu h))
                (VString (_name (the_purpose pu h))) h;
  match perimeter with
  | VObject (PerimeterRef p) =>
      if Perimeter.hasOwnGoverness p h
      then Perimeter.isAllowed p action args h
      else
        match purposeGoverness (the_perimeter p h) with
        | Some g => HeadGoverness.isAllowed (the_governess g h) action args
        | None => Throw TypeError
        end
  | _ => Throw TypeError
  end.

Definition isNotAllowed `{Host} (pu : nat) (action : string)
    (args : list Value) (h : Heap) : Res bool :=
  b ← isAllowed pu action args h; mret (negb b).

End PurposeQueries.

(** ** The verdict in the words of the specification *)

(** Whether rule [r] verifies true on [args]. *)
Definition verifies `{Host} (r : Rule.t) (args : list Value) : bool :=
  match Rule.verify r args with
  | Ret v => truthy v
  | Throw _ => false
  end.

(** Whether the definition of rule [r] is matched by [args]: the raw result
    of the verification, before [verify] looks at the polarity. *)
Definition matched `{Host} (r : Rule.t) (args : list Value) : bool :=
  match Rule.raw_result r args with
  | Ret v => truthy v
  | Throw _ => false
  end.

(** A strict block, as the specification words it: a forbid rule whose
    verification is true, which the specification has exactly when the
    forbidden condition is matched, or a strict permit rule whose
    verification is false.  Strictness is the result of calling
    [isStrict()]. *)
Definition strict_block `{Host} (args : list Value) (r : Rule.t) : bool :=
  Type_.isNegative (Rule.type r) && matched r args
  || Type_.isPositive (Rule.type r)
     && Definition_.isStrict (Rule.type r) (Rule.definition r)
     && negb (matched r args).

(** A verified permit rule; the verification of a permit rule is its raw
    result. *)
Definition allows `{Host} (args : list Value) (r : Rule.t) : bool :=
  Type_.isPositive (Rule.type r) && verifies r args.

(** The rules that match an action. *)
Definition matching (g : Governess) (action : string) : list Rule.t :=
  List.filter (fun r => Type_.isOfType (Rule.type r) action) (rules g).

(** The verdict of a guarded governess in the specification's words: the
    allow set is not empty and the strict block set is empty. *)
Definition isAllowed_spec `{Host} (g : Governess) (action : string)
    (args : list Value) : bool :=
  existsb (allows args) (matching g action)
  && negb (existsb (strict_block args) (matching g action)).

(** What the code of [isAllowed] takes for a block: a forbid rule for which
    [verify] returned true, and any permit rule whose verification is
    false, strict or not. *)
Definition code_block `{Host} (args : list Value) (r : Rule.t) : bool :=
  Type_.isNegative (Rule.type r) && verifies r args
  || Type_.isPositive (Rule.type r) && negb (verifies r args).


(** A method keeps the relation [R] between the heap before and the heap
    after it, however it ends. *)
Definition preserves {A} (R : Heap -> Heap -> Prop) (m : M Heap A) : Prop :=
  forall h, R h (m h).2.

(** The perimeters that sandbox [s] holds are the same in both heaps. *)
Definition same_perimeters (s : nat) (h h' : Heap) : Prop :=
  _perimeters (the_sandbox s h') = _perimeters (the_sandbox s h).

(** Governess [g] of heap [h] holds a rule of the text [key] that came from
    perimeter [p]; this is the test of [hasRule]. *)
Definition known (g p : nat) (key : string) (h : Heap) : bool :=
  existsb (fun r =>
             String.eqb (Type_.raw (Rule.type r)) key
             && bool_decide (Rule._perimeter r = Some p))
          (rules (the_governess g h)).

(** What [hasRule] tells rules apart by: the rule text and the perimeter of
    origin. *)
Definition tag (r : Rule.t) : string * option nat :=
  (Type_.raw (Rule.type r), Rule._perimeter r).

(** No two perimeters that sandbox [s] holds have the same purpose. *)
Definition unique_purposes (s : nat) (h : Heap) : Prop :=
  NoDup (map (fun q => Perimeter.purpose q h) (Sandbox.getPerimeters s h)).

(** The frame of [learnRules] for governess [g]: only the rule list of [g]
    and the [ruleContext] of functions can differ, and the rule list only
    by rules appended. *)
Definition taught (g : nat) (h h' : Heap) : Prop :=
  perimeters h' = perimeters h
  /\ purposes h' = purposes h
  /\ sandboxes h' = sandboxes h
  /\ next h' = next h
  /\ (forall g', g' <> g -> governesses h' !! g' = governesses h !! g')
  /\ class (the_governess g h') = class (the_governess g h)
  /\ _unguarded (the_governess g h') = _unguarded (the_governess g h)
  /\ _guardCount (the_governess g h') = _guardCount (the_governess g h)
  /\ _governedCount (the_governess g h') = _governedCount (the_governess g h)
  /\ exists added, rules (the_governess g h') = rules (the_governess g h) ++ added.

(** A [ruleContext] that is set and truthy in [h] is the same in [h']. *)
Definition contexts_kept (h h' : Heap) : Prop :=
  forall f v, fprops h !! f = Some v -> truthy v = true ->
              fprops h' !! f = Some v.

(** The heap after the first step of [learnRules] for a definition: a
    function gets the perimeter as its [ruleContext] unless it has a truthy
    one. *)
Definition with_context (p : nat) (def : Value) (h : Heap) : Heap :=
  match def with
  | VFunction f =>
      set_fprops
        (fun fp => <[f := if truthy (Definition_.ruleContext_of fp def)
                          then Definition_.ruleContext_of fp def
                          else VObject (PerimeterRef p)]> fp) h
  | _ => h
  end.

(** What [learnRules] leaves behind for an entry of [govern] that it got
    through: the governess holds a rule of that text from the perimeter, the
    entry makes a rule, and a function that defines it has a truthy
    [ruleContext]. *)
Definition learnt (g p : nat) (h : Heap) (entry : string * Value) : Prop :=
  known g p entry.1 h = true
  /\ (exists r, Rule.new ∅ (VString entry.1) entry.2 = Ret r)
  /\ (forall f, entry.2 = VFunction f ->
                exists v, fprops h !! f = Some v /\ truthy v = true).

(** The steps of [loadPerimeter] for a perimeter that the sandbox does not
    hold yet, in three groups: the shadow governess, [purposeGoverness], is
    made and taught if there is none; before that the perimeter's own
    governess and after it the main governess learn the rules; then the
    perimeter is bound and listed and its purpose extended. *)
Definition teach_shadow (s p : nat) : M Heap unit :=
  pg ← gets (fun h => purposeGoverness (the_perimeter p h));
  match pg with
  | Some _ => mret tt
  | None =>
      main ← gets (fun h => the_governess (s_governess (the_sandbox s h)) h);
      fresh ← lift (construct (class main));
      g ← alloc;
      modify (set_governesses <[g := fresh]>) ;;
      Perimeter.set_purposeGoverness p g ;;
      learnRules g p ;; mret tt
  end.

Definition prepare (s p : nat) : M Heap unit :=
  own ← gets (Perimeter.governess p);
  (match own with
   | Some g => learnRules g p ;; mret tt
   | None => mret tt
   end) ;;
  teach_shadow s p ;;
  main ← gets (fun h => s_governess (the_sandbox s h));
  learnRules main p ;; mret tt.

Definition attach (s p : nat) : M Heap unit :=
  Perimeter.set_sandbox p (VObject (SandboxRef s)) ;;
  update_sandbox s (fun o =>
    mkSandbox (s_child o) (s_governess o) (_perimeters o ++ [p])
              (s_purposes o) (s_prototype o)) ;;
  Sandbox._extendPurpose s p.

(** What a perimeter declares is the same in both objects: the purpose, the
    rules, what is exposed, its own governess and its members. *)
Definition same_declaration (o o' : PerimeterObj) : Prop :=
  _purpose o' = _purpose o
  /\ govern o' = govern o
  /\ expose o' = expose o
  /\ p_governess o' = p_governess o
  /\ members o' = members o.

(** From [h] to [h'] nothing was taken away: identities were only handed
    out; every perimeter declares what it declared; every sandbox has the
    governess it had, and holds the perimeters it held, in their order,
    and maybe more after them; every governess that existed has the class
    and the guard flag it had, and the rules it had, in their order, and
    maybe more after them. *)
Definition grown (h h' : Heap) : Prop :=
  next h <= next h'
  /\ (forall q, same_declaration (the_perimeter q h) (the_perimeter q h'))
  /\ (forall t,
        s_governess (the_sandbox t h') = s_governess (the_sandbox t h)
        /\ exists more,
             _perimeters (the_sandbox t h') = _perimeters (the_sandbox t h) ++ more)
  /\ (forall g, g < next h ->
        class (the_governess g h') = class (the_governess g h)
        /\ _unguarded (the_governess g h') = _unguarded (the_governess g h)
        /\ exists added,
             rules (the_governess g h') = rules (the_governess g h) ++ added).

(** The main governess of sandbox [s] holds a rule for every rule string of
    every perimeter that the sandbox holds. *)
Definition main_informed (s : nat) (h : Heap) : Prop :=
  forall p key def,
    In p (Sandbox.getPerimeters s h) ->
    In (key, def) (govern (the_perimeter p h)) ->
    known (s_governess (the_sandbox s h)) p key h = true.

(** From [h] to [h'] only sandboxes and purposes were touched: the
    governesses, the perimeters and the [ruleContext] of functions are the
    same. *)
Definition rewired (h h' : Heap) : Prop :=
  governesses h' = governesses h
  /\ perimeters h' = perimeters h
  /\ fprops h' = fprops h.

(** From [h] to [h'] the sandboxes are the same, and purpose [pu] has the
    name and the sandbox it had. *)
Definition purpose_kept (pu : nat) (h h' : Heap) : Prop :=
  sandboxes h' = sandboxes h
  /\ _name (the_purpose pu h') = _name (the_purpose pu h)
  /\ pu_sandbox (the_purpose pu h') = pu_sandbox (the_purpose pu h).

(** A method throws nothing but errors in [P]. *)
Definition throws_only {S A} (P : Error -> Prop) (m : M S A) : Prop :=
  forall s e, (m s).1 = Throw e -> P e.

(** The heap after [_extendPurpose] made the purpose object for perimeter
    [p] and installed it on sandbox [s] under its name. *)
Definition installed (s p : nat) (h : Heap) : Heap :=
  let name := Perimeter.purpose p h in
  (Sandbox.assign s name (next h)
     (Purpose.new (VString name) (VObject (SandboxRef s)) h).2).2.

(** From [h] to [h'] the perimeters and the sandboxes are the same. *)
Definition same_objects (h h' : Heap) : Prop :=
  perimeters h' = perimeters h /\ sandboxes h' = sandboxes h.

(** From [h] to [h'] the sandboxes are the same. *)
Definition sandboxes_kept (h h' : Heap) : Prop := sandboxes h' = sandboxes h.

(** ** Sample host code and sample objects *)

Module Sample.

(** Predicate 0 answers [true], predicate 1 answers [false], predicate 2
    throws, any other one answers whether its first argument is the text
    [admin]; regular expression 0 accepts the strings that start with a
    slash; no host object is an instance of anything. *)
Definition host : Host := {|
  apply_fn := fun f _ args =>
    match f with
    | 0 => Ret (VBool true)
    | 1 => Ret (VBool false)
    | 2 => Throw (HostError (VString "boom"))
    | _ => Ret (VBool (strict_eq (arg 0 args) (VString "admin")))
    end;
  regex_test := fun _ subject =>
    match subject with
    | VString (String "/" _) => Ret true
    | _ => Ret false
    end;
  instance_of := fun _ _ => false;
|}.

(** [new Rule(str, def)] where it succeeds, a rule on the predicate that
    throws otherwise. *)
Definition rule (str : string) (def : Value) : Rule.t :=
  match Rule.new ∅ (VString str) def with
  | Ret r => r
  | Throw _ =>
      Rule.mk (Type_.mk "none" "can none" true)
              (Definition_.mk (VFunction 2) Definition_.customMethod VUndefined)
              None
  end.

Definition can_read_a : Rule.t := rule "can read" (VArray 0 [VString "a"]).
Definition can_read_b : Rule.t := rule "can read" (VArray 1 [VString "b"]).
Definition can_play : Rule.t := rule "can play" (VFunction 0).
Definition cannot_play : Rule.t := rule "cannot play" (VFunction 0).
Definition cannot_run : Rule.t :=
  rule "cannot run" (VArray 2 [VString "slippery"]).

Definition can_run : Rule.t := rule "can run" (VFunction 0).

(** A guarded governess that holds [can run], always verified, and
    [cannot run: ['slippery']]. *)
Definition runner : Governess :=
  (HeadGoverness.addRule [IsRule can_run; IsRule cannot_run]
     HeadGoverness.new).2.

(** A heap with governess 0 and the perimeter 0 of purpose [games], which
    governs [can play] by the boolean [true]. *)
Definition boolean_heap : Heap := {|
  governesses := {[0 := HeadGoverness.new]};
  perimeters :=
    {[0 := mkPerimeter "games" [("can play", VBool true)] [] None None
             VUndefined None ∅ ]};
  purposes := ∅;
  sandboxes := ∅;
  fprops := ∅;
  next := 1;
|}.

(** A guarded governess that holds [can read: ['a']] and [can read: ['b']]. *)
Definition two_readers : Governess :=
  (HeadGoverness.addRule [IsRule can_read_a; IsRule can_read_b]
     HeadGoverness.new).2.

(** An [EasyGoverness] that was taught [cannot run: ['slippery']]. *)
Definition easy_no_running : Governess :=
  (HeadGoverness.addRule [IsRule cannot_run] EasyGoverness.new).2.

(** A [StrictGoverness] that holds [can play], always verified. *)
Definition strict_player : Governess :=
  (HeadGoverness.addRule [IsRule can_play] StrictGoverness.new).2.




(** A guarded governess that holds [can jump], by the predicate that
    throws. *)
Definition can_jump : Rule.t := rule "can jump" (VFunction 2).
Definition jumper : Governess :=
  (HeadGoverness.addRule [IsRule can_jump] HeadGoverness.new).2.

(** A callback that throws after it turned the guard on again. *)
Definition failing_callback : Value -> list Value -> M Governess Value :=
  fun _ _ => HeadGoverness.set_unguarded false ;;
             throw (HostError (VString "boom")).

(** A heap with the sandboxes 0 and 1, each with a [HeadGoverness] of its
    own (governesses 0 and 1), and the perimeter 0 of purpose [playground],
    which governs [can play] by predicate 0 and exposes [play]. *)
Definition heap0 : Heap := {|
  governesses := <[1 := HeadGoverness.new]> {[0 := HeadGoverness.new]};
  perimeters :=
    {[0 := mkPerimeter "playground" [("can play", VFunction 0)]
             [VString "play"] None None VUndefined None
             {["play" := VFunction 7]} ]};
  purposes := ∅;
  sandboxes := <[1 := mkSandbox (VString "bob") 1 [] ∅ None]>
                 {[0 := mkSandbox (VString "alice") 0 [] ∅ None]};
  fprops := ∅;
  next := 2;
|}.

Definition playground : Value := VObject (PerimeterRef 0).

(** [heap0] after [sandbox0.loadPerimeter(playground)]. *)
Definition heap1 : Heap :=
  (Sandbox.loadPerimeter 0 [playground] heap0).2.

(** [heap0] with one more perimeter, 1, of purpose [kitchen], which governs
    [can cook] by predicate 0 and exposes [cook] but has no such method. *)
Definition kitchen_heap : Heap :=
  set_perimeters
    <[1 := mkPerimeter "kitchen" [("can cook", VFunction 0)]
             [VString "cook"] None None VUndefined None ∅ ]> heap0.

Definition kitchen : Value := VObject (PerimeterRef 1).

(** [heap0] with one more perimeter, 1, of purpose [hasPerimeter], which
    governs and exposes nothing, and the heap after
    [sandbox0.loadPerimeter(checker)]. *)
Definition checker_heap : Heap :=
  set_perimeters
    <[1 := mkPerimeter "hasPerimeter" [] [] None None VUndefined None ∅ ]>
    heap0.

Definition checker : Value := VObject (PerimeterRef 1).

Definition checked_heap : Heap :=
  (Sandbox.loadPerimeter 0 [checker] checker_heap).2.

End Sample.

(** * Properties *)

(** ** The monad *)

Lemma each_app {S A} (xs ys : list A) (f : A -> M S unit) (s : S) :
  each (xs ++ ys) f s =
  match each xs f s with
  | (Ret _, s') => each ys f s'
  | (Throw e, s') => (Throw e, s')
  end.
Proof.
  revert s. induction xs as [|x xs IH]; intros s; simpl; [done|].
  unfold mbind, M_bind. destruct (f x s) as [[[]|e] s']; auto.
Qed.

Lemma each_cons {S A} (x : A) (xs : list A) (f : A -> M S unit) (s : S) :
  each (x :: xs) f s =
  match f x s with
  | (Ret _, s') => each xs f s'
  | (Throw e, s') => (Throw e, s')
  end.
Proof. simpl. unfold mbind, M_bind. by destruct (f x s) as [[[]|e] s']. Qed.

(** ** [addRule] *)

Lemma set_rules_id (g : Governess) : set_rules (rules g) g = g.
Proof. by destruct g. Qed.

Lemma addRule_visit_rules (rs : list Rule.t) (counter : Z) (g : Governess) :
  each (map IsRule rs) HeadGoverness.addRule_visit (counter, g) =
  (Ret tt, ((counter + Z.of_nat (length rs))%Z, set_rules (rules g ++ rs) g)).
Proof.
  revert counter g. induction rs as [|r rs IH]; intros counter g.
  - simpl. by rewrite Z.add_0_r, app_nil_r, set_rules_id.
  - rewrite fmap_cons, each_cons. simpl. rewrite IH. simpl.
    rewrite <- app_assoc. simpl.
    f_equal. f_equal. lia.
Qed.

(** Rules only: all of them are appended, and counted. *)
Lemma addRule_rules (rs : list Rule.t) (g : Governess) :
  HeadGoverness.addRule (map IsRule rs) g =
  (Ret (Z.of_nat (length rs)), set_rules (rules g ++ rs) g).
Proof.
  unfold HeadGoverness.addRule, counting. by rewrite addRule_visit_rules.
Qed.

(** C10. [addRule] is not atomic: with a value that is no rule among the
    arguments it throws [ArgumentError], and by then every rule before the
    first such value has been appended to the rule list, in order, while
    nothing at or after that position is added. *)
Theorem addRule_not_atomic (before : list Rule.t) (v : Value)
    (after : list RuleOrValue) (g : Governess) :
  HeadGoverness.addRule (map IsRule before ++ NotRule v :: after) g =
  (Throw ArgumentError, set_rules (rules g ++ before) g).
Proof.
  unfold HeadGoverness.addRule, counting.
  by rewrite each_app, addRule_visit_rules, each_cons.
Qed.

(** ** [doUnguarded] *)

(** C7. [doUnguarded] runs a function callback on the governess with
    [unguarded] set, on the receiver [context || null] and without
    arguments; whatever the callback did to the flag, and whether it
    returned or threw, [unguarded] then has the value it had before the
    call; the outcome of the callback, its return value or what it threw, is
    the outcome of [doUnguarded]. *)
Theorem doUnguarded_restores (f : Value -> list Value -> M Governess Value)
    (context : Value) (g : Governess) :
  let entry := set__unguarded true g in
  let ran := f (if truthy context then context else VNull) [] entry in
  HeadGoverness.unguarded entry = true
  /\ HeadGoverness.doUnguarded (Fn f) context g =
     (ran.1, set__unguarded (HeadGoverness.unguarded g) ran.2)
  /\ HeadGoverness.unguarded (HeadGoverness.doUnguarded (Fn f) context g).2 =
     HeadGoverness.unguarded g
  /\ (forall v, ran.1 = Ret v ->
        (HeadGoverness.doUnguarded (Fn f) context g).1 = Ret v).
Proof.
  intros entry ran.
  assert (E : HeadGoverness.doUnguarded (Fn f) context g =
              (ran.1, set__unguarded (HeadGoverness.unguarded g) ran.2)).
  { unfold HeadGoverness.doUnguarded, try_finally, HeadGoverness.set_unguarded,
      gets, modify, mbind, M_bind. simpl. fold entry. fold ran.
    by destruct ran. }
  rewrite E. by repeat split.
Qed.

(** A value that is no function is not called, whether or not it has a
    method [apply]: [undefined] comes back and nothing changes. *)
Lemma doUnguarded_not_a_function (v context : Value) (g : Governess)
    (a : Value -> list Value -> M Governess Value) :
  HeadGoverness.doUnguarded (NotFn v) context g = (Ret VUndefined, g)
  /\ HeadGoverness.doUnguarded (HasApply a) context g = (Ret VUndefined, g).
Proof. done. Qed.

(** ** [Rule.verify] *)

Section RuleFacts.
Context `{Host}.

Lemma verify_permit (r : Rule.t) (args : list Value) :
  Type_.isPositive (Rule.type r) = true ->
  Rule.verify r args = Rule.raw_result r args.
Proof.
  intros Hpos. unfold Rule.verify. rewrite Hpos.
  by destruct (Rule.raw_result r args).
Qed.

(** What [verify] does for a rule of forbid polarity: it returns the
    negation of the raw result of the definition, [true] exactly when the
    forbidden condition is not matched by the arguments and [false] exactly
    when it is matched. *)
Theorem verify_forbid_negates (r : Rule.t) (args : list Value) (raw : Value) :
  Type_.isNegative (Rule.type r) = true ->
  Rule.raw_result r args = Ret raw ->
  Rule.verify r args = Ret (VBool (negb (truthy raw))).
Proof.
  unfold Type_.isNegative, Rule.verify. intros Hneg ->. simpl.
  by destruct (Type_.isPositive (Rule.type r)).
Qed.

(** What the definition throws, [verify] throws. *)
Lemma verify_throws (r : Rule.t) (args : list Value) (e : Error) :
  Rule.raw_result r args = Throw e -> Rule.verify r args = Throw e.
Proof. unfold Rule.verify. by intros ->. Qed.

End RuleFacts.

(** The constructor of [Type] throws nothing but [WrongRuleDefinition]. *)
Lemma Type_new_throws (str : Value) (e : Error) :
  Type_.new str = Throw e -> e = WrongRuleDefinition.
Proof.
  unfold Type_.new. destruct str; try congruence.
  destruct (Type_.TYPE_REGEX s) as [[not_ action]|]; [|congruence].
  destruct (AllowedMethodsService.isRestricted [] (VString action));
    congruence.
Qed.

(** The constructor of [Rule] throws for every definition that is no
    non-empty array, no regular expression and no function. *)
Lemma Rule_new_unclassified (fprops : gmap nat Value) (str def : Value) :
  isArray def && negb (isEmpty def) = false ->
  isRegExp def = false ->
  isFunction def = false ->
  Rule.new fprops str def = Throw WrongRuleDefinition.
Proof.
  intros Ha Hr Hf. unfold Rule.new, Definition_.new. simpl.
  rewrite Ha, Hr, Hf. destruct (Type_.new str) as [ty|e] eqn:E; [done|].
  by rewrite (Type_new_throws _ _ E).
Qed.

(** C3.  No rule has a boolean definition: the constructor of [Rule] throws
    [WrongRuleDefinition] for it, whatever the rule string, because no entry
    of [TYPES] accepts a boolean. *)
Theorem Rule_new_boolean_definition (fprops : gmap nat Value) (str : Value)
    (b : bool) :
  Rule.new fprops str (VBool b) = Throw WrongRuleDefinition.
Proof.
  unfold Rule.new. destruct (Type_.new str) as [ty|e] eqn:E; [done|].
  by rewrite (Type_new_throws _ _ E).
Qed.

(** So a governess cannot be taught a rule with a boolean definition:
    [learnRules] throws at the first one it meets among the perimeter's
    rules. *)
Lemma learnRules_boolean_definition (g p : nat) (h : Heap) (key : string)
    (b : bool) (rest : list (string * Value)) :
  govern (the_perimeter p h) = (key, VBool b) :: rest ->
  learnRules g p h = (Throw WrongRuleDefinition, h).
Proof.
  intros Hgov. unfold learnRules, counting. rewrite Hgov, each_cons.
  unfold learnRules_visit, on_snd, gets, lift, mbind, M_bind. simpl.
  by rewrite Rule_new_unclassified.
Qed.

Lemma learnRules_boolean_definition_witness :
  learnRules 0 0 Sample.boolean_heap
  = (Throw WrongRuleDefinition, Sample.boolean_heap).
Proof.
  apply (learnRules_boolean_definition 0 0 Sample.boolean_heap "can play"
           true []).
  reflexivity.
Defined.

(** ** [isAllowed] and [guard] *)

Section GovernessFacts.
Context `{Host}.

Lemma filter_nil_existsb {A} (P : A -> bool) (l : list A) :
  List.filter P l = [] <-> existsb P l = false.
Proof.
  induction l as [|x l IH]; simpl; [done|].
  destruct (P x); simpl; [split; intros; discriminate | exact IH].
Qed.

Lemma is_nil_existsb {A} (P : A -> bool) (l : list A) :
  bool_decide (List.filter P l = []) = negb (existsb P l).
Proof.
  destruct (existsb P l) eqn:E; simpl.
  - apply bool_decide_eq_false. rewrite filter_nil_existsb. congruence.
  - apply bool_decide_eq_true. by rewrite filter_nil_existsb.
Qed.

(** The loop of [isAllowed] when no matching rule throws: the allow rules
    are the verified permit rules, the strict disallow rules the verified
    forbid rules and every permit rule that fails. *)
Lemma isAllowed_visit_each (args : list Value) (rs allowRules sdRules : list Rule.t) :
  Forall (fun r => exists v, Rule.verify r args = Ret v) rs ->
  each rs (HeadGoverness.isAllowed_visit args) (allowRules, sdRules) =
  (Ret tt, (allowRules ++ List.filter (allows args) rs,
            sdRules ++ List.filter (code_block args) rs)).
Proof.
  intros Hok. revert allowRules sdRules.
  induction Hok as [|r rs [v Hv] _ IH]; intros allowRules sdRules.
  - simpl. by rewrite !app_nil_r.
  - rewrite each_cons.
    assert (Hvis : HeadGoverness.isAllowed_visit args r (allowRules, sdRules) =
                   (Ret tt, (allowRules ++ List.filter (allows args) [r],
                             sdRules ++ List.filter (code_block args) [r]))).
    { assert (Hver : verifies r args = truthy v)
        by (unfold verifies; by rewrite Hv).
      unfold HeadGoverness.isAllowed_visit, allows, code_block,
        Type_.isNegative, lift, modify, mbind, M_bind.
      cbn [List.filter]. rewrite Hv, Hver. simpl.
      destruct (Type_.isPositive (Rule.type r)), (truthy v); simpl;
        rewrite ?app_nil_r; reflexivity. }
    rewrite Hvis, IH. simpl.
    rewrite <- !app_assoc.
    by destruct (allows args r), (code_block args r).
Qed.

(** What [isAllowed] computes for a guarded governess. *)
Lemma isAllowed_guarded (g : Governess) (action : string) (args : list Value) :
  HeadGoverness.isUnguarded g = false ->
  Forall (fun r => exists v, Rule.verify r args = Ret v)
         (HeadGoverness.getRules g action) ->
  HeadGoverness.isAllowed g action args =
  Ret (existsb (allows args) (HeadGoverness.getRules g action)
       && negb (existsb (code_block args) (HeadGoverness.getRules g action))).
Proof.
  intros Hg Hok. unfold HeadGoverness.isAllowed. rewrite Hg.
  rewrite (isAllowed_visit_each _ _ _ _ Hok). simpl.
  by rewrite !is_nil_existsb, negb_involutive.
Qed.

Lemma isAllowed_unguarded (g : Governess) (action : string) (args : list Value) :
  HeadGoverness.isUnguarded g = true ->
  HeadGoverness.isAllowed g action args = Ret true.
Proof. unfold HeadGoverness.isAllowed. by intros ->. Qed.

Lemma getRules_matching (g : Governess) (action : string) :
  action <> "" -> HeadGoverness.getRules g action = matching g action.
Proof.
  intros Hne. unfold HeadGoverness.getRules, matching. simpl.
  destruct (String.eqb_spec action ""); [done|]. done.
Qed.

(** An empty action selects every rule. *)
Lemma getRules_empty_action (g : Governess) :
  HeadGoverness.getRules g "" = rules g.
Proof. done. Qed.

(** A guarded governess denies an action that no rule matches. *)
Lemma isAllowed_no_matching_rule (g : Governess) (action : string)
    (args : list Value) :
  HeadGoverness.isUnguarded g = false ->
  action <> "" ->
  matching g action = [] ->
  HeadGoverness.isAllowed g action args = Ret false.
Proof.
  intros Hg Hne Hnone. rewrite isAllowed_guarded; [|done|].
  - by rewrite getRules_matching, Hnone.
  - rewrite getRules_matching, Hnone; [constructor | done].
Qed.

(** The verification of a permit rule is its raw result. *)
Lemma verifies_permit (r : Rule.t) (args : list Value) :
  Type_.isPositive (Rule.type r) = true -> verifies r args = matched r args.
Proof.
  intros Hpos. unfold verifies, matched, Rule.verify. rewrite Hpos.
  by destruct (Rule.raw_result r args).
Qed.

(** Where every matching rule is a permit rule, and every one of them that
    fails is strict, the code and the specification's verdict agree. *)
Lemma isAllowed_agrees_with_spec (g : Governess) (action : string)
    (args : list Value) :
  HeadGoverness.isUnguarded g = false ->
  action <> "" ->
  Forall (fun r => exists v, Rule.verify r args = Ret v) (matching g action) ->
  Forall (fun r => Type_.isPositive (Rule.type r) = true) (matching g action) ->
  Forall (fun r => verifies r args = false ->
                   Definition_.isStrict (Rule.type r) (Rule.definition r) = true)
         (matching g action) ->
  HeadGoverness.isAllowed g action args = Ret (isAllowed_spec g action args).
Proof.
  intros Hg Hne Hok Hpermit Hstrict.
  rewrite isAllowed_guarded, getRules_matching by (by rewrite ?getRules_matching).
  unfold isAllowed_spec. do 3 f_equal.
  induction Hstrict as [|r rs Hr _ IH]; simpl; [done|].
  inversion Hok; subst. inversion Hpermit as [|? ? Hpos Hrest]; subst.
  rewrite IH by done. f_equal.
  unfold code_block, strict_block, Type_.isNegative.
  rewrite <- (verifies_permit r args Hpos), Hpos. simpl.
  destruct (verifies r args) eqn:Hv; simpl; rewrite ?andb_false_r; [done|].
  symmetry. rewrite andb_true_r. by apply Hr.
Qed.

(** C5.  What [guard] does is settled by what [isAllowed] does: it returns
    its first argument if [isAllowed] returns true, and only then; it throws
    [AccessDenied] if [isAllowed] returns false, and the message names the
    action and then the target's text if the target is a string, the words
    [the target] if not; and if [isAllowed] throws, which it does when the
    verification of a rule throws, [guard] throws the same.  It throws
    nothing else.  The [guard] of any class has this outcome; the one of
    [StrictGoverness] counts the call before. *)
Theorem guard_outcome (g : Governess) (action : string) (args : list Value) :
  let target := arg 0 args in
  let message :=
    "Child is not allowed to " +:+ action +:+ " "
    +:+ (match target with VString s => s | _ => "the target" end) +:+ "." in
  HeadGoverness.guard g action args =
    match HeadGoverness.isAllowed g action args with
    | Ret true => Ret target
    | Ret false => Throw (AccessDenied message)
    | Throw e => Throw e
    end
  /\ (governessGuard action args g).1 = HeadGoverness.guard g action args
  /\ (governessGuard action args g).2 =
     (if bool_decide (class g = Strict)
      then set__guardCount (plusPlus (_guardCount g)) g else g).
Proof.
  intros target message.
  split; [|split].
  - unfold HeadGoverness.guard. fold target.
    destruct (HeadGoverness.isAllowed g action args) as [[]|e]; simpl;
      [done| |done].
    subst message. by destruct target.
  - unfold governessGuard, StrictGoverness.guard, lift, gets, modify, mbind,
      M_bind. simpl. by destruct (class g).
  - unfold governessGuard, StrictGoverness.guard, lift, gets, modify, mbind,
      M_bind. simpl. by destruct (class g).
Qed.

(** C5, where the claim leaves the code.  The guarded governess holds
    [can jump] by a predicate that throws; [isAllowed('jump')] throws what
    the predicate threw, and so does [guard('jump')]: that is no
    [AccessDenied]. *)
Lemma guard_throws_what_a_rule_throws :
  HeadGoverness.isGuarded Sample.jumper = true
  /\ matching Sample.jumper "jump" = [Sample.can_jump]
  /\ Rule.new ∅ (VString "can jump") (VFunction 2) = Ret Sample.can_jump
  /\ HeadGoverness.isAllowed (H := Sample.host) Sample.jumper "jump" []
     = Throw (HostError (VString "boom"))
  /\ HeadGoverness.guard (H := Sample.host) Sample.jumper "jump" []
     = Throw (HostError (VString "boom"))
  /\ (governessGuard (H := Sample.host) "jump" [] Sample.jumper).1
     = Throw (HostError (VString "boom")).
Proof. by vm_compute. Qed.

End GovernessFacts.

(** A guarded governess whose only rule is a permit rule for the action
    allows what that rule verifies. *)
Lemma sole_permit_rule `{Host} (g : Governess) (r : Rule.t) (action : string)
    (args : list Value) (v : Value) :
  HeadGoverness.isUnguarded g = false ->
  rules g = [r] ->
  action <> "" ->
  Type_.isOfType (Rule.type r) action = true ->
  Type_.isPositive (Rule.type r) = true ->
  Rule.verify r args = Ret v ->
  HeadGoverness.isAllowed g action args = Ret (truthy v).
Proof.
  intros Hg Hr Hne Hty Hpos Hv.
  assert (Hm : HeadGoverness.getRules g action = [r]).
  { rewrite getRules_matching by done. unfold matching.
    rewrite Hr. simpl. by rewrite Hty. }
  rewrite isAllowed_guarded, Hm; [|done|].
  - simpl. unfold allows, code_block, verifies, Type_.isNegative.
    rewrite Hpos, Hv. simpl. by destruct (truthy v).
  - rewrite Hm. repeat constructor. by exists v.
Qed.

(** A guarded governess whose only rule is a forbid rule allows nothing. *)
Lemma sole_forbid_rule `{Host} (g : Governess) (r : Rule.t) (action : string)
    (args : list Value) (v : Value) :
  HeadGoverness.isUnguarded g = false ->
  rules g = [r] ->
  Type_.isNegative (Rule.type r) = true ->
  Rule.verify r args = Ret v ->
  HeadGoverness.isAllowed g action args = Ret false.
Proof.
  intros Hg Hr Hneg Hv.
  assert (Hok : Forall (fun r => exists v, Rule.verify r args = Ret v)
                       (HeadGoverness.getRules g action)).
  { unfold HeadGoverness.getRules. rewrite Hr. simpl.
    destruct (negb (String.eqb action "")); simpl;
      [destruct (Type_.isOfType (Rule.type r) action)|];
      repeat constructor; by exists v. }
  rewrite isAllowed_guarded by done.
  assert (Hno : existsb (allows args) (HeadGoverness.getRules g action) = false).
  { apply not_true_is_false. intros (r' & Hin & Hal)%existsb_exists.
    assert (r' = r) as ->.
    { unfold HeadGoverness.getRules in Hin. rewrite Hr in Hin.
      destruct (truthy (VString action)); simpl in Hin;
        [destruct (Type_.isOfType (Rule.type r) action); simpl in Hin|];
        intuition. }
    unfold allows, Type_.isNegative in *.
    by destruct (Type_.isPositive (Rule.type r)). }
  by rewrite Hno.
Qed.

(** The sample rules are what the constructor of [Rule] builds. *)
Lemma sample_rules_constructed :
  Rule.new ∅ (VString "can read") (VArray 0 [VString "a"])
  = Ret Sample.can_read_a
  /\ Rule.new ∅ (VString "can read") (VArray 1 [VString "b"])
     = Ret Sample.can_read_b
  /\ Rule.new ∅ (VString "can play") (VFunction 0) = Ret Sample.can_play
  /\ Rule.new ∅ (VString "cannot play") (VFunction 0) = Ret Sample.cannot_play
  /\ Rule.new ∅ (VString "can run") (VFunction 0) = Ret Sample.can_run
  /\ Rule.new ∅ (VString "cannot run") (VArray 2 [VString "slippery"])
     = Ret Sample.cannot_run.
Proof. by vm_compute. Qed.

(** C1, at the input where the code leaves it.  The guarded governess holds
    [can read: ['a']] and [can read: ['b']], and [read] is asked for [a].
    Both rules match the action; the first is a permit rule that verifies
    true; the second fails to verify, but it is not strict ([isStrict()] is
    false for an item list), so no matching rule is a strict block and the
    verdict in the specification's words is [true].  The code returns
    [false]: it reads [rule.definition.isStrict] without calling it, and the
    method object is truthy. *)
Theorem isAllowed_takes_every_failed_permit_for_strict :
  HeadGoverness.isGuarded Sample.two_readers = true
  /\ matching Sample.two_readers "read" = [Sample.can_read_a; Sample.can_read_b]
  /\ allows (H := Sample.host) [VString "a"] Sample.can_read_a = true
  /\ Definition_.isStrict (Rule.type Sample.can_read_b)
       (Rule.definition Sample.can_read_b) = false
  /\ existsb (strict_block (H := Sample.host) [VString "a"])
       (matching Sample.two_readers "read") = false
  /\ isAllowed_spec (H := Sample.host) Sample.two_readers "read" [VString "a"]
     = true
  /\ HeadGoverness.isAllowed (H := Sample.host) Sample.two_readers "read"
       [VString "a"] = Ret false.
Proof. by vm_compute. Qed.

(** An empty action matches no rule, yet [getRules] hands all rules to
    [isAllowed], which then allows it on the strength of any verified permit
    rule. *)
Lemma isAllowed_empty_action :
  matching Sample.strict_player "" = []
  /\ HeadGoverness.isGuarded Sample.strict_player = true
  /\ HeadGoverness.isAllowed (H := Sample.host) Sample.strict_player "" []
     = Ret true.
Proof. by vm_compute. Qed.

(** C2, at the input where the code leaves it.  [cannot run: ['slippery']]
    is asked about [slippery]: the forbidden condition is matched (the raw
    result is [true]), and [verify] returns [false]; asked about [dry],
    which does not match, it returns [true]. *)
Lemma verify_forbid_matched_is_false :
  Type_.isNegative (Rule.type Sample.cannot_run) = true
  /\ Rule.raw_result (H := Sample.host) Sample.cannot_run [VString "slippery"]
     = Ret (VBool true)
  /\ Rule.verify (H := Sample.host) Sample.cannot_run [VString "slippery"]
     = Ret (VBool false)
  /\ Rule.raw_result (H := Sample.host) Sample.cannot_run [VString "dry"]
     = Ret (VBool false)
  /\ Rule.verify (H := Sample.host) Sample.cannot_run [VString "dry"]
     = Ret (VBool true).
Proof. by vm_compute. Qed.

(** What the negation does to the verdict: next to an always verified
    [can run], the rule [cannot run: ['slippery']] lets [run] pass on
    [slippery] and blocks it on [dry]. *)
Lemma forbid_rule_blocks_what_it_does_not_name :
  HeadGoverness.isAllowed (H := Sample.host) Sample.runner "run"
    [VString "slippery"] = Ret true
  /\ HeadGoverness.isAllowed (H := Sample.host) Sample.runner "run"
       [VString "dry"] = Ret false.
Proof. by vm_compute. Qed.

Lemma verify_forbid_negates_witness :
  Type_.isNegative (Rule.type Sample.cannot_run) = true
  /\ Rule.raw_result (H := Sample.host) Sample.cannot_run [VString "slippery"]
     = Ret (VBool true)
  /\ Rule.verify (H := Sample.host) Sample.cannot_run [VString "slippery"]
     = Ret (VBool (negb (truthy (VBool true)))).
Proof.
  split; [reflexivity|]. split; [reflexivity|].
  apply (verify_forbid_negates (H := Sample.host) Sample.cannot_run
           [VString "slippery"] (VBool true)); reflexivity.
Defined.

(** C4, at the input where the code leaves it.  An [EasyGoverness] that
    was taught [cannot run: ['slippery']] is still unguarded; the rule
    matches [run] and is a forbid rule; its condition is matched by
    [slippery], and [verify] returns true for [dry]; the action is allowed
    for both, and [guard] lets it pass.  No forbid rule blocks anything
    under an [EasyGoverness]. *)
Lemma easy_forbid_rule_does_not_block :
  class Sample.easy_no_running = Easy
  /\ HeadGoverness.unguarded Sample.easy_no_running = true
  /\ matching Sample.easy_no_running "run" = [Sample.cannot_run]
  /\ Type_.isNegative (Rule.type Sample.cannot_run) = true
  /\ verifies (H := Sample.host) Sample.cannot_run [VString "dry"] = true
  /\ Rule.raw_result (H := Sample.host) Sample.cannot_run [VString "slippery"]
     = Ret (VBool true)
  /\ HeadGoverness.isAllowed (H := Sample.host) Sample.easy_no_running "run"
       [VString "dry"] = Ret true
  /\ HeadGoverness.isAllowed (H := Sample.host) Sample.easy_no_running "run"
       [VString "slippery"] = Ret true
  /\ HeadGoverness.guard (H := Sample.host) Sample.easy_no_running "run"
       [VString "dry"] = Ret (VString "dry").
Proof. by vm_compute. Qed.

(** What the code has for every [EasyGoverness].  It is a base governess
    whose [unguarded] starts true; teaching it rules leaves the flag set,
    and in that state it allows every action for every argument list,
    whatever rules it holds: [isAllowed] is true and [guard] returns the
    target. *)
Theorem easy_governess_allows_everything `{Host} (rs : list Rule.t)
    (action : string) (args : list Value) :
  let g := (HeadGoverness.addRule (map IsRule rs) EasyGoverness.new).2 in
  set__unguarded false EasyGoverness.new = mkGoverness Easy [] false 0 0
  /\ HeadGoverness.unguarded EasyGoverness.new = true
  /\ rules g = rs
  /\ HeadGoverness.unguarded g = true
  /\ HeadGoverness.isAllowed g action args = Ret true
  /\ HeadGoverness.guard g action args = Ret (arg 0 args).
Proof.
  intros g. subst g. rewrite addRule_rules. simpl.
  repeat split.
Qed.

(** ** [StrictGoverness] *)



Lemma plusPlus_stalls : plusPlus (2 ^ 53) = (2 ^ 53)%Z.
Proof. by vm_compute. Qed.




(** The use the class documents: the operation itself calls [guard] first.
    If the action is allowed, [governed] returns the operation's result and
    both counters have moved on. *)
Lemma strict_governed_guarding_operation `{Host} (action : string)
    (guardArgs args : list Value) (callingContext v : Value) (g : Governess) :
  HeadGoverness.isAllowed g action guardArgs = Ret true ->
  _guardCount g = _governedCount g ->
  StrictGoverness.governed
    (Fn (fun _ _ => StrictGoverness.guard action guardArgs ;; mret v))
    args callingContext g =
  (Ret v, set__governedCount (plusPlus (_governedCount g))
            (set__guardCount (plusPlus (_guardCount g)) g)).
Proof.
  intros Hallowed Hbal.
  assert (Hguard : HeadGoverness.guard
                     (set__guardCount (plusPlus (_guardCount g)) g)
                     action guardArgs = Ret (arg 0 guardArgs)).
  { unfold HeadGoverness.guard.
    change (HeadGoverness.isAllowed
              (set__guardCount (plusPlus (_guardCount g)) g)
              action guardArgs)
      with (HeadGoverness.isAllowed g action guardArgs).
    by rewrite Hallowed. }
  unfold StrictGoverness.governed, HeadGoverness.governed,
    StrictGoverness.guard, lift, modify, gets, mbind, M_bind. simpl.
  rewrite Hguard. simpl. rewrite Hbal.
  by rewrite bool_decide_eq_false_2 by lia.
Qed.


(** ** Perimeters and sandboxes *)

Lemma the_perimeter_update (p : nat) (o : PerimeterObj) (h : Heap) :
  the_perimeter p (set_perimeters <[p := o]> h) = o.
Proof. unfold the_perimeter. simpl. apply lookup_total_insert_eq. Qed.

(** C9, the claim at a concrete heap.  The perimeter [playground] is bound
    to sandbox 0; the assignment of sandbox 1 to its [sandbox] property
    returns normally and binds it to sandbox 1, whose child it takes; and
    [sandbox1.loadPerimeter(playground)] does the same on its way. *)
Lemma perimeter_rebinds_to_another_sandbox :
  Perimeter.sandbox 0 Sample.heap1 = Some 0
  /\ (Perimeter.set_sandbox 0 (VObject (SandboxRef 1)) Sample.heap1).1
     = Ret (VObject (SandboxRef 1))
  /\ Perimeter.sandbox 0
       (Perimeter.set_sandbox 0 (VObject (SandboxRef 1)) Sample.heap1).2
     = Some 1
  /\ p_child (the_perimeter 0
       (Perimeter.set_sandbox 0 (VObject (SandboxRef 1)) Sample.heap1).2)
     = VString "bob"
  /\ (Sandbox.loadPerimeter 1 [Sample.playground] Sample.heap1).1 = Ret 1%Z
  /\ Perimeter.sandbox 0
       (Sandbox.loadPerimeter 1 [Sample.playground] Sample.heap1).2
     = Some 1.
Proof. by vm_compute. Qed.

(** C9, as the code has it.  The setter of [sandbox] accepts every sandbox,
    whether or not the perimeter is bound already, and to whichever sandbox:
    it returns normally, the perimeter is then bound to the sandbox assigned
    and has that sandbox's child.  It throws, [NoSandboxError], only for a
    value that is no instance of [Sandbox], and then nothing changes. *)
Theorem set_sandbox_rebinds (p : nat) (h : Heap) :
  (forall s, isSandbox (VObject (SandboxRef s)) h = true ->
     let after := Perimeter.set_sandbox p (VObject (SandboxRef s)) h in
     after.1 = Ret (VObject (SandboxRef s))
     /\ Perimeter.sandbox p after.2 = Some s
     /\ p_child (the_perimeter p after.2) = s_child (the_sandbox s h))
  /\ (forall value, isSandbox value h = false ->
        Perimeter.set_sandbox p value h = (Throw NoSandboxError, h)).
Proof.
  split.
  - intros s Hs. simpl. unfold Perimeter.sandbox.
    unfold Perimeter.set_sandbox, update_perimeter, gets, modify, mbind, M_bind.
    rewrite Hs. simpl. by rewrite !the_perimeter_update.
  - intros value Hno.
    unfold Perimeter.set_sandbox, gets, mbind, M_bind. rewrite Hno.
    by destruct value as [| | | | | | | |[]].
Qed.

(** What [this.hasPerimeter(perimeter)] comes to. *)
Lemma hasPerimeter_eq (s : nat) (perimeter : Value) (h : Heap) :
  Sandbox.hasPerimeter s perimeter h =
  if Sandbox.hides (the_sandbox s h) "hasPerimeter"
     || Sandbox.hides (the_sandbox s h) "getPerimeters"
  then Throw TypeError
  else Ret (Sandbox.holds s perimeter h).
Proof.
  unfold Sandbox.hasPerimeter, Sandbox.query.
  by destruct (Sandbox.hides _ "hasPerimeter"), (Sandbox.hides _ "getPerimeters").
Qed.

Lemma getPerimeter_eq (s : nat) (purpose : Value) (h : Heap) :
  Sandbox.getPerimeter s purpose h =
  if Sandbox.hides (the_sandbox s h) "getPerimeter"
     || Sandbox.hides (the_sandbox s h) "getPerimeters"
  then Throw TypeError
  else Ret (Sandbox.first_of s purpose h).
Proof.
  unfold Sandbox.getPerimeter, Sandbox.query.
  by destruct (Sandbox.hides _ "getPerimeter"), (Sandbox.hides _ "getPerimeters").
Qed.

(** Where a name gives the method of the class, the sandbox is an instance
    of the class. *)
Lemma hides_instance (s : nat) (member : string) (h : Heap) :
  Sandbox.hides (the_sandbox s h) member = false ->
  isSandbox (VObject (SandboxRef s)) h = true.
Proof.
  unfold Sandbox.hides, isSandbox. intros [_ Hproto]%orb_false_elim.
  destruct (s_prototype _); [|done].
  by rewrite bool_decide_eq_true_2 in Hproto.
Qed.

Lemma hasPerimeter_Ret (s : nat) (perimeter : Value) (h : Heap) (b : bool) :
  Sandbox.hasPerimeter s perimeter h = Ret b <->
  Sandbox.hides (the_sandbox s h) "hasPerimeter" = false
  /\ Sandbox.hides (the_sandbox s h) "getPerimeters" = false
  /\ Sandbox.holds s perimeter h = b.
Proof.
  rewrite hasPerimeter_eq.
  destruct (Sandbox.hides _ "hasPerimeter"), (Sandbox.hides _ "getPerimeters");
    simpl; split; try (intros (? & ? & ?)); try discriminate.
  - by intros [= ->].
  - by subst.
Qed.

Lemma loadPerimeter_visit_skip (s p : nat) (counter : Z) (h : Heap) :
  Sandbox.hasPerimeter s (VObject (PerimeterRef p)) h = Ret true ->
  Sandbox.loadPerimeter_visit s (VObject (PerimeterRef p)) (counter, h) =
  (Ret tt, (counter, h)).
Proof.
  intros Hhas.
  unfold Sandbox.loadPerimeter_visit, on_snd, reads, mbind, M_bind. simpl.
  by rewrite Hhas.
Qed.

Lemma loadPerimeter_visit_stuck (s p : nat) (counter : Z) (h : Heap)
    (e : Error) :
  Sandbox.hasPerimeter s (VObject (PerimeterRef p)) h = Throw e ->
  Sandbox.loadPerimeter_visit s (VObject (PerimeterRef p)) (counter, h) =
  (Throw e, (counter, h)).
Proof.
  intros Hhas.
  unfold Sandbox.loadPerimeter_visit, on_snd, reads, mbind, M_bind. simpl.
  by rewrite Hhas.
Qed.

(** The call [sandbox.loadPerimeter(...)] where the name gives the method
    of the class, and where it does not. *)
Lemma loadPerimeter_method (s : nat) (perimeters : list Value) (h : Heap) :
  Sandbox.hides (the_sandbox s h) "loadPerimeter" = false ->
  Sandbox.loadPerimeter s perimeters h =
  counting (each perimeters (Sandbox.loadPerimeter_visit s)) h.
Proof. unfold Sandbox.loadPerimeter, Sandbox.method. by intros ->. Qed.

Lemma loadPerimeter_hidden (s : nat) (perimeters : list Value) (h : Heap) :
  Sandbox.hides (the_sandbox s h) "loadPerimeter" = true ->
  Sandbox.loadPerimeter s perimeters h = (Throw TypeError, h).
Proof. unfold Sandbox.loadPerimeter, Sandbox.method. by intros ->. Qed.

Lemma loadPerimeter_skip (s p : nat) (rest : list Value) (h : Heap) :
  Sandbox.hasPerimeter s (VObject (PerimeterRef p)) h = Ret true ->
  Sandbox.loadPerimeter s (VObject (PerimeterRef p) :: rest) h =
  Sandbox.loadPerimeter s rest h.
Proof.
  intros Hhas. unfold Sandbox.loadPerimeter, Sandbox.method, counting.
  destruct (Sandbox.hides _ _); [done|].
  by rewrite each_cons, loadPerimeter_visit_skip.
Qed.

(** The sandbox holds a perimeter of the same purpose. *)
Lemma hasPerimeter_purpose (s p : nat) (h : Heap) :
  Sandbox.holds s (VObject (PerimeterRef p)) h = true <->
  exists q, In q (Sandbox.getPerimeters s h)
            /\ Perimeter.purpose q h = Perimeter.purpose p h.
Proof.
  unfold Sandbox.holds. rewrite existsb_exists. simpl.
  split; intros (q & Hin & Heq); exists q; split; try done;
    by apply String.eqb_eq.
Qed.

(** Where the names [loadPerimeter], [hasPerimeter] and [getPerimeters]
    give the methods of the class, a perimeter whose purpose is the purpose
    of a perimeter that the sandbox holds already adds nothing to the count
    that [loadPerimeter] returns, whatever else is loaded in the same call,
    and loading it alone returns 0; the heap after the call is the heap
    before it. *)
Lemma loadPerimeter_repeat (s p : nat) (h : Heap) :
  Sandbox.hides (the_sandbox s h) "loadPerimeter" = false ->
  Sandbox.hides (the_sandbox s h) "hasPerimeter" = false ->
  Sandbox.hides (the_sandbox s h) "getPerimeters" = false ->
  (exists q, In q (Sandbox.getPerimeters s h)
             /\ Perimeter.purpose q h = Perimeter.purpose p h) ->
  (forall rest,
     Sandbox.loadPerimeter s (VObject (PerimeterRef p) :: rest) h =
     Sandbox.loadPerimeter s rest h)
  /\ Sandbox.loadPerimeter s [VObject (PerimeterRef p)] h = (Ret 0%Z, h).
Proof.
  intros Hload Hhas Hget Hheld%hasPerimeter_purpose.
  assert (Hret : Sandbox.hasPerimeter s (VObject (PerimeterRef p)) h = Ret true)
    by (by apply hasPerimeter_Ret).
  split; [intros rest|]; rewrite loadPerimeter_skip by done; [done|].
  by rewrite loadPerimeter_method.
Qed.

Lemma loadPerimeter_repeat_sample :
  (Sandbox.loadPerimeter 0 [Sample.playground] Sample.heap0).1 = Ret 1%Z
  /\ Sandbox.loadPerimeter 0 [Sample.playground] Sample.heap1
     = (Ret 0%Z, Sample.heap1).
Proof. by vm_compute. Qed.

(** C8, at the input where the code leaves it.  The purpose of a perimeter
    may have the name of a method of [Sandbox]: no such name is restricted,
    as the methods are no own properties of the sandbox.  Once a sandbox
    holds a perimeter whose purpose is [hasPerimeter], [getPerimeters] or
    [loadPerimeter], with the purpose attached under that name, the
    purpose object is what the name gives; a repeated [loadPerimeter] of
    that perimeter, alone or with others, throws a [TypeError] where it
    should skip the perimeter, and returns no count. *)
Theorem loadPerimeter_repeat_throws (s p pu : nat) (rest : list Value)
    (h : Heap) :
  isSandbox (VObject (SandboxRef s)) h = true ->
  In p (Sandbox.getPerimeters s h) ->
  s_purposes (the_sandbox s h) !! Perimeter.purpose p h = Some pu ->
  In (Perimeter.purpose p h) ["loadPerimeter"; "hasPerimeter"; "getPerimeters"] ->
  Sandbox.loadPerimeter s (VObject (PerimeterRef p) :: rest) h
  = (Throw TypeError, h).
Proof.
  intros _ _ Hown Hname.
  assert (Hhides : Sandbox.hides (the_sandbox s h) (Perimeter.purpose p h) = true).
  { unfold Sandbox.hides. rewrite Hown. by rewrite bool_decide_eq_true_2. }
  destruct (Sandbox.hides (the_sandbox s h) "loadPerimeter") eqn:Hload;
    [by apply loadPerimeter_hidden|].
  rewrite loadPerimeter_method by done. unfold counting.
  rewrite each_cons, (loadPerimeter_visit_stuck _ _ _ _ TypeError); [done|].
  rewrite hasPerimeter_eq.
  destruct Hname as [Hn|[Hn|[Hn|[]]]]; rewrite <- Hn in Hhides.
  - congruence.
  - by rewrite Hhides.
  - by rewrite Hhides, orb_true_r.
Qed.

Lemma loadPerimeter_repeat_throws_witness :
  (Sandbox.loadPerimeter 0 [Sample.checker] Sample.checker_heap).1 = Ret 1%Z
  /\ isSandbox (VObject (SandboxRef 0)) Sample.checked_heap = true
  /\ In 1 (Sandbox.getPerimeters 0 Sample.checked_heap)
  /\ s_purposes (the_sandbox 0 Sample.checked_heap)
       !! Perimeter.purpose 1 Sample.checked_heap = Some 3
  /\ Sandbox.loadPerimeter 0 [Sample.checker] Sample.checked_heap
     = (Throw TypeError, Sample.checked_heap).
Proof.
  assert (Hin : In 1 (Sandbox.getPerimeters 0 Sample.checked_heap))
    by (vm_compute; by left).
  assert (Hown : s_purposes (the_sandbox 0 Sample.checked_heap)
                   !! Perimeter.purpose 1 Sample.checked_heap = Some 3)
    by (by vm_compute).
  assert (Hname : In (Perimeter.purpose 1 Sample.checked_heap)
                     ["loadPerimeter"; "hasPerimeter"; "getPerimeters"])
    by (vm_compute; right; by left).
  assert (Hinst : isSandbox (VObject (SandboxRef 0)) Sample.checked_heap
                  = true) by (by vm_compute).
  split; [by vm_compute|]. split; [exact Hinst|]. split; [exact Hin|].
  split; [exact Hown|].
  apply (loadPerimeter_repeat_throws 0 1 3 [] Sample.checked_heap
           Hinst Hin Hown Hname).
Defined.

(** *** A second [loadPerimeter] after a first one *)

Lemma bind_Ret_inv {S A B} (m : M S A) (k : A -> M S B) (s s' : S) (b : B) :
  (m ≫= k) s = (Ret b, s') ->
  exists a s1, m s = (Ret a, s1) /\ k a s1 = (Ret b, s').
Proof.
  unfold mbind, M_bind. destruct (m s) as [[a|e] s1]; [|discriminate].
  intros Hk. by exists a, s1.
Qed.

Lemma on_snd_state {C S A} (m : M S A) (st st' : C * S) (r : Res A) :
  on_snd m st = (r, st') -> st'.2 = (m st.2).2.
Proof. unfold on_snd. destruct (m st.2). by intros [= _ <-]. Qed.

Section Preserves.
Context (R : Heap -> Heap -> Prop) `{!PreOrder R}.

Lemma preserves_bind {A B} (m : M Heap A) (k : A -> M Heap B) :
  preserves R m -> (forall a, preserves R (k a)) -> preserves R (m ≫= k).
Proof.
  intros Hm Hk h. unfold mbind, M_bind.
  specialize (Hm h). destruct (m h) as [[a|e] h1]; simpl in *; [|done].
  by etrans; [|apply Hk].
Qed.

Lemma preserves_ret {A} (a : A) : preserves R (mret a).
Proof. by intros h. Qed.

Lemma preserves_throw {A} (e : Error) : preserves R (throw (A := A) e).
Proof. by intros h. Qed.

Lemma preserves_gets {A} (f : Heap -> A) : preserves R (gets f).
Proof. by intros h. Qed.

Lemma preserves_each {A} (xs : list A) (f : A -> M Heap unit) :
  (forall x, preserves R (f x)) -> preserves R (each xs f).
Proof.
  intros Hf. induction xs as [|x xs IH]; simpl.
  - apply preserves_ret.
  - by apply preserves_bind.
Qed.

End Preserves.

#[local] Instance same_perimeters_preorder (s : nat) :
  PreOrder (same_perimeters s).
Proof.
  split.
  - by intros h.
  - intros h1 h2 h3 H12 H23. unfold same_perimeters in *. congruence.
Qed.

(** Steps of a proof that a method preserves a relation. *)
Ltac leaf :=
  first [ apply preserves_throw | apply preserves_ret | apply preserves_gets ];
  exact _.
Ltac after_gets x :=
  apply preserves_bind; [exact _ | leaf | intros x].

Lemma update_purpose_same_perimeters (s pu : nat) (f : PurposeObj -> PurposeObj) :
  preserves (same_perimeters s) (update_purpose pu f).
Proof. by intros h. Qed.

Lemma Purpose_new_same_perimeters (s : nat) (name sandbox : Value) :
  preserves (same_perimeters s) (Purpose.new name sandbox).
Proof.
  unfold Purpose.new. after_gets ok. destruct name; try leaf.
  destruct sandbox as [| | | | | | | |[]]; try leaf.
  destruct ok; [|leaf]. by intros h.
Qed.

Lemma Purpose_loadPerimeter_same_perimeters (s pu : nat) (perimeter : Value) :
  preserves (same_perimeters s) (Purpose._loadPerimeter pu perimeter).
Proof.
  unfold Purpose._loadPerimeter.
  destruct perimeter as [| | | | | | | |[]]; try leaf.
  after_gets exposedMethods. after_gets restricted.
  destruct exposedMethods; [leaf|].
  apply preserves_each; [exact _|]. intros exposedMethod.
  unfold Purpose._loadPerimeter_visit.
  destruct (AllowedMethodsService.isRestricted restricted exposedMethod);
    [leaf|].
  after_gets method.
  destruct method; [|leaf].
  apply update_purpose_same_perimeters.
Qed.

Lemma assign_same_perimeters (s s' : nat) (name : string) (pu : nat) :
  preserves (same_perimeters s) (Sandbox.assign s' name pu).
Proof.
  unfold Sandbox.assign. after_gets o.
  destruct (_ && _); [leaf|].
  destruct (String.eqb name "__proto__");
    intros h; unfold same_perimeters, update_sandbox, modify, the_sandbox;
    simpl; (destruct (decide (s' = s)) as [->|Hne];
            [by rewrite lookup_total_insert_eq
            |by rewrite lookup_total_insert_ne]).
Qed.

Lemma preserves_method {A} (R : Heap -> Heap -> Prop) `{!Reflexive R}
    (s : nat) (member : string) (body : M Heap A) :
  preserves R body -> preserves R (Sandbox.method s member body).
Proof.
  intros Hbody h. unfold Sandbox.method.
  destruct (Sandbox.hides _ _); [done|apply Hbody].
Qed.


(** [_extendPurpose] leaves the list of perimeters of every sandbox alone. *)
Lemma extendPurpose_same_perimeters (s s' p : nat) :
  preserves (same_perimeters s) (Sandbox._extendPurpose s' p).
Proof.
  unfold Sandbox._extendPurpose. apply preserves_method; [exact _|].
  after_gets name. after_gets restricted.
  destruct restricted; [leaf|].
  after_gets existing.
  apply preserves_bind; [exact _ | | intros pu].
  { destruct existing; [leaf|apply Purpose_new_same_perimeters]. }
  apply preserves_bind; [exact _ | | intros _].
  - apply assign_same_perimeters.
  - apply Purpose_loadPerimeter_same_perimeters.
Qed.

(** A perimeter that a sandbox holds is a perimeter it has. *)
Lemma hasPerimeter_member (s p : nat) (h : Heap) :
  In p (Sandbox.getPerimeters s h) ->
  Sandbox.holds s (VObject (PerimeterRef p)) h = true.
Proof. intros Hin. apply hasPerimeter_purpose. by exists p. Qed.

(** After a call of [loadPerimeter] for one perimeter that returned
    normally, the sandbox has that perimeter. *)
Lemma hasPerimeter_after_load (s p : nat) (h h1 : Heap) (n : Z) :
  Sandbox.loadPerimeter s [VObject (PerimeterRef p)] h = (Ret n, h1) ->
  Sandbox.holds s (VObject (PerimeterRef p)) h1 = true.
Proof.
  unfold Sandbox.loadPerimeter, Sandbox.method, counting.
  destruct (Sandbox.hides _ _); [discriminate|].
  rewrite each_cons. simpl each.
  destruct (Sandbox.loadPerimeter_visit s (VObject (PerimeterRef p)) (0%Z, h))
    as [[[]|e] [c st]] eqn:Hvisit; simpl; [|discriminate].
  intros [= _ ->].
  unfold Sandbox.loadPerimeter_visit in Hvisit.
  apply bind_Ret_inv in Hvisit as (has & st0 & Hhas & Hvisit).
  unfold on_snd, reads in Hhas. simpl in Hhas.
  destruct (Sandbox.hasPerimeter s (VObject (PerimeterRef p)) h)
    as [has'|] eqn:Hh; [|discriminate].
  injection Hhas as <- <-.
  destruct has'.
  { injection Hvisit as _ <-. by apply hasPerimeter_Ret in Hh as (_ & _ & Hh). }
  apply bind_Ret_inv in Hvisit as (own & st1 & _ & Hvisit).
  apply bind_Ret_inv in Hvisit as (? & st2 & _ & Hvisit).
  apply bind_Ret_inv in Hvisit as (pg & st3 & _ & Hvisit).
  apply bind_Ret_inv in Hvisit as (? & st4 & _ & Hvisit).
  apply bind_Ret_inv in Hvisit as (main & st5 & _ & Hvisit).
  apply bind_Ret_inv in Hvisit as (? & st6 & _ & Hvisit).
  apply bind_Ret_inv in Hvisit as (? & st7 & _ & Hvisit).
  apply bind_Ret_inv in Hvisit as (? & st8 & Hpush & Hvisit).
  apply bind_Ret_inv in Hvisit as (? & st9 & Hext & Hincr).
  unfold incr, modify in Hincr. injection Hincr as _ <-.
  apply on_snd_state in Hpush, Hext. simpl.
  apply hasPerimeter_member. unfold Sandbox.getPerimeters.
  rewrite Hext, (extendPurpose_same_perimeters s s p st8.2), Hpush.
  unfold update_sandbox, modify, the_sandbox. simpl.
  rewrite lookup_total_insert_eq. simpl.
  apply in_or_app. right. by left.
Qed.

(** Loading the same perimeter a second time, on what is still an instance
    of the class, changes nothing: it returns 0, unless a purpose is
    attached under one of the three names, and then it throws a
    [TypeError]. *)
Lemma loadPerimeter_twice (s p : nat) (h h1 : Heap) (n : Z) :
  Sandbox.loadPerimeter s [VObject (PerimeterRef p)] h = (Ret n, h1) ->
  isSandbox (VObject (SandboxRef s)) h1 = true ->
  Sandbox.loadPerimeter s [VObject (PerimeterRef p)] h1 =
  (if Sandbox.hides (the_sandbox s h1) "loadPerimeter"
      || Sandbox.hides (the_sandbox s h1) "hasPerimeter"
      || Sandbox.hides (the_sandbox s h1) "getPerimeters"
   then Throw TypeError else Ret 0%Z, h1).
Proof.
  intros Hfirst _. apply hasPerimeter_after_load in Hfirst.
  destruct (Sandbox.hides (the_sandbox s h1) "loadPerimeter") eqn:Hload;
    [by apply loadPerimeter_hidden|].
  rewrite loadPerimeter_method by done. unfold counting. rewrite each_cons.
  cbn [orb].
  destruct (Sandbox.hides (the_sandbox s h1) "hasPerimeter"
            || Sandbox.hides (the_sandbox s h1) "getPerimeters") eqn:Hq.
  - rewrite (loadPerimeter_visit_stuck _ _ _ _ TypeError); [done|].
    by rewrite hasPerimeter_eq, Hq.
  - rewrite loadPerimeter_visit_skip; [done|].
    by rewrite hasPerimeter_eq, Hq, Hfirst.
Qed.

(** * Further properties *)

(** ** Rule strings *)

(** The two patterns that [TYPE_REGEX] tries after [can], by tests on
    characters. *)
Lemma two_patterns {A} (F : string -> A)
    (G : ascii -> ascii -> ascii -> string -> A) (K : A) (s : string) :
  match s with
  | String " " action => F action
  | String n' (String o (String t' (String " " action))) => G n' o t' action
  | _ => K
  end =
  match s with
  | String d rest =>
      if Ascii.eqb d " " then F rest
      else match rest with
           | String o (String t' (String e action)) =>
               if Ascii.eqb e " " then G d o t' action else K
           | _ => K
           end
  | EmptyString => K
  end.
Proof.
  assert (one : forall (X Y : A) (e : ascii),
            match e with " "%char => X | _ => Y end =
            if Ascii.eqb e " " then X else Y).
  { intros X Y e. destruct e as [[] [] [] [] [] [] [] []]; reflexivity. }
  destruct s as [|d rest]; [reflexivity|].
  destruct d as [[] [] [] [] [] [] [] []]; try reflexivity;
    (destruct rest as [|o [|t' [|e action]]]; try reflexivity;
     cbn [Ascii.eqb Bool.eqb]; apply (one (G _ o t' action) K e)).
Qed.

(** What a match of [TYPE_REGEX] looks like: a keyword of three characters
    without group 1 and of six with it, a space, and the action, which is
    an identifier. *)
Lemma TYPE_REGEX_shape (str : string) (not_ : bool) (action : string) :
  Type_.TYPE_REGEX str = Some (not_, action) ->
  AllowedMethodsService.METHOD_NAME_REGEX action = true
  /\ exists keyword,
       str = keyword +:+ " " +:+ action
       /\ String.length keyword = (if not_ then 6 else 3).
Proof.
  destruct str as [|c [|a [|n rest]]]; try discriminate.
  unfold Type_.TYPE_REGEX.
  destruct (_ && _ && _); [|discriminate].
  pose proof (two_patterns
    (fun action =>
       if AllowedMethodsService.METHOD_NAME_REGEX action
       then Some (false, action) else None)
    (fun n' o t' action =>
       if Ascii.eqb (AllowedMethodsService.lower n') "n"
          && Ascii.eqb (AllowedMethodsService.lower o) "o"
          && Ascii.eqb (AllowedMethodsService.lower t') "t"
          && AllowedMethodsService.METHOD_NAME_REGEX action
       then Some (true, action) else None)
    None rest) as E.
  cbv beta in E. rewrite E. clear E.
  destruct rest as [|d rest]; [discriminate|].
  destruct (Ascii.eqb_spec d " ") as [->|_].
  - destruct (AllowedMethodsService.METHOD_NAME_REGEX rest) eqn:Hid;
      [|discriminate].
    intros [= <- <-]. split; [done|].
    by exists (String c (String a (String n EmptyString))).
  - destruct rest as [|o [|t' [|e rest]]]; try discriminate.
    destruct (Ascii.eqb_spec e " ") as [->|_]; [|discriminate].
    destruct (_ && _ && _ && _) eqn:Hall; [|discriminate].
    intros [= <- <-]. split.
    + by apply andb_prop in Hall as [_ ?].
    + by exists (String c (String a (String n (String d (String o
                   (String t' EmptyString)))))).
Qed.

(** X1.  A rule string made of [can] or [cannot], a space and an action is
    accepted exactly when the action is not restricted for the empty dummy
    object (an identifier that is no reserved word and no unsafe name); the
    [Type] built has that action, the rule string as its raw text, and is
    positive for [can], negative for [cannot]. *)
Theorem Type_new_can_cannot (action : string) :
  Type_.new (VString ("can " +:+ action)) =
    (if AllowedMethodsService.isRestricted [] (VString action)
     then Throw WrongRuleDefinition
     else Ret (Type_.mk action ("can " +:+ action) true))
  /\ Type_.new (VString ("cannot " +:+ action)) =
    (if AllowedMethodsService.isRestricted [] (VString action)
     then Throw WrongRuleDefinition
     else Ret (Type_.mk action ("cannot " +:+ action) false)).
Proof.
  assert (Hcan : Type_.TYPE_REGEX ("can " +:+ action) =
                 if AllowedMethodsService.METHOD_NAME_REGEX action
                 then Some (false, action) else None) by reflexivity.
  assert (Hcannot : Type_.TYPE_REGEX ("cannot " +:+ action) =
                    if AllowedMethodsService.METHOD_NAME_REGEX action
                    then Some (true, action) else None) by reflexivity.
  unfold Type_.new. rewrite Hcan, Hcannot.
  destruct (AllowedMethodsService.METHOD_NAME_REGEX action) eqn:Hid.
  - split; reflexivity.
  - unfold AllowedMethodsService.isRestricted. rewrite Hid. split; reflexivity.
Qed.

(** X2.  Every [Type] that the constructor builds keeps the rule string as
    its raw text; the rule string is a keyword of three characters for a
    positive and of six for a negative type, a space, and the action; the
    action is not restricted, so it is a non-empty identifier. *)
Theorem Type_new_sound (str : Value) (ty : Type_.t) :
  Type_.new str = Ret ty ->
  str = VString (Type_.raw ty)
  /\ AllowedMethodsService.isRestricted [] (VString (Type_.type ty)) = false
  /\ AllowedMethodsService.METHOD_NAME_REGEX (Type_.type ty) = true
  /\ Type_.type ty <> ""
  /\ exists keyword,
       Type_.raw ty = keyword +:+ " " +:+ Type_.type ty
       /\ String.length keyword = (if Type_.isPositive ty then 3 else 6).
Proof.
  unfold Type_.new. destruct str as [| | | |s| | | |]; try discriminate.
  destruct (Type_.TYPE_REGEX s) as [[not_ action]|] eqn:Hm; [|discriminate].
  destruct (AllowedMethodsService.isRestricted [] (VString action)) eqn:Hr;
    [discriminate|].
  intros [= <-]. simpl.
  apply TYPE_REGEX_shape in Hm as (Hid & keyword & -> & Hlen).
  repeat split; try done.
  - intros ->. discriminate.
  - exists keyword. split; [done|]. unfold Type_.isPositive. simpl.
    by destruct not_.
Qed.

Lemma Type_new_sound_witness :
  Type_.new (VString "Cannot $fly") =
    Ret (Type_.mk "$fly" "Cannot $fly" false)
  /\ exists keyword,
       "Cannot $fly" = keyword +:+ " " +:+ "$fly"
       /\ String.length keyword = 6.
Proof.
  split; [reflexivity|].
  destruct (Type_new_sound (VString "Cannot $fly")
              (Type_.mk "$fly" "Cannot $fly" false) eq_refl)
    as (_ & _ & _ & _ & Hkeyword).
  exact Hkeyword.
Defined.

(** ** Rule definitions *)

(** X3.  A rule that the constructor builds keeps the definition as its raw
    value, which is a non-empty array, a regular expression or a function,
    and is classified in that order; it comes from no perimeter yet; and
    [isStrict()] is true exactly for a forbid rule and for a definition by
    regular expression or function: a permit rule over an item list is the
    only rule that is not strict. *)
Theorem Rule_new_classifies (fprops : gmap nat Value) (str def : Value)
    (r : Rule.t) :
  Rule.new fprops str def = Ret r ->
  Type_.new str = Ret (Rule.type r)
  /\ Definition_.raw (Rule.definition r) = def
  /\ Rule._perimeter r = None
  /\ (isArray def && negb (isEmpty def)) || isRegExp def || isFunction def
     = true
  /\ Definition_.type (Rule.definition r) =
     (if isArray def then Definition_.items
      else if isRegExp def then Definition_.regex
      else Definition_.customMethod)
  /\ Definition_.isStrict (Rule.type r) (Rule.definition r) =
     Type_.isNegative (Rule.type r) || negb (isArray def).
Proof.
  unfold Rule.new. destruct (Type_.new str) as [ty|e]; [|discriminate].
  simpl. unfold Definition_.new. simpl.
  destruct def as [| | | | |id [|x xs]| | |]; simpl; try discriminate;
    intros [= <-]; simpl; unfold Definition_.isStrict; simpl;
    by rewrite ?orb_false_r, ?orb_true_r.
Qed.

Lemma Rule_new_classifies_witness :
  Rule.new ∅ (VString "can read") (VArray 0 [VString "a"])
  = Ret Sample.can_read_a
  /\ Definition_.type (Rule.definition Sample.can_read_a) = Definition_.items
  /\ Definition_.isStrict (Rule.type Sample.can_read_a)
       (Rule.definition Sample.can_read_a) = false.
Proof.
  destruct (Rule_new_classifies ∅ (VString "can read")
              (VArray 0 [VString "a"]) Sample.can_read_a eq_refl)
    as (_ & _ & _ & _ & Hkind & Hstrict).
  split; [reflexivity|]. split; [exact Hkind | exact Hstrict].
Defined.

(** ** Verification and verdicts *)

Section MoreGovernessFacts.
Context `{Host}.

(** X4.  A rule over an item list or a regular expression looks at the first
    argument only: [verify] gives for any argument list what it gives for
    the list of its first argument alone, [undefined] if there is none. *)
Theorem verify_first_argument (r : Rule.t) (args : list Value) :
  Definition_.type (Rule.definition r) <> Definition_.customMethod ->
  Rule.verify r args = Rule.verify r [arg 0 args].
Proof.
  intros Hkind. unfold Rule.verify, Rule.raw_result.
  destruct (Definition_.type (Rule.definition r)); done.
Qed.

(** If the loop of [isAllowed] came to its end, no rule it visited threw. *)
Lemma isAllowed_visit_each_inv (args : list Value) (rs : list Rule.t)
    (st st' : list Rule.t * list Rule.t) :
  each rs (HeadGoverness.isAllowed_visit args) st = (Ret tt, st') ->
  Forall (fun r => exists v, Rule.verify r args = Ret v) rs.
Proof.
  revert st. induction rs as [|r rs IH]; intros st; [constructor|].
  rewrite each_cons.
  destruct (HeadGoverness.isAllowed_visit args r st) as [[[]|e] st1] eqn:Hvis;
    [|discriminate].
  intros Hrest. constructor; [|by eapply IH].
  unfold HeadGoverness.isAllowed_visit, lift, mbind, M_bind in Hvis.
  destruct (Rule.verify r args) as [v|e]; [by exists v | discriminate].
Qed.

Lemma isAllowed_returns (g : Governess) (action : string) (args : list Value)
    (b : bool) :
  HeadGoverness.isUnguarded g = false ->
  HeadGoverness.isAllowed g action args = Ret b ->
  Forall (fun r => exists v, Rule.verify r args = Ret v)
         (HeadGoverness.getRules g action)
  /\ b = existsb (allows args) (HeadGoverness.getRules g action)
         && negb (existsb (code_block args) (HeadGoverness.getRules g action)).
Proof.
  intros Hg Hret.
  assert (Hok : Forall (fun r => exists v, Rule.verify r args = Ret v)
                       (HeadGoverness.getRules g action)).
  { unfold HeadGoverness.isAllowed in Hret. rewrite Hg in Hret.
    destruct (each _ _ _) as [[[]|e] st] eqn:Hloop; [|discriminate].
    by eapply isAllowed_visit_each_inv. }
  split; [done|]. rewrite isAllowed_guarded in Hret by done. congruence.
Qed.

(** For a rule whose verification returned, in terms of its condition: a
    permit rule allows when its definition is matched, and any rule blocks
    when its definition is not matched. *)
Lemma allows_code_block_matched (args : list Value) (r : Rule.t) :
  (exists v, Rule.verify r args = Ret v) ->
  allows args r = Type_.isPositive (Rule.type r) && matched r args
  /\ code_block args r = negb (matched r args).
Proof.
  intros [v Hv]. unfold allows, code_block, verifies, matched,
    Type_.isNegative. rewrite Hv.
  unfold Rule.verify in Hv.
  destruct (Rule.raw_result r args) as [raw|e]; [|discriminate].
  simpl in Hv. injection Hv as <-.
  by destruct (Type_.isPositive (Rule.type r)), (truthy raw).
Qed.

(** X5.  What [isAllowed] of a guarded governess returns, in terms of the
    conditions of the rules it selects: the action is allowed exactly when
    the definition of some selected permit rule is matched by the arguments
    and the definition of every selected rule, permit or forbid, is
    matched. *)
Theorem isAllowed_by_conditions (g : Governess) (action : string)
    (args : list Value) (b : bool) :
  HeadGoverness.isUnguarded g = false ->
  HeadGoverness.isAllowed g action args = Ret b ->
  b = existsb (fun r => Type_.isPositive (Rule.type r) && matched r args)
              (HeadGoverness.getRules g action)
      && forallb (fun r => matched r args) (HeadGoverness.getRules g action).
Proof.
  intros Hg Hret.
  apply isAllowed_returns in Hret as [Hok ->]; [|done].
  assert (Hboth :
            existsb (allows args) (HeadGoverness.getRules g action) =
            existsb (fun r => Type_.isPositive (Rule.type r) && matched r args)
                    (HeadGoverness.getRules g action)
            /\ existsb (code_block args) (HeadGoverness.getRules g action) =
               negb (forallb (fun r => matched r args)
                             (HeadGoverness.getRules g action))).
  { induction Hok as [|r rs Hr _ [IHa IHc]]; [done|].
    destruct (allows_code_block_matched args r Hr) as [Ha Hc].
    cbn [existsb forallb]. rewrite Ha, Hc, IHa, IHc.
    split; [done|]. by rewrite negb_andb. }
  destruct Hboth as [-> ->]. by rewrite negb_involutive.
Qed.

Lemma getRules_app (g : Governess) (r : Rule.t) (action : string) :
  HeadGoverness.getRules (set_rules (rules g ++ [r]) g) action =
  HeadGoverness.getRules g action
  ++ HeadGoverness.getRules (set_rules [r] g) action.
Proof.
  unfold HeadGoverness.getRules. simpl.
  destruct (negb (String.eqb action "")); [|done].
  by rewrite List.filter_app.
Qed.

(** X6.  Teaching a governess a forbid rule never widens what it allows:
    whatever is allowed after [addRule] of a forbid rule was allowed
    before. *)
Theorem forbid_rule_never_widens (g : Governess) (r : Rule.t)
    (action : string) (args : list Value) :
  Type_.isNegative (Rule.type r) = true ->
  HeadGoverness.isAllowed (HeadGoverness.addRule [IsRule r] g).2 action args
  = Ret true ->
  HeadGoverness.isAllowed g action args = Ret true.
Proof.
  intros Hneg.
  change [IsRule r] with (map IsRule [r]). rewrite (addRule_rules [r] g). simpl.
  destruct (HeadGoverness.isUnguarded g) eqn:Hg.
  { intros _. by apply isAllowed_unguarded. }
  intros Hret. apply isAllowed_returns in Hret as [Hok Hb]; [|done].
  rewrite getRules_app in Hok, Hb.
  apply Forall_app in Hok as [Hok _].
  rewrite isAllowed_guarded by done.
  rewrite !existsb_app in Hb.
  assert (Hno : existsb (allows args)
                  (HeadGoverness.getRules (set_rules [r] g) action) = false).
  { assert (Hpos : Type_.isPositive (Rule.type r) = false)
      by (by apply negb_true_iff).
    unfold HeadGoverness.getRules. simpl.
    destruct (negb (String.eqb action "")); simpl;
      [destruct (Type_.isOfType (Rule.type r) action); simpl|];
      unfold allows; by rewrite ?Hpos. }
  rewrite Hno, orb_false_r in Hb.
  symmetry in Hb. apply andb_prop in Hb as [Hallow Hblock].
  apply negb_true_iff, orb_false_elim in Hblock as [Hblock _].
  by rewrite Hallow, Hblock.
Qed.

(** X7.  Inside [doUnguarded] every [guard] passes: a callback that does
    nothing but call the [guard] of its governess for an action gets the
    target back whatever the rules say.  The governess is afterwards exactly
    as it was, but for a [StrictGoverness], whose [guard] has counted the
    call. *)
Theorem guard_passes_in_doUnguarded (g : Governess) (action : string)
    (args : list Value) (context : Value) :
  HeadGoverness.doUnguarded
    (Fn (fun _ _ => governessGuard action args)) context g
  = (Ret (arg 0 args),
     if bool_decide (class g = Strict)
     then set__guardCount (plusPlus (_guardCount g)) g else g).
Proof.
  unfold HeadGoverness.doUnguarded, try_finally, HeadGoverness.set_unguarded,
    governessGuard, StrictGoverness.guard,
    HeadGoverness.guard, HeadGoverness.isAllowed, HeadGoverness.unguarded,
    lift, gets, modify, mbind, M_bind, Res_bind. simpl.
  destruct g as [[] ? ? ? ?]; reflexivity.
Qed.

End MoreGovernessFacts.

Lemma verify_first_argument_witness :
  Definition_.type (Rule.definition Sample.cannot_run)
  <> Definition_.customMethod
  /\ Rule.verify (H := Sample.host) Sample.cannot_run
       [VString "dry"; VNumber 3; VNull]
     = Rule.verify (H := Sample.host) Sample.cannot_run [VString "dry"].
Proof.
  assert (Hkind : Definition_.type (Rule.definition Sample.cannot_run)
                  <> Definition_.customMethod) by discriminate.
  split; [exact Hkind|].
  apply (verify_first_argument (H := Sample.host) Sample.cannot_run
           [VString "dry"; VNumber 3; VNull] Hkind).
Defined.

Lemma isAllowed_by_conditions_witness :
  HeadGoverness.isUnguarded Sample.runner = false
  /\ HeadGoverness.isAllowed (H := Sample.host) Sample.runner "run"
       [VString "slippery"] = Ret true
  /\ true =
     existsb (fun r => Type_.isPositive (Rule.type r)
                       && matched (H := Sample.host) r [VString "slippery"])
             (HeadGoverness.getRules Sample.runner "run")
     && forallb (fun r => matched (H := Sample.host) r [VString "slippery"])
                (HeadGoverness.getRules Sample.runner "run").
Proof.
  split; [reflexivity|]. split; [reflexivity|].
  apply (isAllowed_by_conditions (H := Sample.host) Sample.runner "run"
           [VString "slippery"] true); reflexivity.
Defined.

Lemma forbid_rule_never_widens_witness :
  Type_.isNegative (Rule.type Sample.cannot_run) = true
  /\ HeadGoverness.isAllowed (H := Sample.host)
       (HeadGoverness.addRule [IsRule Sample.cannot_run]
          Sample.strict_player).2 "play" [] = Ret true
  /\ HeadGoverness.isAllowed (H := Sample.host) Sample.strict_player "play" []
     = Ret true.
Proof.
  split; [reflexivity|]. split; [reflexivity|].
  apply (forbid_rule_never_widens (H := Sample.host) Sample.strict_player
           Sample.cannot_run "play" []); reflexivity.
Defined.

(** ** More on [StrictGoverness] *)




(** ** [learnRules] *)

(** One round of the loop of [learnRules], spelled out. *)
Lemma learnRules_visit_eq (g p : nat) (key : string) (def : Value) (c : Z)
    (h : Heap) :
  learnRules_visit g p (key, def) (c, h) =
  let h1 := with_context p def h in
  match Rule.new (fprops h1) (VString key) def with
  | Throw e => (Throw e, (c, h1))
  | Ret rule =>
      let rule' := Rule.mk (Rule.type rule) (Rule.definition rule) (Some p) in
      if HeadGoverness.hasRule (the_governess g h1) p rule'
      then (Ret tt, (c, h1))
      else (Ret tt,
            ((c + 1)%Z,
             set_governesses
               <[g := set_rules (rules (the_governess g h1) ++ [rule'])
                        (the_governess g h1)]> h1))
  end.
Proof.
  unfold learnRules_visit, with_context, on_snd, onGoverness, incr, lift,
    gets, modify, mbind, M_bind.
  destruct def; simpl;
    (match goal with
     | |- context [Rule.new ?fp ?k ?d] => destruct (Rule.new fp k d) as [rule|e]
     end; simpl; [|reflexivity];
     match goal with
     | |- context [HeadGoverness.hasRule ?a ?b ?c] =>
         destruct (HeadGoverness.hasRule a b c)
     end; reflexivity).
Qed.

Lemma the_governess_insert (g : nat) (x : Governess) (h : Heap) :
  the_governess g (set_governesses <[g := x]> h) = x.
Proof. unfold the_governess. simpl. apply lookup_total_insert_eq. Qed.

Lemma the_governess_with_context (g p : nat) (def : Value) (h : Heap) :
  the_governess g (with_context p def h) = the_governess g h.
Proof. by destruct def. Qed.

Lemma Type_new_raw (s : string) (ty : Type_.t) :
  Type_.new (VString s) = Ret ty -> Type_.raw ty = s.
Proof.
  unfold Type_.new. destruct (Type_.TYPE_REGEX s) as [[not_ action]|];
    [|discriminate].
  destruct (AllowedMethodsService.isRestricted [] (VString action));
    [discriminate|].
  by intros [= <-].
Qed.

Lemma Rule_new_raw (fp : gmap nat Value) (key : string) (def : Value)
    (r : Rule.t) :
  Rule.new fp (VString key) def = Ret r -> Type_.raw (Rule.type r) = key.
Proof.
  unfold Rule.new. destruct (Type_.new (VString key)) as [ty|e] eqn:Hty;
    [|discriminate].
  simpl. destruct (Definition_.new fp def); [|discriminate].
  intros [= <-]. simpl. by apply Type_new_raw.
Qed.

(** Whether the constructor of [Rule] succeeds does not depend on the
    [ruleContext] of functions, and neither does the [Type] it builds. *)
Lemma Rule_new_any_context (fp fp' : gmap nat Value) (str def : Value)
    (r : Rule.t) :
  Rule.new fp str def = Ret r ->
  exists r', Rule.new fp' str def = Ret r' /\ Rule.type r' = Rule.type r.
Proof.
  unfold Rule.new. destruct (Type_.new str) as [ty|e]; [|discriminate].
  simpl. unfold Definition_.new.
  destruct (List.find _ Definition_.TYPES); [|discriminate].
  intros [= <-]. eexists. by split.
Qed.

(** [hasRule] for a rule of the text [key] from perimeter [p] is [known]. *)
Lemma hasRule_known (g p : nat) (key : string) (r : Rule.t) (h : Heap) :
  Type_.raw (Rule.type r) = key ->
  HeadGoverness.hasRule (the_governess g h) p
    (Rule.mk (Rule.type r) (Rule.definition r) (Some p))
  = known g p key h.
Proof. intros <-. reflexivity. Qed.

#[local] Instance taught_preorder (g : nat) : PreOrder (taught g).
Proof.
  split.
  - intros h. unfold taught. repeat split; try done. exists []. by rewrite app_nil_r.
  - intros h1 h2 h3 (P1 & U1 & S1 & N1 & G1 & C1 & F1 & A1 & B1 & [a1 R1])
                    (P2 & U2 & S2 & N2 & G2 & C2 & F2 & A2 & B2 & [a2 R2]).
    unfold taught. repeat split; try congruence.
    + intros g' Hne. by rewrite G2, G1.
    + exists (a1 ++ a2). by rewrite R2, R1, app_assoc.
Qed.

#[local] Instance contexts_kept_preorder : PreOrder contexts_kept.
Proof.
  split.
  - by intros h f v.
  - intros h1 h2 h3 H12 H23 f v Hf Hv. apply H23; [by apply H12 | done].
Qed.

Lemma with_context_taught (g p : nat) (def : Value) (h : Heap) :
  taught g h (with_context p def h).
Proof.
  destruct def; try reflexivity.
  unfold taught. simpl. repeat split; try done.
  exists []. by rewrite app_nil_r.
Qed.

Lemma with_context_kept (p : nat) (def : Value) (h : Heap) :
  contexts_kept h (with_context p def h).
Proof.
  destruct def; try reflexivity.
  intros f' v Hf Hv. simpl.
  destruct (decide (f = f')) as [->|Hne].
  - rewrite lookup_insert_eq. by rewrite Hf; simpl; rewrite Hv.
  - by rewrite lookup_insert_ne.
Qed.

Lemma insert_governess_taught (g : nat) (r : Rule.t) (h : Heap) :
  taught g h
    (set_governesses
       <[g := set_rules (rules (the_governess g h) ++ [r]) (the_governess g h)]>
       h).
Proof.
  unfold taught. rewrite the_governess_insert. simpl.
  repeat split; try done.
  - intros g' Hne. by rewrite lookup_insert_ne.
  - by exists [r].
Qed.

(** One round of the loop, however it ends, teaches [g] and nothing else. *)
Lemma learnRules_visit_taught (g p : nat) (entry : string * Value) (c : Z)
    (h : Heap) :
  taught g h (learnRules_visit g p entry (c, h)).2.2
  /\ contexts_kept h (learnRules_visit g p entry (c, h)).2.2.
Proof.
  destruct entry as [key def]. rewrite learnRules_visit_eq. simpl.
  pose proof (with_context_taught g p def h) as Ht.
  pose proof (with_context_kept p def h) as Hk.
  destruct (Rule.new _ _ _) as [rule|e]; simpl; [|done].
  destruct (HeadGoverness.hasRule _ _ _); simpl; [done|].
  split.
  - etrans; [exact Ht|]. apply insert_governess_taught.
  - intros f v Hf Hv. simpl. by apply Hk.
Qed.

Lemma learnRules_each_taught (g p : nat) (entries : list (string * Value))
    (c : Z) (h : Heap) :
  taught g h (each entries (learnRules_visit g p) (c, h)).2.2
  /\ contexts_kept h (each entries (learnRules_visit g p) (c, h)).2.2.
Proof.
  revert c h. induction entries as [|entry entries IH]; intros c h.
  - simpl. split; reflexivity.
  - rewrite each_cons.
    destruct (learnRules_visit_taught g p entry c h) as [Ht Hk].
    destruct (learnRules_visit g p entry (c, h)) as [[[]|e] [c1 h1]];
      simpl in *; [|done].
    destruct (IH c1 h1) as [Ht' Hk']. split; by etrans.
Qed.

Lemma counting_state {S} (m : M (Z * S) unit) (s : S) :
  (counting m s).2 = (m (0%Z, s)).2.2.
Proof. unfold counting. by destruct (m (0%Z, s)) as [[[]|e] [c s']]. Qed.

(** However [learnRules] ends, it teaches [g] and nothing else. *)
Lemma learnRules_taught (g p : nat) (h : Heap) :
  taught g h (learnRules g p h).2 /\ contexts_kept h (learnRules g p h).2.
Proof.
  unfold learnRules. rewrite counting_state. apply learnRules_each_taught.
Qed.

(** A rule that [hasRule] does not find has a tag that no rule has. *)
Lemma hasRule_false_tag (gov : Governess) (p : nat) (r : Rule.t) :
  Rule._perimeter r = Some p ->
  HeadGoverness.hasRule gov p r = false ->
  ~ In (tag r) (map tag (rules gov)).
Proof.
  intros Hp Hno (r0 & Htag & Hin)%in_map_iff.
  apply not_true_iff_false in Hno. apply Hno.
  unfold HeadGoverness.hasRule. apply existsb_exists. exists r0.
  split; [done|]. unfold tag in Htag. injection Htag as Hraw Hper.
  rewrite Hraw, String.eqb_refl. simpl.
  apply bool_decide_eq_true. congruence.
Qed.

Lemma NoDup_snoc_tag (rs : list Rule.t) (r : Rule.t) :
  NoDup (map tag rs) -> ~ In (tag r) (map tag rs) ->
  NoDup (map tag (rs ++ [r])).
Proof.
  intros Hnd Hnew. rewrite map_app. simpl.
  apply NoDup_app. split; [done|]. split.
  - intros x Hx [->|[]%elem_of_nil]%elem_of_cons.
    by apply Hnew, list_elem_of_In.
  - apply NoDup_singleton.
Qed.

(** What the loop of [learnRules] did to the rule list and the counter when
    it stops, whether at the end or at a throw. *)
Lemma learnRules_each_added (g p : nat) (entries : list (string * Value))
    (c : Z) (h : Heap) :
  let st' := (each entries (learnRules_visit g p) (c, h)).2 in
  exists added,
    rules (the_governess g st'.2) = rules (the_governess g h) ++ added
    /\ Forall (fun r => Rule._perimeter r = Some p) added
    /\ st'.1 = (c + Z.of_nat (length added))%Z
    /\ (NoDup (map tag (rules (the_governess g h))) ->
        NoDup (map tag (rules (the_governess g st'.2)))).
Proof.
  revert c h. induction entries as [|[key def] entries IH]; intros c h.
  { simpl. exists []. rewrite app_nil_r, Z.add_0_r. by repeat split. }
  cbv zeta. rewrite each_cons, learnRules_visit_eq. cbv zeta.
  pose proof (the_governess_with_context g p def h) as Hsame.
  destruct (Rule.new _ _ _) as [rule|e]; simpl.
  2: { exists []. rewrite Hsame, app_nil_r, Z.add_0_r. by repeat split. }
  destruct (HeadGoverness.hasRule _ _ _) eqn:Hhas; simpl.
  - specialize (IH c (with_context p def h)). cbv zeta in IH.
    rewrite Hsame in IH. exact IH.
  - match goal with
    | |- context [each entries _ (?c1, ?h1)] =>
        specialize (IH c1 h1); cbv zeta in IH;
        destruct IH as (added & Hrules & Htags & Hcount & Hnd)
    end.
    rewrite the_governess_insert in Hrules, Hnd. simpl in Hrules, Hnd.
    rewrite Hsame in Hrules, Hnd, Hhas, Hcount |- *.
    eexists (_ :: added). split; [|split; [|split]].
    + rewrite Hrules, <- app_assoc. reflexivity.
    + by constructor.
    + rewrite Hcount. simpl length. lia.
    + intros Hold. apply Hnd, NoDup_snoc_tag; [done|].
      by apply (hasRule_false_tag _ p).
Qed.

(** X10.  [learnRules] only appends.  However it ends, the rule list of the
    governess taught is the old one followed by the rules it added, each
    tagged with the perimeter; the other fields of that governess, every
    other governess, and all perimeters, purposes and sandboxes are as
    before; and when it returns, the number it returns is the number of
    rules added. *)
Theorem learnRules_appends (g p : nat) (h : Heap) :
  taught g h (learnRules g p h).2
  /\ exists added,
       rules (the_governess g (learnRules g p h).2)
       = rules (the_governess g h) ++ added
       /\ Forall (fun r => Rule._perimeter r = Some p) added
       /\ (forall n, (learnRules g p h).1 = Ret n ->
                     n = Z.of_nat (length added)).
Proof.
  split; [apply learnRules_taught|].
  destruct (learnRules_each_added g p (govern (the_perimeter p h)) 0 h)
    as (added & Hrules & Htags & Hcount & _).
  exists added. unfold learnRules. rewrite counting_state.
  split; [done|]. split; [done|].
  intros n. unfold counting.
  destruct (each _ _ _) as [[[]|e] [c h']]; simpl in *; [|discriminate].
  intros [= <-]. lia.
Qed.

(** X11.  [learnRules] keeps the rule list free of duplicates: if no two
    rules of the governess have the same rule text and the same perimeter of
    origin, that is so afterwards too, however [learnRules] ends. *)
Theorem learnRules_no_duplicates (g p : nat) (h : Heap) :
  NoDup (map tag (rules (the_governess g h))) ->
  NoDup (map tag (rules (the_governess g (learnRules g p h).2))).
Proof.
  destruct (learnRules_each_added g p (govern (the_perimeter p h)) 0 h)
    as (added & _ & _ & _ & Hnd).
  unfold learnRules. by rewrite counting_state.
Qed.

Lemma known_taught (g p : nat) (key : string) (h h' : Heap) :
  taught g h h' -> known g p key h = true -> known g p key h' = true.
Proof.
  intros (_ & _ & _ & _ & _ & _ & _ & _ & _ & [added Hrules]).
  unfold known. rewrite Hrules, existsb_app. by intros ->.
Qed.

Lemma learnt_later (g p : nat) (h h' : Heap) (entry : string * Value) :
  taught g h h' -> contexts_kept h h' ->
  learnt g p h entry -> learnt g p h' entry.
Proof.
  intros Ht Hk (Hknown & Hnew & Hctx). split; [by eapply known_taught|].
  split; [done|]. intros f Hf. destruct (Hctx f Hf) as (v & Hv & Htruthy).
  exists v. split; [by apply Hk | done].
Qed.

(** After a round of the loop that did not throw, the entry is learnt. *)
Lemma learnRules_visit_learnt (g p : nat) (entry : string * Value) (c : Z)
    (h : Heap) (st' : Z * Heap) :
  learnRules_visit g p entry (c, h) = (Ret tt, st') ->
  learnt g p st'.2 entry.
Proof.
  destruct entry as [key def]. rewrite learnRules_visit_eq. cbv zeta.
  destruct (Rule.new _ _ _) as [rule|e] eqn:Hnew; [|discriminate].
  pose proof (Rule_new_raw _ _ _ _ Hnew) as Hraw.
  assert (Hctx : forall f, def = VFunction f ->
            exists v, fprops (with_context p def h) !! f = Some v
                      /\ truthy v = true).
  { intros f ->. simpl. rewrite lookup_insert_eq. eexists. split; [done|].
    by destruct (truthy (default VUndefined (fprops h !! f))) eqn:E. }
  assert (Hmake : exists r, Rule.new ∅ (VString key) def = Ret r).
  { destruct (Rule_new_any_context _ ∅ _ _ _ Hnew) as (r' & Hr' & _).
    by exists r'. }
  rewrite (hasRule_known g p key rule _ Hraw).
  destruct (known g p key (with_context p def h)) eqn:Hknown.
  - intros [= <-]. simpl. by repeat split.
  - intros [= <-]. simpl. repeat split; try done.
    unfold known. rewrite the_governess_insert. simpl.
    rewrite existsb_app. simpl. rewrite Hraw, String.eqb_refl. simpl.
    rewrite bool_decide_eq_true_2 by done. by rewrite orb_true_r.
Qed.

Lemma learnRules_each_learnt (g p : nat) (entries : list (string * Value))
    (c : Z) (h : Heap) (st' : Z * Heap) :
  each entries (learnRules_visit g p) (c, h) = (Ret tt, st') ->
  Forall (learnt g p st'.2) entries.
Proof.
  revert c h. induction entries as [|entry entries IH]; intros c h;
    [constructor|].
  rewrite each_cons.
  destruct (learnRules_visit g p entry (c, h)) as [[[]|e] [c1 h1]] eqn:Hvis;
    [|discriminate].
  intros Hrest. constructor; [|by eapply IH].
  apply learnRules_visit_learnt in Hvis. simpl in Hvis.
  destruct (learnRules_each_taught g p entries c1 h1) as [Ht Hk].
  rewrite Hrest in Ht, Hk. by eapply learnt_later.
Qed.

Lemma set_fprops_id (f : gmap nat Value -> gmap nat Value) (h : Heap) :
  f (fprops h) = fprops h -> set_fprops f h = h.
Proof. unfold set_fprops. intros ->. by destruct h. Qed.

(** A round of the loop for an entry that is learnt changes nothing. *)
Lemma learnRules_visit_again (g p : nat) (entry : string * Value) (c : Z)
    (h : Heap) :
  learnt g p h entry ->
  learnRules_visit g p entry (c, h) = (Ret tt, (c, h)).
Proof.
  destruct entry as [key def]. intros (Hknown & [r Hnew] & Hctx).
  simpl in Hknown, Hnew, Hctx. rewrite learnRules_visit_eq. cbv zeta.
  assert (Hsame : with_context p def h = h).
  { destruct def; try done. simpl.
    destruct (Hctx f eq_refl) as (v & Hv & Htruthy).
    apply set_fprops_id. rewrite Hv. simpl. rewrite Htruthy.
    by apply insert_id. }
  rewrite Hsame.
  destruct (Rule_new_any_context _ (fprops h) _ _ _ Hnew) as (r' & -> & Hty).
  rewrite (hasRule_known g p key r' h)
    by (rewrite Hty; by eapply Rule_new_raw).
  by rewrite Hknown.
Qed.

Lemma learnRules_each_again (g p : nat) (entries : list (string * Value))
    (c : Z) (h : Heap) :
  Forall (learnt g p h) entries ->
  each entries (learnRules_visit g p) (c, h) = (Ret tt, (c, h)).
Proof.
  induction 1 as [|entry entries Hentry _ IH]; [done|].
  by rewrite each_cons, learnRules_visit_again.
Qed.

Lemma learnRules_learnt (g p : nat) (h h1 : Heap) (n : Z) :
  learnRules g p h = (Ret n, h1) ->
  Forall (learnt g p h1) (govern (the_perimeter p h1)).
Proof.
  intros Hfirst.
  assert (Hgov : govern (the_perimeter p h1) = govern (the_perimeter p h)).
  { destruct (learnRules_taught g p h) as [(Hper & _) _].
    rewrite Hfirst in Hper. simpl in Hper.
    unfold the_perimeter. by rewrite Hper. }
  rewrite Hgov. unfold learnRules, counting in Hfirst.
  destruct (each _ _ _) as [[[]|e] [c st]] eqn:Hloop; [|discriminate].
  injection Hfirst as _ <-.
  by apply learnRules_each_learnt in Hloop.
Qed.

(** X12.  [learnRules] is idempotent: after a call that returned, a second
    call for the same perimeter returns 0 and leaves the whole heap as it
    is. *)
Theorem learnRules_idempotent (g p : nat) (h h1 : Heap) (n : Z) :
  learnRules g p h = (Ret n, h1) ->
  learnRules g p h1 = (Ret 0%Z, h1).
Proof.
  intros Hlearnt%learnRules_learnt.
  unfold learnRules, counting. by rewrite learnRules_each_again.
Qed.

(** X13.  After a call of [learnRules] that returned, the governess holds,
    for every rule string that the perimeter governs, a rule of that text
    that came from that perimeter. *)
Theorem learnRules_learns (g p : nat) (h h1 : Heap) (n : Z) (key : string)
    (def : Value) :
  learnRules g p h = (Ret n, h1) ->
  In (key, def) (govern (the_perimeter p h)) ->
  known g p key h1 = true.
Proof.
  intros Hfirst Hin.
  assert (Hgov : govern (the_perimeter p h1) = govern (the_perimeter p h)).
  { destruct (learnRules_taught g p h) as [(Hper & _) _].
    rewrite Hfirst in Hper. simpl in Hper.
    unfold the_perimeter. by rewrite Hper. }
  apply learnRules_learnt in Hfirst. rewrite Hgov in Hfirst.
  rewrite Forall_forall in Hfirst.
  by destruct (Hfirst (key, def)) as [Hknown _]; [apply list_elem_of_In|].
Qed.

(** ** [loadPerimeter] *)

(** One round of the loop of [loadPerimeter] for a perimeter that is not
    held yet, by its three groups of steps. *)
Lemma loadPerimeter_visit_new (s p : nat) (c : Z) (h : Heap) :
  Sandbox.hasPerimeter s (VObject (PerimeterRef p)) h = Ret false ->
  Sandbox.loadPerimeter_visit s (VObject (PerimeterRef p)) (c, h) =
  match prepare s p h with
  | (Ret _, h1) =>
      match attach s p h1 with
      | (Ret _, h2) => (Ret tt, ((c + 1)%Z, h2))
      | (Throw e, h2) => (Throw e, (c, h2))
      end
  | (Throw e, h1) => (Throw e, (c, h1))
  end.
Proof.
  intros Hnew.
  unfold Sandbox.loadPerimeter_visit, prepare, teach_shadow, attach,
    on_snd, incr, lift, gets, reads, modify, mbind, M_bind.
  simpl. rewrite Hnew.
  repeat (simpl;
    match goal with
    | |- ?x = ?x => reflexivity
    | |- context [learnRules ?g ?q ?h0] =>
        destruct (learnRules g q h0) as [[?|?] ?]
    | |- context [Perimeter.governess ?q ?h0] =>
        destruct (Perimeter.governess q h0)
    | |- context [purposeGoverness ?o] => destruct (purposeGoverness o)
    | |- context [construct ?k] => destruct (construct k)
    | |- context [Perimeter.set_sandbox ?q ?v ?h0] =>
        destruct (Perimeter.set_sandbox q v h0) as [[?|?] ?]
    | |- context [Sandbox._extendPurpose ?a ?b ?h0] =>
        destruct (Sandbox._extendPurpose a b h0) as [[[]|?] ?]
    end); reflexivity.
Qed.

#[local] Instance same_declaration_preorder : PreOrder same_declaration.
Proof.
  split.
  - by intros o.
  - intros o1 o2 o3 (A1 & B1 & C1 & D1 & E1) (A2 & B2 & C2 & D2 & E2).
    unfold same_declaration. repeat split; congruence.
Qed.

#[local] Instance grown_preorder : PreOrder grown.
Proof.
  split.
  - intros h. unfold grown. split; [lia|]. split; [done|]. split.
    + intros t. split; [done|]. exists []. by rewrite app_nil_r.
    + intros g _. repeat split. exists []. by rewrite app_nil_r.
  - intros h1 h2 h3 (N1 & P1 & S1 & G1) (N2 & P2 & S2 & G2).
    unfold grown. split; [lia|]. split; [|split].
    + intros q. etrans; [apply P1 | apply P2].
    + intros t. destruct (S1 t) as [Hg1 [m1 Hm1]], (S2 t) as [Hg2 [m2 Hm2]].
      split; [congruence|]. exists (m1 ++ m2). by rewrite Hm2, Hm1, app_assoc.
    + intros g Hg.
      destruct (G1 g Hg) as (C1 & U1 & [a1 R1]).
      destruct (G2 g) as (C2 & U2 & [a2 R2]); [lia|].
      split; [congruence|]. split; [congruence|].
      exists (a1 ++ a2). by rewrite R2, R1, app_assoc.
Qed.

Lemma grown_same_sandboxes (h h' : Heap) :
  next h <= next h' ->
  perimeters h' = perimeters h ->
  sandboxes h' = sandboxes h ->
  (forall g, g < next h ->
     class (the_governess g h') = class (the_governess g h)
     /\ _unguarded (the_governess g h') = _unguarded (the_governess g h)
     /\ exists added,
          rules (the_governess g h') = rules (the_governess g h) ++ added) ->
  grown h h'.
Proof.
  intros Hn Hp Hs Hg. unfold grown, the_perimeter, the_sandbox.
  rewrite Hp, Hs. split; [done|]. split; [done|]. split; [|done].
  intros t. split; [done|]. exists []. by rewrite app_nil_r.
Qed.

Lemma taught_grown (g : nat) (h h' : Heap) : taught g h h' -> grown h h'.
Proof.
  intros (P & U & S & N & G & C & F & A & B & R).
  apply grown_same_sandboxes; try done; [lia|].
  intros g' _. destruct (decide (g' = g)) as [->|Hne]; [done|].
  unfold the_governess. rewrite !lookup_total_alt, (G g' Hne).
  repeat split. exists []. by rewrite app_nil_r.
Qed.

Lemma learnRules_grown (g p : nat) : preserves grown (learnRules g p).
Proof. intros h. eapply taught_grown, learnRules_taught. Qed.

Lemma learnRules_same_perimeters (s g p : nat) :
  preserves (same_perimeters s) (learnRules g p).
Proof.
  intros h. destruct (learnRules_taught g p h) as [(_ & _ & S & _) _].
  unfold same_perimeters, the_sandbox. by rewrite S.
Qed.

(** The shadow governess, when one is made: its identity is the next free
    one, and it is a new governess of the class of the main governess. *)
Lemma teach_shadow_eq (s p : nat) (h : Heap) :
  teach_shadow s p h =
  match purposeGoverness (the_perimeter p h) with
  | Some _ => (Ret tt, h)
  | None =>
      match construct (class (the_governess (s_governess (the_sandbox s h)) h)) with
      | Throw e => (Throw e, h)
      | Ret fresh =>
          let h1 :=
            (Perimeter.set_purposeGoverness p (next h)
               (set_governesses <[next h := fresh]> (alloc h).2)).2 in
          match learnRules (next h) p h1 with
          | (Ret _, h2) => (Ret tt, h2)
          | (Throw e, h2) => (Throw e, h2)
          end
      end
  end.
Proof.
  unfold teach_shadow, lift, gets, modify, mbind, M_bind. simpl.
  destruct (purposeGoverness _); [done|].
  destruct (construct _); [|done]. simpl.
  by destruct (learnRules _ _ _) as [[?|?] ?].
Qed.

Lemma shadow_made_grown (p : nat) (fresh : Governess) (h : Heap) :
  grown h
    (Perimeter.set_purposeGoverness p (next h)
       (set_governesses <[next h := fresh]> (alloc h).2)).2.
Proof.
  unfold grown. simpl. split; [lia|]. split; [|split].
  - intros q. unfold the_perimeter. simpl.
    destruct (decide (q = p)) as [->|Hne].
    + by rewrite lookup_total_insert_eq.
    + by rewrite lookup_total_insert_ne.
  - intros t. split; [done|]. exists []. by rewrite app_nil_r.
  - intros g Hg. unfold the_governess. simpl.
    rewrite lookup_total_insert_ne by lia.
    repeat split. exists []. by rewrite app_nil_r.
Qed.

Lemma teach_shadow_grown (s p : nat) : preserves grown (teach_shadow s p).
Proof.
  intros h. rewrite teach_shadow_eq.
  destruct (purposeGoverness _); [reflexivity|].
  destruct (construct _) as [fresh|e]; [|reflexivity]. cbv zeta.
  pose proof (shadow_made_grown p fresh h) as H1.
  pose proof (learnRules_grown (next h) p
    (Perimeter.set_purposeGoverness p (next h)
       (set_governesses <[next h := fresh]> (alloc h).2)).2) as H2.
  destruct (learnRules _ _ _) as [[?|?] ?]; simpl in *; by etrans.
Qed.

Lemma teach_shadow_same_perimeters (s t p : nat) :
  preserves (same_perimeters t) (teach_shadow s p).
Proof.
  intros h. rewrite teach_shadow_eq.
  destruct (purposeGoverness _); [reflexivity|].
  destruct (construct _) as [fresh|e]; [|reflexivity]. cbv zeta.
  pose proof (learnRules_same_perimeters t (next h) p
    (Perimeter.set_purposeGoverness p (next h)
       (set_governesses <[next h := fresh]> (alloc h).2)).2) as H2.
  destruct (learnRules _ _ _) as [[?|?] ?]; simpl in *; exact H2.
Qed.

Lemma prepare_grown (s p : nat) : preserves grown (prepare s p).
Proof.
  unfold prepare.
  after_gets own.
  apply preserves_bind; [exact _ | | intros _].
  { destruct own; [|leaf].
    apply preserves_bind; [exact _ | apply learnRules_grown | intros _]. leaf. }
  apply preserves_bind; [exact _ | apply teach_shadow_grown | intros _].
  after_gets main.
  apply preserves_bind; [exact _ | apply learnRules_grown | intros _]. leaf.
Qed.

Lemma prepare_same_perimeters (s t p : nat) :
  preserves (same_perimeters t) (prepare s p).
Proof.
  unfold prepare.
  after_gets own.
  apply preserves_bind; [exact _ | | intros _].
  { destruct own; [|leaf].
    apply preserves_bind;
      [exact _ | apply learnRules_same_perimeters | intros _]. leaf. }
  apply preserves_bind;
    [exact _ | apply teach_shadow_same_perimeters | intros _].
  after_gets main.
  apply preserves_bind;
    [exact _ | apply learnRules_same_perimeters | intros _]. leaf.
Qed.

#[local] Instance sandboxes_kept_preorder : PreOrder sandboxes_kept.
Proof.
  split; [by intros h|].
  intros h1 h2 h3 H12 H23. unfold sandboxes_kept in *. congruence.
Qed.

Lemma learnRules_sandboxes (g p : nat) :
  preserves sandboxes_kept (learnRules g p).
Proof.
  intros h. by destruct (learnRules_taught g p h) as [(_ & _ & S & _) _].
Qed.

Lemma teach_shadow_sandboxes (s p : nat) :
  preserves sandboxes_kept (teach_shadow s p).
Proof.
  intros h. rewrite teach_shadow_eq.
  destruct (purposeGoverness _); [reflexivity|].
  destruct (construct _) as [fresh|e]; [|reflexivity]. cbv zeta.
  pose proof (learnRules_sandboxes (next h) p
    (Perimeter.set_purposeGoverness p (next h)
       (set_governesses <[next h := fresh]> (alloc h).2)).2) as H2.
  destruct (learnRules _ _ _) as [[?|?] ?]; simpl in *; exact H2.
Qed.

Lemma prepare_sandboxes (s p : nat) (h : Heap) :
  sandboxes (prepare s p h).2 = sandboxes h.
Proof.
  revert h. change (preserves sandboxes_kept (prepare s p)).
  unfold prepare.
  after_gets own.
  apply preserves_bind; [exact _ | | intros _].
  { destruct own; [|leaf].
    apply preserves_bind;
      [exact _ | apply learnRules_sandboxes | intros _]. leaf. }
  apply preserves_bind;
    [exact _ | apply teach_shadow_sandboxes | intros _].
  after_gets main.
  apply preserves_bind;
    [exact _ | apply learnRules_sandboxes | intros _]. leaf.
Qed.

Lemma grown_same_objects (h h' : Heap) :
  next h <= next h' ->
  governesses h' = governesses h ->
  (forall q, same_declaration (the_perimeter q h) (the_perimeter q h')) ->
  (forall t,
     s_governess (the_sandbox t h') = s_governess (the_sandbox t h)
     /\ exists more,
          _perimeters (the_sandbox t h') = _perimeters (the_sandbox t h) ++ more) ->
  grown h h'.
Proof.
  intros Hn Hg Hp Hs. unfold grown. split; [done|]. split; [done|].
  split; [done|]. intros g _. unfold the_governess. rewrite Hg.
  repeat split. exists []. by rewrite app_nil_r.
Qed.

Lemma update_purpose_grown (pu : nat) (f : PurposeObj -> PurposeObj) :
  preserves grown (update_purpose pu f).
Proof.
  intros h. apply grown_same_objects; simpl; try done.
  intros t. split; [done|]. exists []. by rewrite app_nil_r.
Qed.

Lemma update_sandbox_grown (s : nat) (f : SandboxObj -> SandboxObj) :
  (forall o, s_governess (f o) = s_governess o
             /\ exists more, _perimeters (f o) = _perimeters o ++ more) ->
  preserves grown (update_sandbox s f).
Proof.
  intros Hf h. apply grown_same_objects; simpl; try done.
  intros t. unfold the_sandbox. simpl.
  destruct (decide (t = s)) as [->|Hne].
  - rewrite lookup_total_insert_eq. apply Hf.
  - rewrite lookup_total_insert_ne by done.
    split; [done|]. exists []. by rewrite app_nil_r.
Qed.

Lemma Purpose_new_grown (name sandbox : Value) :
  preserves grown (Purpose.new name sandbox).
Proof.
  unfold Purpose.new. after_gets ok. destruct name; try leaf.
  destruct sandbox as [| | | | | | | |[]]; try leaf.
  destruct ok; [|leaf].
  intros h. apply grown_same_objects; simpl; try done; [lia|].
  intros t. split; [done|]. exists []. by rewrite app_nil_r.
Qed.

Lemma Purpose_loadPerimeter_grown (pu : nat) (perimeter : Value) :
  preserves grown (Purpose._loadPerimeter pu perimeter).
Proof.
  unfold Purpose._loadPerimeter.
  destruct perimeter as [| | | | | | | |[]]; try leaf.
  after_gets exposedMethods. after_gets restricted.
  destruct exposedMethods; [leaf|].
  apply preserves_each; [exact _|]. intros exposedMethod.
  unfold Purpose._loadPerimeter_visit.
  destruct (AllowedMethodsService.isRestricted restricted exposedMethod);
    [leaf|].
  after_gets method.
  destruct method; [|leaf].
  apply update_purpose_grown.
Qed.

Lemma assign_grown (s : nat) (name : string) (pu : nat) :
  preserves grown (Sandbox.assign s name pu).
Proof.
  unfold Sandbox.assign. after_gets o.
  destruct (_ && _); [leaf|].
  destruct (String.eqb name "__proto__");
    apply update_sandbox_grown; intros o'; simpl; (split; [done|]);
    exists []; by rewrite app_nil_r.
Qed.

Lemma extendPurpose_grown (s p : nat) :
  preserves grown (Sandbox._extendPurpose s p).
Proof.
  unfold Sandbox._extendPurpose. apply preserves_method; [exact _|].
  after_gets name. after_gets restricted.
  destruct restricted; [leaf|].
  after_gets existing.
  apply preserves_bind; [exact _ | | intros pu].
  { destruct existing; [leaf|apply Purpose_new_grown]. }
  apply preserves_bind; [exact _ | | intros _].
  - apply assign_grown.
  - apply Purpose_loadPerimeter_grown.
Qed.

Lemma set_sandbox_grown (p : nat) (value : Value) :
  preserves grown (Perimeter.set_sandbox p value).
Proof.
  unfold Perimeter.set_sandbox. after_gets ok.
  destruct value as [| | | | | | | |[]]; try leaf.
  destruct ok; [|leaf].
  after_gets child.
  apply preserves_bind; [exact _ | | intros _; leaf].
  intros h. apply grown_same_objects; simpl; try done.
  - intros q. unfold the_perimeter. simpl.
    destruct (decide (q = p)) as [->|Hne].
    + by rewrite lookup_total_insert_eq.
    + by rewrite lookup_total_insert_ne.
  - intros t. split; [done|]. exists []. by rewrite app_nil_r.
Qed.

Lemma attach_grown (s p : nat) : preserves grown (attach s p).
Proof.
  unfold attach.
  apply preserves_bind; [exact _ | apply set_sandbox_grown | intros _].
  apply preserves_bind; [exact _ | | intros _; apply extendPurpose_grown].
  apply update_sandbox_grown. intros o. simpl. split; [done|]. by exists [p].
Qed.

(** However [attach] ends for a sandbox that is an instance of the class,
    the sandbox then holds the perimeter after the ones it held. *)
Lemma attach_perimeters (s p : nat) (h : Heap) :
  isSandbox (VObject (SandboxRef s)) h = true ->
  Sandbox.getPerimeters s (attach s p h).2 = Sandbox.getPerimeters s h ++ [p].
Proof.
  intros Hinst.
  unfold attach, Perimeter.set_sandbox, update_perimeter, update_sandbox,
    gets, modify, mbind, M_bind. rewrite Hinst. simpl.
  match goal with
  | |- context [Sandbox._extendPurpose s p ?h5] =>
      pose proof (extendPurpose_same_perimeters s s p h5) as Hsame;
      destruct (Sandbox._extendPurpose s p h5) as [[[]|e] h6]
  end; simpl in *; unfold Sandbox.getPerimeters; rewrite Hsame;
    unfold the_sandbox; simpl; by rewrite lookup_total_insert_eq.
Qed.

(** One round of the loop of [loadPerimeter], however it ends: nothing was
    taken away, and the sandbox holds what it held, or that and after it
    the perimeter, which it did not have before. *)
Lemma loadPerimeter_visit_grown (s : nat) (perimeter : Value) (c : Z)
    (h : Heap) :
  let h' := (Sandbox.loadPerimeter_visit s perimeter (c, h)).2.2 in
  grown h h'
  /\ (Sandbox.getPerimeters s h' = Sandbox.getPerimeters s h
      \/ exists p, perimeter = VObject (PerimeterRef p)
                   /\ Sandbox.hasPerimeter s perimeter h = Ret false
                   /\ (prepare s p h).1 = Ret tt
                   /\ h' = (attach s p (prepare s p h).2).2
                   /\ Sandbox.getPerimeters s h'
                      = Sandbox.getPerimeters s h ++ [p]).
Proof.
  cbv zeta.
  destruct (isPerimeter perimeter) eqn:Hper.
  2: { assert (Hthrow : Sandbox.loadPerimeter_visit s perimeter (c, h)
                        = (Throw ArgumentError, (c, h))).
       { by destruct perimeter as [| | | | | | | |[]]. }
       rewrite Hthrow. simpl. split; [reflexivity | by left]. }
  destruct perimeter as [| | | | | | | |[| p | | |]]; try done.
  destruct (Sandbox.hasPerimeter s (VObject (PerimeterRef p)) h)
    as [[]|e] eqn:Hhas.
  { rewrite loadPerimeter_visit_skip by done. simpl.
    split; [reflexivity | by left]. }
  2: { rewrite (loadPerimeter_visit_stuck _ _ _ _ e) by done. simpl.
       split; [reflexivity | by left]. }
  rewrite loadPerimeter_visit_new by done.
  pose proof (prepare_grown s p h) as Hg1.
  pose proof (prepare_same_perimeters s s p h) as Hs1.
  pose proof (prepare_sandboxes s p h) as Hsb.
  destruct (prepare s p h) as [[[]|e] h1] eqn:Hprep; simpl in *.
  2: { split; [done | by left]. }
  pose proof (attach_grown s p h1) as Hg2.
  assert (Hinst : isSandbox (VObject (SandboxRef s)) h1 = true).
  { apply hasPerimeter_Ret in Hhas as (Hhid & _).
    apply hides_instance in Hhid.
    unfold isSandbox, the_sandbox in *. by rewrite Hsb. }
  pose proof (attach_perimeters s p h1 Hinst) as Hs2.
  assert (Hlist : Sandbox.getPerimeters s (attach s p h1).2
                  = Sandbox.getPerimeters s h ++ [p]).
  { rewrite Hs2. unfold Sandbox.getPerimeters. by rewrite Hs1. }
  destruct (attach s p h1) as [[[]|e] h2] eqn:Hatt; simpl in *;
    (split; [by etrans|]; right; exists p;
     rewrite Hprep; simpl; rewrite Hatt; by repeat split).
Qed.

Lemma loadPerimeter_each_grown (s : nat) (perimeters : list Value) (c : Z)
    (h : Heap) :
  grown h (each perimeters (Sandbox.loadPerimeter_visit s) (c, h)).2.2.
Proof.
  revert c h. induction perimeters as [|perimeter rest IH]; intros c h.
  - reflexivity.
  - rewrite each_cons.
    destruct (loadPerimeter_visit_grown s perimeter c h) as [Hg _].
    destruct (Sandbox.loadPerimeter_visit s perimeter (c, h))
      as [[[]|e] [c1 h1]]; simpl in *; [|done].
    etrans; [exact Hg | apply IH].
Qed.

(** X14.  [loadPerimeter] takes nothing away, however it ends, also when it
    throws half way: every perimeter declares what it declared, every
    sandbox has the governess it had and holds the perimeters it held, in
    their order, with the new ones after them, and every governess that
    existed has the rules it had, in their order, with the new ones after
    them. *)
Theorem loadPerimeter_grows (s : nat) (perimeters : list Value) (h : Heap) :
  grown h (Sandbox.loadPerimeter s perimeters h).2.
Proof.
  unfold Sandbox.loadPerimeter, Sandbox.method.
  destruct (Sandbox.hides _ _); [reflexivity|]. rewrite counting_state.
  apply loadPerimeter_each_grown.
Qed.

Lemma grown_purpose (h h' : Heap) (q : nat) :
  grown h h' -> Perimeter.purpose q h' = Perimeter.purpose q h.
Proof. intros (_ & P & _). unfold Perimeter.purpose. by destruct (P q). Qed.

Lemma grown_govern (h h' : Heap) (q : nat) :
  grown h h' -> govern (the_perimeter q h') = govern (the_perimeter q h).
Proof. intros (_ & P & _). by destruct (P q) as (_ & ? & _). Qed.

(** A sandbox does not have a perimeter exactly when no perimeter it holds
    has that purpose. *)
Lemma hasPerimeter_false (s p : nat) (h : Heap) :
  Sandbox.holds s (VObject (PerimeterRef p)) h = false ->
  ~ In (Perimeter.purpose p h)
       (map (fun q => Perimeter.purpose q h) (Sandbox.getPerimeters s h)).
Proof.
  intros Hno (q & Heq & Hin)%in_map_iff.
  apply not_true_iff_false in Hno. apply Hno, hasPerimeter_purpose.
  by exists q.
Qed.

Lemma loadPerimeter_visit_unique (s : nat) (perimeter : Value) (c : Z)
    (h : Heap) :
  unique_purposes s h ->
  unique_purposes s (Sandbox.loadPerimeter_visit s perimeter (c, h)).2.2.
Proof.
  intros Hunique.
  destruct (loadPerimeter_visit_grown s perimeter c h) as [Hg Hlist].
  cbv zeta in Hg, Hlist. unfold unique_purposes in *.
  assert (Hmap : forall l,
            map (fun q => Perimeter.purpose q
                   (Sandbox.loadPerimeter_visit s perimeter (c, h)).2.2) l
            = map (fun q => Perimeter.purpose q h) l).
  { intros l. apply map_ext. intros q. by apply grown_purpose. }
  rewrite Hmap.
  destruct Hlist as [-> | (p & -> & Hhas & _ & _ & ->)]; [done|].
  apply hasPerimeter_Ret in Hhas as (_ & _ & Hhas).
  rewrite map_app. simpl. apply NoDup_app. split; [done|]. split.
  - intros x Hx [->|[]%elem_of_nil]%elem_of_cons.
    by apply (hasPerimeter_false s p h Hhas), list_elem_of_In.
  - apply NoDup_singleton.
Qed.

(** X15.  [loadPerimeter] keeps the perimeters of a sandbox unique by
    purpose: if no two perimeters that the sandbox holds have the same
    purpose, that is so after the call too, however it ends. *)
Theorem loadPerimeter_unique_purposes (s : nat) (perimeters : list Value)
    (h : Heap) :
  unique_purposes s h ->
  unique_purposes s (Sandbox.loadPerimeter s perimeters h).2.
Proof.
  unfold Sandbox.loadPerimeter, Sandbox.method.
  destruct (Sandbox.hides _ _); [done|]. rewrite counting_state.
  generalize 0%Z as c. revert h.
  induction perimeters as [|perimeter rest IH]; intros h c Hunique; [done|].
  rewrite each_cons.
  pose proof (loadPerimeter_visit_unique s perimeter c h Hunique) as Hstep.
  destruct (Sandbox.loadPerimeter_visit s perimeter (c, h))
    as [[[]|e] [c1 h1]]; simpl in *; [|done].
  by apply IH.
Qed.

Lemma find_unique {A} (f : A -> string) (l : list A) (x : A) :
  NoDup (map f l) -> In x l ->
  List.find (fun y => String.eqb (f y) (f x)) l = Some x.
Proof.
  induction l as [|y l IH]; simpl; [done|].
  intros [Hy Hl]%NoDup_cons [->|Hin].
  - by rewrite String.eqb_refl.
  - destruct (String.eqb_spec (f y) (f x)) as [Heq|_]; [|by apply IH].
    exfalso. apply Hy. rewrite Heq. apply list_elem_of_In, in_map_iff.
    by exists x.
Qed.

(** X16.  [getPerimeter] and [hasPerimeter] on a purpose name, for an
    instance of [Sandbox].  Each is looked up on the sandbox and calls
    [this.getPerimeters()]: it throws a [TypeError] if its own name or
    [getPerimeters] no longer gives the method of the class, which is so
    when a purpose is attached under that name.
    Otherwise [getPerimeter] returns the first held perimeter of that
    purpose, or [null], and [hasPerimeter] whether there is one.  These
    agree: the one is [null] exactly when the other is [false]; what
    [getPerimeter] returns otherwise is a perimeter that the sandbox holds
    and that has the purpose asked for; and if the purposes are unique,
    asking for the purpose of a perimeter that the sandbox holds gives
    that perimeter. *)
Theorem getPerimeter_hasPerimeter (s : nat) (name : string) (h : Heap) :
  (forall purpose,
     isSandbox (VObject (SandboxRef s)) h = true ->
     Sandbox.getPerimeter s purpose h =
     if Sandbox.hides (the_sandbox s h) "getPerimeter"
        || Sandbox.hides (the_sandbox s h) "getPerimeters"
     then Throw TypeError else Ret (Sandbox.first_of s purpose h))
  /\ (forall purpose,
        isSandbox (VObject (SandboxRef s)) h = true ->
        Sandbox.hasPerimeter s purpose h =
        if Sandbox.hides (the_sandbox s h) "hasPerimeter"
           || Sandbox.hides (the_sandbox s h) "getPerimeters"
        then Throw TypeError else Ret (Sandbox.holds s purpose h))
  /\ (forall member,
        isSandbox (VObject (SandboxRef s)) h = true ->
        Sandbox.hides (the_sandbox s h) member
        = bool_decide (is_Some (s_purposes (the_sandbox s h) !! member)))
  /\ (Sandbox.first_of s (VString name) h = VNull <->
      Sandbox.holds s (VString name) h = false)
  /\ (forall v, Sandbox.first_of s (VString name) h = v -> v <> VNull ->
        exists p, v = VObject (PerimeterRef p)
                  /\ In p (Sandbox.getPerimeters s h)
                  /\ Perimeter.purpose p h = name)
  /\ (unique_purposes s h ->
      forall p, In p (Sandbox.getPerimeters s h) ->
                Sandbox.first_of s (VString (Perimeter.purpose p h)) h
                = VObject (PerimeterRef p)).
Proof.
  split; [|split; [|split]].
  { intros purpose _. apply getPerimeter_eq. }
  { intros purpose _. apply hasPerimeter_eq. }
  { intros member Hinst. unfold Sandbox.hides, isSandbox in *.
    destruct (s_prototype _); [done|].
    rewrite (bool_decide_eq_false_2 (is_Some None)) by (by intros [? ?]).
    apply orb_false_r. }
  unfold Sandbox.first_of, Sandbox.holds. simpl.
  split; [|split].
  - destruct (List.find _ _) as [p|] eqn:Hfind.
    + split; [discriminate|]. intros Hno.
      apply find_some in Hfind as [Hin Heq].
      apply not_true_iff_false in Hno. exfalso. apply Hno, existsb_exists.
      by exists p.
    + split; [|done]. intros _. apply not_true_is_false.
      intros (p & Hin & Heq)%existsb_exists.
      by rewrite (find_none _ _ Hfind p Hin) in Heq.
  - intros v <- Hnot. destruct (List.find _ _) as [p|] eqn:Hfind; [|done].
    apply find_some in Hfind as [Hin Heq%String.eqb_eq]. by exists p.
  - intros Hunique p Hin.
    by rewrite (find_unique (fun q => Perimeter.purpose q h) _ p Hunique Hin).
Qed.

Lemma known_grown (g p : nat) (key : string) (h h' : Heap) :
  grown h h' -> g < next h ->
  known g p key h = true -> known g p key h' = true.
Proof.
  intros (_ & _ & _ & G) Hg. destruct (G g Hg) as (_ & _ & [added Hrules]).
  unfold known. rewrite Hrules, existsb_app. by intros ->.
Qed.

(** After [prepare] returned, the main governess holds a rule for every
    rule string of the perimeter. *)
Lemma prepare_informs (s p : nat) (h h1 : Heap) (key : string) (def : Value) :
  prepare s p h = (Ret tt, h1) ->
  In (key, def) (govern (the_perimeter p h1)) ->
  known (s_governess (the_sandbox s h1)) p key h1 = true.
Proof.
  unfold prepare. intros Hprep Hin.
  apply bind_Ret_inv in Hprep as (own & ha & _ & Hprep).
  apply bind_Ret_inv in Hprep as (? & hb & _ & Hprep).
  apply bind_Ret_inv in Hprep as (? & hc & _ & Hprep).
  apply bind_Ret_inv in Hprep as (main & hd & Hmain & Hprep).
  apply bind_Ret_inv in Hprep as (n & he & Hlearn & Hret).
  injection Hret as <-. injection Hmain as <- <-.
  pose proof (learnRules_taught (s_governess (the_sandbox s hc)) p hc)
    as [(Hper & _ & Hsb & _) _].
  rewrite Hlearn in Hper, Hsb. simpl in Hper, Hsb.
  assert (Hs : the_sandbox s he = the_sandbox s hc)
    by (unfold the_sandbox; by rewrite Hsb).
  rewrite Hs. apply learnRules_learnt in Hlearn.
  rewrite Forall_forall in Hlearn.
  by destruct (Hlearn (key, def)) as [Hknown _]; [apply list_elem_of_In|].
Qed.

Lemma loadPerimeter_visit_informed (s : nat) (perimeter : Value) (c : Z)
    (h : Heap) :
  s_governess (the_sandbox s h) < next h ->
  main_informed s h ->
  main_informed s (Sandbox.loadPerimeter_visit s perimeter (c, h)).2.2.
Proof.
  intros Hwf Hinf.
  destruct (loadPerimeter_visit_grown s perimeter c h) as [Hg Hlist].
  cbv zeta in Hg, Hlist.
  set (h' := (Sandbox.loadPerimeter_visit s perimeter (c, h)).2.2) in *.
  assert (Hmain : s_governess (the_sandbox s h') = s_governess (the_sandbox s h)).
  { destruct Hg as (_ & _ & S & _). by destruct (S s). }
  assert (Hold : forall q key def,
            In q (Sandbox.getPerimeters s h) ->
            In (key, def) (govern (the_perimeter q h')) ->
            known (s_governess (the_sandbox s h')) q key h' = true).
  { intros q key def Hq Hkey. rewrite Hmain.
    apply (known_grown _ _ _ h); [done..|].
    apply (Hinf q key def Hq). by rewrite <- (grown_govern h h'). }
  intros q key def Hq Hkey.
  destruct Hlist as [Hsame | (p & -> & Hhas & Hprep & Hh' & Hpush)].
  { apply (Hold q key def); [by rewrite <- Hsame | done]. }
  rewrite Hpush in Hq. apply in_app_or in Hq as [Hq|[<-|[]]].
  { by apply (Hold q key def). }
  destruct (prepare s p h) as [r1 h1] eqn:Hp1. simpl in Hprep, Hh'.
  subst r1.
  pose proof (prepare_grown s p h) as Hg1. rewrite Hp1 in Hg1. simpl in Hg1.
  pose proof (attach_grown s p h1) as Hg2. rewrite <- Hh' in Hg2.
  assert (Hmain1 : s_governess (the_sandbox s h1) = s_governess (the_sandbox s h)).
  { destruct Hg1 as (_ & _ & S & _). by destruct (S s). }
  rewrite Hmain. apply (known_grown _ _ _ h1); [done| |].
  { destruct Hg1 as (Hn & _). lia. }
  rewrite <- Hmain1. apply (prepare_informs s p h h1 key def Hp1).
  by rewrite <- (grown_govern h1 h').
Qed.

(** X17.  [loadPerimeter] keeps the main governess informed: if the main
    governess of the sandbox holds a rule for every rule string of every
    perimeter that the sandbox holds, that is so after the call too, however
    it ends; a perimeter whose rules could not all be learnt is not added
    to the sandbox. *)
Theorem loadPerimeter_main_informed (s : nat) (perimeters : list Value)
    (h : Heap) :
  s_governess (the_sandbox s h) < next h ->
  main_informed s h ->
  main_informed s (Sandbox.loadPerimeter s perimeters h).2.
Proof.
  unfold Sandbox.loadPerimeter, Sandbox.method.
  destruct (Sandbox.hides _ _); [done|]. rewrite counting_state.
  generalize 0%Z as c. revert h.
  induction perimeters as [|perimeter rest IH]; intros h c Hwf Hinf; [done|].
  rewrite each_cons.
  pose proof (loadPerimeter_visit_informed s perimeter c h Hwf Hinf) as Hstep.
  destruct (loadPerimeter_visit_grown s perimeter c h) as [Hg _].
  cbv zeta in Hg.
  destruct (Sandbox.loadPerimeter_visit s perimeter (c, h))
    as [[[]|e] [c1 h1]]; simpl in *; [|done].
  apply IH; [|done].
  destruct Hg as (Hn & _ & S & _). destruct (S s) as [-> _]. lia.
Qed.

Lemma learnRules_no_duplicates_witness :
  NoDup (map tag (rules (the_governess 0 Sample.heap0)))
  /\ NoDup (map tag (rules (the_governess 0
                               (learnRules 0 0 Sample.heap0).2))).
Proof.
  assert (Hnd : NoDup (map tag (rules (the_governess 0 Sample.heap0))))
    by (vm_compute; constructor).
  split; [exact Hnd|]. exact (learnRules_no_duplicates 0 0 Sample.heap0 Hnd).
Defined.

Lemma learnRules_idempotent_witness :
  learnRules 0 0 Sample.heap0 = (Ret 1%Z, (learnRules 0 0 Sample.heap0).2)
  /\ learnRules 0 0 (learnRules 0 0 Sample.heap0).2
     = (Ret 0%Z, (learnRules 0 0 Sample.heap0).2).
Proof.
  assert (Hfirst : learnRules 0 0 Sample.heap0
                   = (Ret 1%Z, (learnRules 0 0 Sample.heap0).2))
    by (by vm_compute).
  split; [exact Hfirst|].
  exact (learnRules_idempotent 0 0 Sample.heap0 _ 1 Hfirst).
Defined.

Lemma learnRules_learns_witness :
  learnRules 0 0 Sample.heap0 = (Ret 1%Z, (learnRules 0 0 Sample.heap0).2)
  /\ In ("can play", VFunction 0) (govern (the_perimeter 0 Sample.heap0))
  /\ known 0 0 "can play" (learnRules 0 0 Sample.heap0).2 = true.
Proof.
  assert (Hfirst : learnRules 0 0 Sample.heap0
                   = (Ret 1%Z, (learnRules 0 0 Sample.heap0).2))
    by (by vm_compute).
  assert (Hin : In ("can play", VFunction 0)
                   (govern (the_perimeter 0 Sample.heap0)))
    by (vm_compute; by left).
  split; [exact Hfirst|]. split; [exact Hin|].
  exact (learnRules_learns 0 0 Sample.heap0 _ 1 "can play" (VFunction 0)
           Hfirst Hin).
Defined.

Lemma loadPerimeter_unique_purposes_witness :
  unique_purposes 0 Sample.heap0
  /\ unique_purposes 0
       (Sandbox.loadPerimeter 0 [Sample.playground] Sample.heap0).2.
Proof.
  assert (Hunique : unique_purposes 0 Sample.heap0)
    by (vm_compute; constructor).
  split; [exact Hunique|].
  exact (loadPerimeter_unique_purposes 0 [Sample.playground] Sample.heap0
           Hunique).
Defined.

Lemma loadPerimeter_main_informed_witness :
  s_governess (the_sandbox 0 Sample.heap0) < next Sample.heap0
  /\ main_informed 0 Sample.heap0
  /\ main_informed 0
       (Sandbox.loadPerimeter 0 [Sample.playground] Sample.heap0).2.
Proof.
  assert (Hwf : s_governess (the_sandbox 0 Sample.heap0) < next Sample.heap0)
    by (vm_compute; lia).
  assert (Hinf : main_informed 0 Sample.heap0)
    by (intros p key def Hin; vm_compute in Hin; destruct Hin).
  split; [exact Hwf|]. split; [exact Hinf|].
  exact (loadPerimeter_main_informed 0 [Sample.playground] Sample.heap0
           Hwf Hinf).
Defined.

(** ** [_extendPurpose] and what [loadPerimeter] leaves behind when it
       throws *)

(** A name under which the sandbox has a purpose is one of its keys. *)
Lemma purpose_name_is_key (o : SandboxObj) (name : string) (pu : nat) :
  s_purposes o !! name = Some pu ->
  AllowedMethodsService.includes (Sandbox.keys o) name = true.
Proof.
  intros Hpu. apply existsb_exists. exists name.
  split; [|apply String.eqb_refl].
  unfold Sandbox.keys. apply in_or_app. right.
  apply list_elem_of_In, list_elem_of_fmap. exists (name, pu).
  split; [done|]. by apply elem_of_map_to_list.
Qed.

(** X18.  [_extendPurpose] never uses an existing purpose: if the sandbox
    has a purpose under the name already, the name is one of the sandbox's
    keys, so it is restricted, and the method throws
    [RestrictedMethodError] and changes nothing.  That is what the call
    [this._extendPurpose(perimeter)] does where the name gives the method
    of the class; on an instance that has a purpose under the name
    [_extendPurpose] the call is a [TypeError], and changes nothing
    either. *)
Theorem extendPurpose_never_reuses (s p pu : nat) (h : Heap) :
  s_purposes (the_sandbox s h) !! Perimeter.purpose p h = Some pu ->
  (Sandbox.hides (the_sandbox s h) "_extendPurpose" = false ->
   Sandbox._extendPurpose s p h = (Throw RestrictedMethodError, h))
  /\ (isSandbox (VObject (SandboxRef s)) h = true ->
      is_Some (s_purposes (the_sandbox s h) !! "_extendPurpose") ->
      Sandbox._extendPurpose s p h = (Throw TypeError, h)).
Proof.
  intros Hpu%purpose_name_is_key.
  unfold Sandbox._extendPurpose, Sandbox.method. split.
  - intros ->.
    unfold mbind, M_bind, gets. cbn beta iota.
    unfold AllowedMethodsService.isRestricted. rewrite Hpu.
    by destruct (AllowedMethodsService.METHOD_NAME_REGEX
                   (Perimeter.purpose p h)).
  - intros _ Hown. unfold Sandbox.hides.
    by rewrite (bool_decide_eq_true_2 _ Hown).
Qed.

Lemma extendPurpose_never_reuses_witness :
  s_purposes (the_sandbox 0 Sample.heap1) !! Perimeter.purpose 0 Sample.heap1
  = Some 3
  /\ Sandbox._extendPurpose 0 0 Sample.heap1
     = (Throw RestrictedMethodError, Sample.heap1).
Proof.
  assert (Hpu : s_purposes (the_sandbox 0 Sample.heap1)
                  !! Perimeter.purpose 0 Sample.heap1 = Some 3)
    by (by vm_compute).
  split; [exact Hpu|].
  exact (proj1 (extendPurpose_never_reuses 0 0 3 Sample.heap1 Hpu) eq_refl).
Defined.

Lemma Rule_new_throws (fp : gmap nat Value) (str def : Value) (e : Error) :
  Rule.new fp str def = Throw e -> e = WrongRuleDefinition.
Proof.
  unfold Rule.new. destruct (Type_.new str) as [ty|e'] eqn:Hty; simpl.
  - unfold Definition_.new.
    destruct (List.find _ _); cbv [mbind mret Res_bind Res_ret]; congruence.
  - intros [= <-]. by eapply Type_new_throws.
Qed.

Lemma learnRules_each_throws (g p : nat) (entries : list (string * Value))
    (c : Z) (h : Heap) (e : Error) :
  (each entries (learnRules_visit g p) (c, h)).1 = Throw e ->
  e = WrongRuleDefinition.
Proof.
  revert c h. induction entries as [|[key def] rest IH]; intros c h;
    [discriminate|].
  rewrite each_cons, learnRules_visit_eq. cbv zeta.
  destruct (Rule.new _ _ _) as [rule|e'] eqn:Hnew.
  - destruct (HeadGoverness.hasRule _ _ _); apply IH.
  - simpl. intros [= <-]. by eapply Rule_new_throws.
Qed.

(** [learnRules] throws nothing but [WrongRuleDefinition]. *)
Lemma learnRules_throws (g p : nat) (h : Heap) (e : Error) :
  (learnRules g p h).1 = Throw e -> e = WrongRuleDefinition.
Proof.
  unfold learnRules, counting.
  pose proof (learnRules_each_throws g p (govern (the_perimeter p h)) 0 h e).
  destruct (each _ _ _) as [[[]|e'] [c h']]; simpl in *;
    [discriminate|].
  intros [= <-]. by apply H.
Qed.

Lemma construct_throws (k : GovernessClass) (e : Error) :
  construct k = Throw e -> e = GenericError.
Proof. destruct k; simpl; congruence. Qed.

Section ThrowsOnly.
Context {S : Type} (P : Error -> Prop).

Lemma throws_only_bind {A B} (m : M S A) (k : A -> M S B) :
  throws_only P m -> (forall a, throws_only P (k a)) ->
  throws_only P (m ≫= k).
Proof.
  intros Hm Hk s e. unfold mbind, M_bind.
  specialize (Hm s). destruct (m s) as [[a|e1] s1]; simpl in *.
  - apply Hk.
  - intros [= <-]. by apply Hm.
Qed.

Lemma throws_only_ret {A} (a : A) : throws_only P (mret (M := M S) a).
Proof. by intros s e. Qed.

Lemma throws_only_gets {A} (f : S -> A) : throws_only P (gets f).
Proof. by intros s e. Qed.

Lemma throws_only_modify (f : S -> S) : throws_only P (modify f).
Proof. by intros s e. Qed.

Lemma throws_only_throw {A} (e : Error) :
  P e -> throws_only P (throw (S := S) (A := A) e).
Proof. intros He s e'. simpl. by intros [= <-]. Qed.

Lemma throws_only_each {A} (xs : list A) (f : A -> M S unit) :
  (forall x, throws_only P (f x)) -> throws_only P (each xs f).
Proof.
  intros Hf. induction xs as [|x xs IH]; simpl.
  - apply throws_only_ret.
  - by apply throws_only_bind.
Qed.

End ThrowsOnly.

Lemma learnRules_throws_only (P : Error -> Prop) (g p : nat) :
  P WrongRuleDefinition -> throws_only P (learnRules g p).
Proof. intros HP h e He. by rewrite (learnRules_throws g p h e He). Qed.

(** [prepare] throws nothing but what [learnRules] and making the shadow
    governess throw. *)
Lemma prepare_throws (s p : nat) :
  throws_only (fun e => e = WrongRuleDefinition \/ e = GenericError)
              (prepare s p).
Proof.
  assert (Hlearn : forall g,
            throws_only (fun e => e = WrongRuleDefinition \/ e = GenericError)
                        (learnRules g p ;; mret tt)).
  { intros g. apply throws_only_bind; [|intros _; apply throws_only_ret].
    apply learnRules_throws_only. by left. }
  unfold prepare.
  apply throws_only_bind; [apply throws_only_gets | intros own].
  apply throws_only_bind; [|intros _].
  { destruct own; [apply Hlearn | apply throws_only_ret]. }
  apply throws_only_bind; [|intros _].
  2: { apply throws_only_bind; [apply throws_only_gets | intros main].
       apply Hlearn. }
  unfold teach_shadow.
  apply throws_only_bind; [apply throws_only_gets | intros pg].
  destruct pg; [apply throws_only_ret|].
  apply throws_only_bind; [apply throws_only_gets | intros main].
  apply throws_only_bind; [|intros fresh].
  { intros h e. unfold lift. simpl. intros He. right.
    by eapply construct_throws. }
  apply throws_only_bind; [by intros h e | intros g].
  apply throws_only_bind; [apply throws_only_modify | intros _].
  apply throws_only_bind; [apply throws_only_modify | intros _].
  apply Hlearn.
Qed.

#[local] Instance rewired_preorder : PreOrder rewired.
Proof.
  split.
  - by intros h.
  - intros h1 h2 h3 (A1 & B1 & C1) (A2 & B2 & C2).
    unfold rewired. repeat split; congruence.
Qed.

Lemma update_sandbox_rewired (s : nat) (f : SandboxObj -> SandboxObj) :
  preserves rewired (update_sandbox s f).
Proof. by intros h. Qed.

Lemma update_purpose_rewired (pu : nat) (f : PurposeObj -> PurposeObj) :
  preserves rewired (update_purpose pu f).
Proof. by intros h. Qed.

Lemma Purpose_new_rewired (name sandbox : Value) :
  preserves rewired (Purpose.new name sandbox).
Proof.
  unfold Purpose.new. after_gets ok. destruct name; try leaf.
  destruct sandbox as [| | | | | | | |[]]; try leaf.
  destruct ok; [|leaf]. by intros h.
Qed.

Lemma Purpose_loadPerimeter_rewired (pu : nat) (perimeter : Value) :
  preserves rewired (Purpose._loadPerimeter pu perimeter).
Proof.
  unfold Purpose._loadPerimeter.
  destruct perimeter as [| | | | | | | |[]]; try leaf.
  after_gets exposedMethods. after_gets restricted.
  destruct exposedMethods; [leaf|].
  apply preserves_each; [exact _|]. intros exposedMethod.
  unfold Purpose._loadPerimeter_visit.
  destruct (AllowedMethodsService.isRestricted restricted exposedMethod);
    [leaf|].
  after_gets method.
  destruct method; [|leaf].
  apply update_purpose_rewired.
Qed.

Lemma assign_rewired (s : nat) (name : string) (pu : nat) :
  preserves rewired (Sandbox.assign s name pu).
Proof.
  unfold Sandbox.assign. after_gets o.
  destruct (_ && _); [leaf|].
  destruct (String.eqb name "__proto__"); apply update_sandbox_rewired.
Qed.

Lemma extendPurpose_rewired (s p : nat) :
  preserves rewired (Sandbox._extendPurpose s p).
Proof.
  unfold Sandbox._extendPurpose. apply preserves_method; [exact _|].
  after_gets name. after_gets restricted.
  destruct restricted; [leaf|].
  after_gets existing.
  apply preserves_bind; [exact _ | | intros pu].
  { destruct existing; [leaf|apply Purpose_new_rewired]. }
  apply preserves_bind; [exact _ | apply assign_rewired | intros _].
  apply Purpose_loadPerimeter_rewired.
Qed.

(** However [attach] ends for a sandbox that is an instance of the class:
    the governesses are as before; the perimeter is bound to the sandbox
    and has its child, and is the same otherwise; the other perimeters are
    as before. *)
Lemma attach_result (s p : nat) (h : Heap) :
  isSandbox (VObject (SandboxRef s)) h = true ->
  let h' := (attach s p h).2 in
  governesses h' = governesses h
  /\ the_perimeter p h'
     = (let o := the_perimeter p h in
        mkPerimeter (_purpose o) (govern o) (expose o) (p_governess o)
                    (Some s) (s_child (the_sandbox s h)) (purposeGoverness o)
                    (members o))
  /\ (forall q, q <> p -> the_perimeter q h' = the_perimeter q h).
Proof.
  intros Hinst.
  unfold attach, Perimeter.set_sandbox, update_perimeter, update_sandbox,
    gets, modify, mbind, M_bind. rewrite Hinst. simpl.
  match goal with
  | |- context [Sandbox._extendPurpose s p ?h5] =>
      pose proof (extendPurpose_rewired s p h5) as (Hg & Hp & _);
      destruct (Sandbox._extendPurpose s p h5) as [[[]|e] h6]
  end; simpl in *; unfold the_perimeter; rewrite Hg, Hp; simpl;
    (split; [done|]; split;
     [by rewrite lookup_total_insert_eq
     |intros q Hne; by rewrite lookup_total_insert_ne]).
Qed.

(** After [prepare] for a perimeter that [hasPerimeter] did not find, the
    sandbox is an instance of the class. *)
Lemma prepared_instance (s p : nat) (v : Value) (b : bool) (h : Heap) :
  Sandbox.hasPerimeter s v h = Ret b ->
  isSandbox (VObject (SandboxRef s)) (prepare s p h).2 = true.
Proof.
  intros (Hhid & _)%hasPerimeter_Ret. apply hides_instance in Hhid.
  unfold isSandbox, the_sandbox in *. by rewrite prepare_sandboxes.
Qed.

(** A round of the loop of [loadPerimeter] that throws an error of the
    assignment in [_extendPurpose] or of the loading into the purpose
    leaves the perimeter bound and held. *)
Lemma loadPerimeter_visit_throws_late (s : nat) (perimeter : Value) (c : Z)
    (h : Heap) (e : Error) :
  (Sandbox.loadPerimeter_visit s perimeter (c, h)).1 = Throw e ->
  e = RestrictedMethodError \/ e = NoExposedMethodError
  \/ e = NoGovernessError ->
  let h' := (Sandbox.loadPerimeter_visit s perimeter (c, h)).2.2 in
  exists p, perimeter = VObject (PerimeterRef p)
            /\ Sandbox.holds s perimeter h = false
            /\ In p (Sandbox.getPerimeters s h')
            /\ Perimeter.sandbox p h' = Some s.
Proof.
  intros Hthrow He. cbv zeta.
  destruct perimeter as [| | | | | | | |[g|p|t|pu|o]];
    try (simpl in Hthrow; injection Hthrow as <-;
         by destruct He as [?|[?|?]]).
  exists p. split; [done|].
  destruct (Sandbox.hasPerimeter s (VObject (PerimeterRef p)) h)
    as [[]|e0] eqn:Hhas.
  { by rewrite loadPerimeter_visit_skip in Hthrow. }
  2: { rewrite (loadPerimeter_visit_stuck _ _ _ _ e0) in Hthrow by done.
       rewrite hasPerimeter_eq in Hhas. destruct (_ || _); [|done].
       injection Hhas as <-. injection Hthrow as <-.
       by destruct He as [?|[?|?]]. }
  pose proof (prepared_instance s p _ _ h Hhas) as Hinst.
  apply hasPerimeter_Ret in Hhas as Hno. destruct Hno as (_ & _ & Hno).
  split; [done|]. rewrite loadPerimeter_visit_new in Hthrow |- * by done.
  pose proof (prepare_throws s p h) as Hprep.
  destruct (prepare s p h) as [[[]|e1] h1].
  2: { simpl in Hthrow. injection Hthrow as <-.
       destruct (Hprep e1 eq_refl) as [->| ->]; by destruct He as [?|[?|?]]. }
  simpl in Hinst.
  pose proof (attach_perimeters s p h1 Hinst) as Hheld.
  destruct (attach_result s p h1 Hinst) as (_ & Hp & _).
  destruct (attach s p h1) as [[[]|e2] h2]; [discriminate|]. simpl in *.
  split.
  - rewrite Hheld. apply in_or_app. right. by left.
  - unfold Perimeter.sandbox. by rewrite Hp.
Qed.

(** X19.  [loadPerimeter] is not atomic.  When it throws
    [RestrictedMethodError], [NoExposedMethodError] or [NoGovernessError],
    the errors raised while the purpose is installed, a perimeter of the
    call that the sandbox did not hold is held by it now and bound to it,
    although its purpose was not (fully) installed.  To load it again, if
    the sandbox is still an instance of its class, changes nothing: that
    call returns 0, or throws a [TypeError] where a purpose is attached
    under one of the names [loadPerimeter], [hasPerimeter] and
    [getPerimeters]. *)
Theorem loadPerimeter_not_atomic (s : nat) (perimeters : list Value)
    (h : Heap) (e : Error) :
  (Sandbox.loadPerimeter s perimeters h).1 = Throw e ->
  e = RestrictedMethodError \/ e = NoExposedMethodError
  \/ e = NoGovernessError ->
  let h' := (Sandbox.loadPerimeter s perimeters h).2 in
  exists p, In (VObject (PerimeterRef p)) perimeters
            /\ ~ In p (Sandbox.getPerimeters s h)
            /\ In p (Sandbox.getPerimeters s h')
            /\ Perimeter.sandbox p h' = Some s
            /\ Sandbox.holds s (VObject (PerimeterRef p)) h' = true
            /\ (isSandbox (VObject (SandboxRef s)) h' = true ->
                Sandbox.loadPerimeter s [VObject (PerimeterRef p)] h'
                = (if Sandbox.hides (the_sandbox s h') "loadPerimeter"
                      || Sandbox.hides (the_sandbox s h') "hasPerimeter"
                      || Sandbox.hides (the_sandbox s h') "getPerimeters"
                   then Throw TypeError else Ret 0%Z, h')).
Proof.
  intros Hthrow He. cbv zeta.
  assert (Hloop : forall c h0,
            (each perimeters (Sandbox.loadPerimeter_visit s) (c, h0)).1
            = Throw e ->
            let h' := (each perimeters (Sandbox.loadPerimeter_visit s)
                         (c, h0)).2.2 in
            exists p, In (VObject (PerimeterRef p)) perimeters
                      /\ ~ In p (Sandbox.getPerimeters s h0)
                      /\ In p (Sandbox.getPerimeters s h')
                      /\ Perimeter.sandbox p h' = Some s).
  { clear Hthrow h.
    induction perimeters as [|perimeter rest IH]; intros c h; [discriminate|].
    rewrite each_cons.
    pose proof (loadPerimeter_visit_throws_late s perimeter c h e) as Hlate.
    destruct (loadPerimeter_visit_grown s perimeter c h) as [Hg _].
    cbv zeta in Hg, Hlate.
    destruct (Sandbox.loadPerimeter_visit s perimeter (c, h))
      as [[[]|e1] [c1 h1]]; simpl in *.
    - intros Hrest. destruct (IH c1 h1 Hrest) as (p & Hin & Hnew & Hheld).
      exists p. split; [by right|]. split; [|done].
      intros Hold. apply Hnew.
      destruct Hg as (_ & _ & S & _). destruct (S s) as [_ [more Hmore]].
      unfold Sandbox.getPerimeters. rewrite Hmore. apply in_or_app. by left.
    - intros [= ->].
      destruct (Hlate eq_refl He) as (p & -> & Hhas & Hheld).
      exists p. split; [by left|]. split; [|done].
      intros Hold. apply not_true_iff_false in Hhas.
      apply Hhas, hasPerimeter_purpose. by exists p. }
  assert (Hmethod : Sandbox.hides (the_sandbox s h) "loadPerimeter" = false).
  { destruct (Sandbox.hides (the_sandbox s h) "loadPerimeter") eqn:Hhid;
      [|done].
    rewrite loadPerimeter_hidden in Hthrow by done.
    injection Hthrow as <-. by destruct He as [?|[?|?]]. }
  rewrite loadPerimeter_method in Hthrow |- * by done.
  rewrite counting_state.
  assert (Heach : (each perimeters (Sandbox.loadPerimeter_visit s)
                     (0%Z, h)).1 = Throw e).
  { unfold counting in Hthrow.
    destruct (each _ _ _) as [[[]|e1] [c1 h1]]; simpl in *; congruence. }
  destruct (Hloop 0%Z h Heach) as (p & Hin & Hnew & Hheld & Hbound).
  exists p. repeat (split; [done|]).
  set (h' := (each perimeters (Sandbox.loadPerimeter_visit s) (0%Z, h)).2.2)
    in *.
  assert (Hhas : Sandbox.holds s (VObject (PerimeterRef p)) h' = true).
  { apply hasPerimeter_purpose. by exists p. }
  split; [done|]. intros _.
  destruct (Sandbox.hides (the_sandbox s h') "loadPerimeter") eqn:Hload;
    [by apply loadPerimeter_hidden|].
  rewrite loadPerimeter_method by done. unfold counting. rewrite each_cons.
  cbn [orb].
  destruct (Sandbox.hides (the_sandbox s h') "hasPerimeter"
            || Sandbox.hides (the_sandbox s h') "getPerimeters") eqn:Hq.
  - rewrite (loadPerimeter_visit_stuck _ _ _ _ TypeError); [done|].
    by rewrite hasPerimeter_eq, Hq.
  - rewrite loadPerimeter_visit_skip; [done|].
    by rewrite hasPerimeter_eq, Hq, Hhas.
Qed.

Lemma loadPerimeter_not_atomic_witness :
  (Sandbox.loadPerimeter 0 [Sample.kitchen] Sample.kitchen_heap).1
  = Throw NoExposedMethodError
  /\ exists p,
       In (VObject (PerimeterRef p)) [Sample.kitchen]
       /\ ~ In p (Sandbox.getPerimeters 0 Sample.kitchen_heap)
       /\ In p (Sandbox.getPerimeters 0
                  (Sandbox.loadPerimeter 0 [Sample.kitchen]
                     Sample.kitchen_heap).2)
       /\ Perimeter.sandbox p
            (Sandbox.loadPerimeter 0 [Sample.kitchen] Sample.kitchen_heap).2
          = Some 0
       /\ Sandbox.loadPerimeter 0 [VObject (PerimeterRef p)]
            (Sandbox.loadPerimeter 0 [Sample.kitchen] Sample.kitchen_heap).2
          = (Ret 0%Z,
             (Sandbox.loadPerimeter 0 [Sample.kitchen]
                Sample.kitchen_heap).2).
Proof.
  assert (Hthrow : (Sandbox.loadPerimeter 0 [Sample.kitchen]
                      Sample.kitchen_heap).1 = Throw NoExposedMethodError)
    by (by vm_compute).
  split; [exact Hthrow|].
  destruct (loadPerimeter_not_atomic 0 [Sample.kitchen] Sample.kitchen_heap
              NoExposedMethodError Hthrow (or_intror (or_introl eq_refl)))
    as (p & Hin & Hnew & Hheld & Hbound & _ & Hagain).
  exists p. repeat (split; [done|]).
  destruct Hin as [[= <-]|[]]. exact (Hagain eq_refl).
Defined.

(** ** The shadow governess and the queries of a purpose *)

Lemma taught_other (g g' : nat) (h h' : Heap) :
  taught g h h' -> g' <> g -> the_governess g' h' = the_governess g' h.
Proof.
  intros (_ & _ & _ & _ & G & _) Hne. unfold the_governess.
  by rewrite !lookup_total_alt, G.
Qed.

Lemma taught_class (g g' : nat) (h h' : Heap) :
  taught g h h' -> class (the_governess g' h') = class (the_governess g' h).
Proof.
  intros Ht. destruct (decide (g' = g)) as [->|Hne].
  - by destruct Ht as (_ & _ & _ & _ & _ & C & _).
  - by rewrite (taught_other g g' h h').
Qed.

Lemma taught_perimeter (g q : nat) (h h' : Heap) :
  taught g h h' -> the_perimeter q h' = the_perimeter q h.
Proof. intros (P & _). unfold the_perimeter. by rewrite P. Qed.

Lemma taught_sandbox (g t : nat) (h h' : Heap) :
  taught g h h' -> the_sandbox t h' = the_sandbox t h.
Proof. intros (_ & _ & S & _). unfold the_sandbox. by rewrite S. Qed.

Lemma construct_new (k : GovernessClass) (fresh : Governess) :
  construct k = Ret fresh -> rules fresh = [] /\ class fresh = k.
Proof. destruct k; simpl; intros [= <-]; done. Qed.

Lemma learnRules_added (g p : nat) (h : Heap) :
  exists added,
    rules (the_governess g (learnRules g p h).2)
    = rules (the_governess g h) ++ added
    /\ Forall (fun r => Rule._perimeter r = Some p) added.
Proof.
  destruct (learnRules_each_added g p (govern (the_perimeter p h)) 0 h)
    as (added & Hrules & Htags & _).
  exists added. unfold learnRules. by rewrite counting_state.
Qed.

(** [prepare], when it returns, by its steps. *)
Lemma prepare_inv (s p : nat) (h h1 : Heap) :
  prepare s p h = (Ret tt, h1) ->
  exists g0 ha hb n,
    taught g0 h ha
    /\ teach_shadow s p ha = (Ret tt, hb)
    /\ learnRules (s_governess (the_sandbox s hb)) p hb = (Ret n, h1).
Proof.
  unfold prepare. intros Hprep.
  apply bind_Ret_inv in Hprep as (own & h0 & Hgets & Hprep).
  injection Hgets as <- <-.
  apply bind_Ret_inv in Hprep as ([] & ha & Hown & Hprep).
  apply bind_Ret_inv in Hprep as ([] & hb & Hshadow & Hprep).
  apply bind_Ret_inv in Hprep as (main & hc & Hmain & Hprep).
  injection Hmain as <- <-.
  apply bind_Ret_inv in Hprep as (n & h2 & Hlearn & Hret).
  injection Hret as <-.
  assert (Hta : exists g0, taught g0 h ha).
  { destruct (Perimeter.governess p h) as [g|].
    - apply bind_Ret_inv in Hown as (n0 & hx & Hl & Hr). injection Hr as <-.
      exists g. destruct (learnRules_taught g p h) as [Ht _].
      by rewrite Hl in Ht.
    - injection Hown as <-. exists 0. reflexivity. }
  destruct Hta as [g0 Hta]. by exists g0, ha, hb, n.
Qed.

(** After [prepare] returned the perimeter has a [purposeGoverness]: the
    one it had, or else a new object. *)
Lemma prepare_purposeGoverness (s p : nat) (h h1 : Heap) :
  prepare s p h = (Ret tt, h1) ->
  purposeGoverness (the_perimeter p h1)
  = Some (default (next h) (purposeGoverness (the_perimeter p h))).
Proof.
  intros (g0 & ha & hb & n & Hta & Hshadow & Hlearn)%prepare_inv.
  destruct (learnRules_taught (s_governess (the_sandbox s hb)) p hb)
    as [Hmain _].
  rewrite Hlearn in Hmain. simpl in Hmain.
  rewrite (taught_perimeter _ p hb h1 Hmain).
  rewrite teach_shadow_eq in Hshadow.
  rewrite (taught_perimeter _ p h ha Hta) in Hshadow.
  destruct (purposeGoverness (the_perimeter p h)) as [g1|] eqn:Hpg.
  { injection Hshadow as <-. by rewrite (taught_perimeter _ p h ha Hta). }
  destruct (construct _) as [fresh|e]; [|discriminate]. cbv zeta in Hshadow.
  match type of Hshadow with
  | context [learnRules ?g p ?hm] =>
      destruct (learnRules_taught g p hm) as [Ht _];
      destruct (learnRules g p hm) as [[n1|e1] hb1]; [|discriminate]
  end.
  injection Hshadow as <-. simpl in Ht.
  rewrite (taught_perimeter _ p _ hb1 Ht).
  unfold the_perimeter. simpl. rewrite lookup_total_insert_eq. simpl.
  by destruct Hta as (_ & _ & _ & -> & _).
Qed.

Lemma governess_eq (a b : Governess) :
  class a = class b -> rules a = rules b -> _unguarded a = _unguarded b ->
  _guardCount a = _guardCount b -> _governedCount a = _governedCount b ->
  a = b.
Proof. destruct a, b. simpl. by intros -> -> -> -> ->. Qed.

(** The shadow governess that [prepare] makes for a perimeter without one:
    a new instance of the class of the main governess that was taught the
    rules of the perimeter and nothing else. *)
Lemma prepare_shadow (s p : nat) (h h1 : Heap) :
  prepare s p h = (Ret tt, h1) ->
  purposeGoverness (the_perimeter p h) = None ->
  s_governess (the_sandbox s h) < next h ->
  exists fresh,
    construct (class (the_governess (s_governess (the_sandbox s h)) h))
    = Ret fresh
    /\ the_governess (next h) h1
       = set_rules (rules (the_governess (next h) h1)) fresh
    /\ Forall (fun r => Rule._perimeter r = Some p)
              (rules (the_governess (next h) h1))
    /\ (forall key def,
          In (key, def) (govern (the_perimeter p h1)) ->
          known (next h) p key h1 = true).
Proof.
  intros (g0 & ha & hb & n & Hta & Hshadow & Hlearn)%prepare_inv Hnone Hwf.
  destruct (learnRules_taught (s_governess (the_sandbox s hb)) p hb)
    as [Hmain _].
  rewrite Hlearn in Hmain. simpl in Hmain.
  rewrite teach_shadow_eq in Hshadow.
  rewrite (taught_perimeter _ p h ha Hta), Hnone in Hshadow.
  rewrite (taught_sandbox _ s h ha Hta) in Hshadow.
  rewrite (taught_class g0 _ h ha Hta) in Hshadow.
  assert (Hnext : next ha = next h) by (by destruct Hta as (_ & _ & _ & -> & _)).
  rewrite Hnext in Hshadow.
  destruct (construct _) as [fresh|e] eqn:Hfresh; [|discriminate].
  cbv zeta in Hshadow. exists fresh. split; [done|].
  match type of Hshadow with
  | context [learnRules (next h) p ?hm] => set (h_mid := hm) in *
  end.
  destruct (learnRules_taught (next h) p h_mid) as [Ht _].
  destruct (learnRules_added (next h) p h_mid) as (added & Hrules & Htags).
  destruct (learnRules (next h) p h_mid) as [[n1|e1] hb1] eqn:Hl;
    [|discriminate].
  injection Hshadow as <-. simpl in Ht, Hrules.
  assert (Hmid : the_governess (next h) h_mid = fresh).
  { unfold the_governess, h_mid. simpl. by rewrite lookup_total_insert_eq. }
  assert (Hsb : the_sandbox s hb1 = the_sandbox s h).
  { rewrite (taught_sandbox _ s h_mid hb1 Ht).
    rewrite <- (taught_sandbox _ s h ha Hta). reflexivity. }
  rewrite Hsb in Hmain, Hlearn.
  assert (Hsame : the_governess (next h) h1 = the_governess (next h) hb1)
    by (apply (taught_other _ _ _ _ Hmain); lia).
  rewrite Hsame, Hrules, Hmid.
  destruct (construct_new _ _ Hfresh) as [Hempty _]. rewrite Hempty. simpl.
  split; [|split; [done|]].
  - destruct Ht as (_ & _ & _ & _ & _ & C & U & G1 & G2 & _).
    rewrite Hmid in C, U, G1, G2. apply governess_eq; simpl; try done.
    by rewrite Hrules, Hmid, Hempty.
  - intros key def Hin. unfold known. rewrite Hsame. fold (known (next h) p key hb1).
    apply learnRules_learnt in Hl. rewrite Forall_forall in Hl.
    rewrite (taught_perimeter _ p hb1 h1 Hmain) in Hin.
    by destruct (Hl (key, def)) as [Hknown _]; [apply list_elem_of_In|].
Qed.

(** A call of [loadPerimeter] for one perimeter that the sandbox does not
    hold, when it returns, by its two groups of steps. *)
Lemma loadPerimeter_one (s p : nat) (h h' : Heap) (n : Z) :
  Sandbox.holds s (VObject (PerimeterRef p)) h = false ->
  Sandbox.loadPerimeter s [VObject (PerimeterRef p)] h = (Ret n, h') ->
  exists h1, prepare s p h = (Ret tt, h1) /\ attach s p h1 = (Ret tt, h')
             /\ n = 1%Z
             /\ isSandbox (VObject (SandboxRef s)) h1 = true.
Proof.
  intros Hnew Hload.
  assert (Hmethod : Sandbox.hides (the_sandbox s h) "loadPerimeter" = false).
  { destruct (Sandbox.hides (the_sandbox s h) "loadPerimeter") eqn:Hhid;
      [|done].
    by rewrite loadPerimeter_hidden in Hload. }
  rewrite loadPerimeter_method in Hload by done.
  unfold counting in Hload. rewrite each_cons in Hload.
  assert (Hhas : Sandbox.hasPerimeter s (VObject (PerimeterRef p)) h
                 = Ret false).
  { rewrite hasPerimeter_eq, Hnew. destruct (_ || _) eqn:Hq; [|done].
    rewrite (loadPerimeter_visit_stuck _ _ _ _ TypeError) in Hload;
      [done|].
    by rewrite hasPerimeter_eq, Hq. }
  pose proof (prepared_instance s p _ _ h Hhas) as Hinst.
  rewrite loadPerimeter_visit_new in Hload by done.
  destruct (prepare s p h) as [[[]|e1] h1]; [|discriminate].
  destruct (attach s p h1) as [[[]|e2] h2] eqn:Hatt; [|discriminate].
  simpl in Hload. injection Hload as <- <-. by exists h1.
Qed.

(** X20.  The shadow governess.  When a sandbox loads a perimeter that has
    no [purposeGoverness] yet, and the call returns, the perimeter has one:
    a new object, a new instance of the class of the sandbox's main
    governess, whose rules all come from this perimeter, and which holds a
    rule for every rule string of the perimeter. *)
Theorem loadPerimeter_shadow_governess (s p : nat) (h h' : Heap) (n : Z) :
  Sandbox.holds s (VObject (PerimeterRef p)) h = false ->
  purposeGoverness (the_perimeter p h) = None ->
  s_governess (the_sandbox s h) < next h ->
  Sandbox.loadPerimeter s [VObject (PerimeterRef p)] h = (Ret n, h') ->
  exists g fresh,
    purposeGoverness (the_perimeter p h') = Some g
    /\ next h <= g
    /\ construct (class (the_governess (s_governess (the_sandbox s h)) h))
       = Ret fresh
    /\ the_governess g h' = set_rules (rules (the_governess g h')) fresh
    /\ Forall (fun r => Rule._perimeter r = Some p)
              (rules (the_governess g h'))
    /\ (forall key def,
          In (key, def) (govern (the_perimeter p h')) ->
          known g p key h' = true).
Proof.
  intros Hnew Hnone Hwf
    (h1 & Hprep & Hatt & _ & Hinst)%(loadPerimeter_one _ _ _ _ _ Hnew).
  destruct (prepare_shadow s p h h1 Hprep Hnone Hwf)
    as (fresh & Hfresh & Hgov & Htags & Hknown).
  pose proof (prepare_purposeGoverness s p h h1 Hprep) as Hpg.
  rewrite Hnone in Hpg. simpl in Hpg.
  destruct (attach_result s p h1 Hinst) as (Hg & Hp & _).
  rewrite Hatt in Hg, Hp. simpl in Hg, Hp.
  assert (Hsame : the_governess (next h) h' = the_governess (next h) h1)
    by (unfold the_governess; by rewrite Hg).
  exists (next h), fresh. rewrite Hp, Hsame. simpl.
  split; [done|]. split; [lia|]. split; [done|]. split; [done|].
  split; [done|].
  intros key def Hin. unfold known. rewrite Hsame. by apply (Hknown key def).
Qed.

Lemma loadPerimeter_shadow_governess_witness :
  Sandbox.holds 0 Sample.playground Sample.heap0 = false
  /\ purposeGoverness (the_perimeter 0 Sample.heap0) = None
  /\ s_governess (the_sandbox 0 Sample.heap0) < next Sample.heap0
  /\ Sandbox.loadPerimeter 0 [Sample.playground] Sample.heap0
     = (Ret 1%Z, Sample.heap1)
  /\ exists g fresh,
       purposeGoverness (the_perimeter 0 Sample.heap1) = Some g
       /\ next Sample.heap0 <= g
       /\ construct (class (the_governess
                              (s_governess (the_sandbox 0 Sample.heap0))
                              Sample.heap0))
          = Ret fresh
       /\ the_governess g Sample.heap1
          = set_rules (rules (the_governess g Sample.heap1)) fresh
       /\ Forall (fun r => Rule._perimeter r = Some 0)
                 (rules (the_governess g Sample.heap1))
       /\ (forall key def,
             In (key, def) (govern (the_perimeter 0 Sample.heap1)) ->
             known g 0 key Sample.heap1 = true).
Proof.
  assert (Hnew : Sandbox.holds 0 Sample.playground Sample.heap0 = false)
    by (by vm_compute).
  assert (Hnone : purposeGoverness (the_perimeter 0 Sample.heap0) = None)
    by (by vm_compute).
  assert (Hwf : s_governess (the_sandbox 0 Sample.heap0) < next Sample.heap0)
    by (vm_compute; lia).
  assert (Hload : Sandbox.loadPerimeter 0 [Sample.playground] Sample.heap0
                  = (Ret 1%Z, Sample.heap1)) by (by vm_compute).
  split; [exact Hnew|]. split; [exact Hnone|]. split; [exact Hwf|].
  split; [exact Hload|].
  exact (loadPerimeter_shadow_governess 0 0 Sample.heap0 Sample.heap1 1
           Hnew Hnone Hwf Hload).
Defined.


#[local] Instance purpose_kept_preorder (pu : nat) : PreOrder (purpose_kept pu).
Proof.
  split.
  - by intros h.
  - intros h1 h2 h3 (A1 & B1 & C1) (A2 & B2 & C2).
    unfold purpose_kept. repeat split; congruence.
Qed.










(** ** The setters of [governess] *)

Lemma learnRules_all (s : nat) (held : list nat) (h h' : Heap) :
  each held (fun p =>
    main ← gets (fun h => s_governess (the_sandbox s h));
    learnRules main p ;; mret tt) h = (Ret tt, h') ->
  taught (s_governess (the_sandbox s h)) h h'
  /\ forall p key def,
       In p held -> In (key, def) (govern (the_perimeter p h')) ->
       known (s_governess (the_sandbox s h)) p key h' = true.
Proof.
  revert h. induction held as [|p held IH]; intros h.
  { intros [= <-]. split; [reflexivity|]. by intros p key def []. }
  rewrite each_cons. unfold mbind at 1 2, M_bind at 1 2, gets at 1.
  cbn beta iota.
  destruct (learnRules_taught (s_governess (the_sandbox s h)) p h)
    as [Ht _].
  destruct (learnRules _ p h) as [[n|e] h1] eqn:Hlearn; simpl;
    [|discriminate].
  simpl in Ht. intros Hrest.
  assert (Hsb : the_sandbox s h1 = the_sandbox s h)
    by (by eapply taught_sandbox).
  destruct (IH h1 Hrest) as [Ht' Hknown]. rewrite Hsb in Ht', Hknown.
  split; [by etrans|].
  intros q key def [<-|Hq] Hin; [|by eapply Hknown].
  apply (known_taught _ _ _ h1); [done|].
  apply learnRules_learnt in Hlearn. rewrite Forall_forall in Hlearn.
  rewrite (taught_perimeter _ p h1 h' Ht') in Hin.
  by destruct (Hlearn (key, def)) as [? _]; [apply list_elem_of_In|].
Qed.

(** X22.  The setter of a sandbox's [governess].  When it returns, the
    governess given is the main governess, the sandbox holds the perimeters
    it held, and the new main governess holds a rule for every rule string
    of every one of them; all that changed in the heap besides the
    sandbox's field are rules appended to that governess and the
    [ruleContext] of functions. *)
Theorem Sandbox_set_governess_informs (s g : nat) (h h' : Heap) (v : Value) :
  Sandbox.set_governess s (VObject (GovernessRef g)) h = (Ret v, h') ->
  v = VObject (GovernessRef g)
  /\ s_governess (the_sandbox s h') = g
  /\ Sandbox.getPerimeters s h' = Sandbox.getPerimeters s h
  /\ main_informed s h'
  /\ perimeters h' = perimeters h
  /\ (forall g', g' <> g -> the_governess g' h' = the_governess g' h)
  /\ exists added,
       rules (the_governess g h') = rules (the_governess g h) ++ added.
Proof.
  unfold Sandbox.set_governess, Sandbox._learnRules. intros Hset.
  apply bind_Ret_inv in Hset as ([] & h1 & Hupdate & Hset).
  apply bind_Ret_inv in Hset as ([] & h2 & Hlearn & Hret).
  injection Hret as <- <-.
  unfold Sandbox.method in Hlearn.
  destruct (Sandbox.hides _ "_learnRules"); [discriminate|].
  apply bind_Ret_inv in Hlearn as (held & h0 & Hgets & Hlearn).
  unfold reads, Sandbox.query in Hgets.
  destruct (Sandbox.hides _ "getPerimeters"); [discriminate|].
  injection Hgets as <- <-.
  unfold update_sandbox, modify in Hupdate. injection Hupdate as <-.
  apply learnRules_all in Hlearn as [Ht Hknown].
  assert (Hs1 : the_sandbox s
                  (set_sandboxes
                     <[s := mkSandbox (s_child (the_sandbox s h)) g
                              (_perimeters (the_sandbox s h))
                              (s_purposes (the_sandbox s h))
                              (s_prototype (the_sandbox s h))]> h)
                = mkSandbox (s_child (the_sandbox s h)) g
                    (_perimeters (the_sandbox s h))
                    (s_purposes (the_sandbox s h))
                    (s_prototype (the_sandbox s h))).
  { unfold the_sandbox at 1. simpl. by rewrite lookup_total_insert_eq. }
  unfold Sandbox.getPerimeters in Hknown. rewrite Hs1 in Ht, Hknown.
  simpl in Ht, Hknown.
  pose proof (taught_sandbox _ s _ _ Ht) as Hs2. rewrite Hs1 in Hs2.
  split; [done|]. split; [by rewrite Hs2|].
  split; [unfold Sandbox.getPerimeters; by rewrite Hs2|].
  split.
  { intros p key def. unfold Sandbox.getPerimeters. rewrite Hs2. simpl.
    apply Hknown. }
  destruct Ht as (P & _ & _ & _ & G & _ & _ & _ & _ & R).
  split; [done|]. split; [|done].
  intros g' Hne. unfold the_governess. by rewrite !lookup_total_alt, (G g' Hne).
Qed.

Lemma Sandbox_set_governess_informs_witness :
  Sandbox.set_governess 0 (VObject (GovernessRef 1)) Sample.heap1
  = (Ret (VObject (GovernessRef 1)),
     (Sandbox.set_governess 0 (VObject (GovernessRef 1)) Sample.heap1).2)
  /\ main_informed 0
       (Sandbox.set_governess 0 (VObject (GovernessRef 1)) Sample.heap1).2.
Proof.
  assert (Hset : Sandbox.set_governess 0 (VObject (GovernessRef 1)) Sample.heap1
                 = (Ret (VObject (GovernessRef 1)),
                    (Sandbox.set_governess 0 (VObject (GovernessRef 1))
                       Sample.heap1).2)) by (by vm_compute).
  split; [exact Hset|].
  exact (proj1 (proj2 (proj2 (proj2
           (Sandbox_set_governess_informs 0 1 Sample.heap1 _ _ Hset))))).
Defined.


#[local] Instance same_objects_preorder : PreOrder same_objects.
Proof.
  split.
  - by intros h.
  - intros h1 h2 h3 [A1 B1] [A2 B2]. unfold same_objects. split; congruence.
Qed.




(** ** [extractGovern] *)

Lemma own_property_assign (key : string) (value : Value)
    (obj : list (string * Value)) :
  Perimeter.own_property key (Perimeter.assign key value obj) = Some value.
Proof.
  unfold Perimeter.own_property.
  induction obj as [|[k v] obj IH]; simpl.
  - by rewrite String.eqb_refl.
  - destruct (String.eqb_spec k key) as [->|Hne]; simpl.
    + by rewrite String.eqb_refl.
    + by destruct (String.eqb_spec k key).
Qed.

Lemma own_property_assign_other (key key' : string) (value : Value)
    (obj : list (string * Value)) :
  key' <> key ->
  Perimeter.own_property key' (Perimeter.assign key value obj)
  = Perimeter.own_property key' obj.
Proof.
  intros Hne. unfold Perimeter.own_property.
  induction obj as [|[k v] obj IH]; simpl.
  - by destruct (String.eqb_spec key key').
  - destruct (String.eqb_spec k key) as [->|Hk]; simpl.
    + by destruct (String.eqb_spec key key').
    + by destruct (String.eqb_spec k key').
Qed.

Lemma prefix_inj (pre a b : string) : pre +:+ a = pre +:+ b -> a = b.
Proof. induction pre as [|c pre IH]; simpl; [done|]. intros [= ?]. auto. Qed.

(** The loop of [extractGovern] for one of the two shortcuts: an entry of
    the shortcut is in the result under the prefixed key, and a key that
    is no prefixed key of the shortcut has what it had. *)
Lemma extractGovern_loop (pre : string) (short obj : list (string * Value)) :
  NoDup (map fst short) ->
  let result :=
    fold_left (fun g kv => Perimeter.assign (pre +:+ kv.1) kv.2 g) short obj in
  (forall k v, In (k, v) short ->
               Perimeter.own_property (pre +:+ k) result = Some v)
  /\ (forall key, (forall k, In k (map fst short) -> key <> pre +:+ k) ->
                  Perimeter.own_property key result
                  = Perimeter.own_property key obj).
Proof.
  revert obj. induction short as [|[k0 v0] short IH]; intros obj Hnd; simpl.
  { split; [by intros k v []|done]. }
  apply NoDup_cons in Hnd as [Hk0 Hnd].
  destruct (IH (Perimeter.assign (pre +:+ k0) v0 obj) Hnd) as [Hin Hout].
  split.
  - intros k v [[= <- <-]|Hkv]; [|by apply Hin].
    rewrite Hout; [apply own_property_assign|].
    intros k Hk Heq%prefix_inj. subst k. by apply Hk0, list_elem_of_In.
  - intros key Hkey. rewrite Hout by (intros k Hk; apply Hkey; by right).
    apply own_property_assign_other. apply Hkey. by left.
Qed.

(** X24.  [extractGovern] merges the shortcuts into [govern]: every entry
    of [can] is in the result under [can ] and its key, every entry of
    [cannot] under [cannot ] and its key, whatever [govern] had there, and
    the two never collide; every other key has what [govern] had. *)
Theorem extractGovern_lookup (govern can cannot : option (list (string * Value))) :
  NoDup (map fst (default [] can)) ->
  NoDup (map fst (default [] cannot)) ->
  let result := Perimeter.extractGovern govern can cannot in
  (forall k v, In (k, v) (default [] can) ->
               Perimeter.own_property ("can " +:+ k) result = Some v)
  /\ (forall k v, In (k, v) (default [] cannot) ->
                  Perimeter.own_property ("cannot " +:+ k) result = Some v)
  /\ (forall key,
        (forall k, In k (map fst (default [] can)) -> key <> "can " +:+ k) ->
        (forall k, In k (map fst (default [] cannot)) ->
                   key <> "cannot " +:+ k) ->
        Perimeter.own_property key result
        = Perimeter.own_property key (default [] govern)).
Proof.
  intros Hcan Hcannot. unfold Perimeter.extractGovern. cbv zeta.
  destruct (extractGovern_loop "can " (default [] can) (default [] govern) Hcan)
    as [Hin1 Hout1].
  destruct (extractGovern_loop "cannot " (default [] cannot)
              (fold_left (fun g kv => Perimeter.assign ("can " +:+ kv.1) kv.2 g)
                 (default [] can) (default [] govern)) Hcannot)
    as [Hin2 Hout2].
  split; [|split].
  - intros k v Hkv. rewrite Hout2; [by apply Hin1|].
    intros k' _. simpl. discriminate.
  - done.
  - intros key Hkey1 Hkey2. rewrite Hout2 by done. by apply Hout1.
Qed.

Lemma extractGovern_lookup_witness :
  NoDup (map fst (default [] (Some [("play", VFunction 0)])))
  /\ NoDup (map fst (default [] (Some [("play", VFunction 1)])))
  /\ Perimeter.own_property "can play"
       (Perimeter.extractGovern
          (Some [("can play", VFunction 1); ("can run", VFunction 0)])
          (Some [("play", VFunction 0)])
          (Some [("play", VFunction 1)]))
     = Some (VFunction 0).
Proof.
  assert (Hcan : NoDup (map fst (default [] (Some [("play", VFunction 0)]))))
    by (simpl; apply NoDup_singleton).
  assert (Hcannot : NoDup (map fst (default [] (Some [("play", VFunction 1)]))))
    by (simpl; apply NoDup_singleton).
  split; [exact Hcan|]. split; [exact Hcannot|].
  apply (proj1 (extractGovern_lookup
                  (Some [("can play", VFunction 1); ("can run", VFunction 0)])
                  (Some [("play", VFunction 0)])
                  (Some [("play", VFunction 1)]) Hcan Hcannot)).
  simpl. by left.
Defined.

(** ** [Purpose._loadPerimeter] *)

(** What [function_at] finds is a function. *)
Lemma function_at_function (p : nat) (name : string) (h : Heap) (v : Value) :
  Perimeter.function_at p name h = Some v -> exists f, v = VFunction f.
Proof.
  unfold Perimeter.function_at.
  destruct (AllowedMethodsService.includes _ _); [discriminate|].
  cbv zeta.
  destruct (isFunction _) eqn:Hfunction; [|discriminate].
  intros [= <-].
  destruct (if String.eqb name "child" then _ else _); try discriminate.
  by eexists.
Qed.

(** The loop of [_loadPerimeter], when it returns: every method exposed
    passed both tests, and the purpose has a trampoline for exactly the
    names exposed besides the ones it had. *)
Lemma Purpose_loadPerimeter_loop (pu p : nat) (restricted : list string)
    (exposed : list Value) (h h' : Heap) :
  each exposed (Purpose._loadPerimeter_visit pu p restricted) h = (Ret tt, h') ->
  perimeters h' = perimeters h
  /\ Forall (fun m =>
        AllowedMethodsService.isRestricted restricted m = false
        /\ is_Some (Perimeter.function_at p (string_of m) h))
       exposed
  /\ forall name,
       trampolines (the_purpose pu h') !! name
       = if existsb (strict_eq (VString name)) exposed
         then (fun method => (p, method)) <$> Perimeter.function_at p name h
         else trampolines (the_purpose pu h) !! name.
Proof.
  revert h. induction exposed as [|m exposed IH]; intros h.
  { intros [= <-]. by repeat split. }
  rewrite each_cons. unfold Purpose._loadPerimeter_visit at 1.
  destruct (AllowedMethodsService.isRestricted restricted m) eqn:Hrestricted;
    [discriminate|].
  unfold mbind, M_bind, gets, update_purpose, modify. cbn beta iota.
  destruct (Perimeter.function_at p (string_of m) h) as [method|]
    eqn:Hfunction; [|discriminate].
  intros Hrest. apply IH in Hrest as (Hper & Hall & Htramp).
  simpl in Hper.
  change (Perimeter.function_at p ?n (set_purposes _ h))
    with (Perimeter.function_at p n h) in Hall, Htramp.
  split; [done|]. split; [constructor; [by rewrite Hfunction|done]|].
  intros name. rewrite Htramp. simpl.
  destruct m as [| | | |nm| | | |]; try discriminate. simpl.
  unfold the_purpose at 1. simpl. rewrite lookup_total_insert_eq. simpl.
  destruct (String.eqb_spec name nm) as [->|Hne]; simpl.
  - rewrite lookup_insert_eq. simpl in Hfunction. rewrite Hfunction.
    by destruct (existsb _ _).
  - by rewrite lookup_insert_ne.
Qed.

Lemma strict_eq_string (name : string) (v : Value) :
  strict_eq (VString name) v = true <-> v = VString name.
Proof.
  destruct v; simpl; try (split; [discriminate|discriminate]).
  rewrite String.eqb_eq. split; [by intros ->|by intros [= ->]].
Qed.

(** X25.  [Purpose._loadPerimeter] exposes what the perimeter exposes.
    When it returns, every element of [expose] is a name that was not
    restricted when the call began and under which the perimeter has a
    function, be it the [child] that its sandbox gave it or another
    member, and the purpose has a trampoline to that function of that
    perimeter under that name; under every other name the purpose has what
    it had. *)
Theorem Purpose_loadPerimeter_exposes (pu p : nat) (h h' : Heap) :
  Purpose._loadPerimeter pu (VObject (PerimeterRef p)) h = (Ret tt, h') ->
  (forall m, In m (expose (the_perimeter p h)) ->
     exists name f,
       m = VString name
       /\ AllowedMethodsService.isRestricted
            (Purpose.keys (the_purpose pu h)) m = false
       /\ Perimeter.function_at p name h = Some (VFunction f)
       /\ trampolines (the_purpose pu h') !! name = Some (p, VFunction f))
  /\ (forall name,
        ~ In (VString name) (expose (the_perimeter p h)) ->
        trampolines (the_purpose pu h') !! name
        = trampolines (the_purpose pu h) !! name).
Proof.
  unfold Purpose._loadPerimeter, mbind, M_bind, gets. cbn beta iota.
  intros Hload.
  assert (Hloop : each (expose (the_perimeter p h))
                    (Purpose._loadPerimeter_visit pu p
                       (Purpose.keys (the_purpose pu h))) h = (Ret tt, h')).
  { by destruct (expose (the_perimeter p h)). }
  clear Hload.
  apply Purpose_loadPerimeter_loop in Hloop as (_ & Hall & Htramp).
  rewrite Forall_forall in Hall. split.
  - intros m Hm. destruct (Hall m) as [Hrestricted [method Hfunction]];
      [by apply list_elem_of_In|].
    destruct m as [| | | |name| | | |]; try discriminate.
    simpl in Hfunction.
    destruct (function_at_function _ _ _ _ Hfunction) as [f ->].
    exists name, f. repeat (split; [done|]).
    rewrite Htramp, Hfunction.
    replace (existsb _ _) with true; [done|].
    symmetry. apply existsb_exists. exists (VString name).
    split; [done|]. by apply strict_eq_string.
  - intros name Hname. rewrite Htramp.
    replace (existsb _ _) with false; [done|].
    symmetry. apply not_true_is_false.
    intros (v & Hv & ->%strict_eq_string)%existsb_exists. by apply Hname.
Qed.

Lemma Purpose_loadPerimeter_exposes_witness :
  Purpose._loadPerimeter 4 Sample.playground (installed 1 0 Sample.heap1)
  = (Ret tt,
     (Purpose._loadPerimeter 4 Sample.playground
        (installed 1 0 Sample.heap1)).2)
  /\ exists name f,
       VString "play" = VString name
       /\ AllowedMethodsService.isRestricted
            (Purpose.keys (the_purpose 4 (installed 1 0 Sample.heap1)))
            (VString "play") = false
       /\ Perimeter.function_at 0 name (installed 1 0 Sample.heap1)
          = Some (VFunction f)
       /\ trampolines
            (the_purpose 4
               (Purpose._loadPerimeter 4 Sample.playground
                  (installed 1 0 Sample.heap1)).2)
            !! name = Some (0, VFunction f).
Proof.
  assert (Hload : Purpose._loadPerimeter 4 Sample.playground
                    (installed 1 0 Sample.heap1)
                  = (Ret tt,
                     (Purpose._loadPerimeter 4 Sample.playground
                        (installed 1 0 Sample.heap1)).2))
    by (by vm_compute).
  split; [exact Hload|].
  apply (proj1 (Purpose_loadPerimeter_exposes 4 0 _ _ Hload) (VString "play")).
  vm_compute. by left.
Defined.

(** ** The number that [loadPerimeter] returns *)

(** A round of the loop of [loadPerimeter] that returned: it skipped the
    perimeter and changed nothing, or it counted it and the sandbox holds
    it after the ones it held. *)
Lemma loadPerimeter_visit_count (s : nat) (perimeter : Value) (c c1 : Z)
    (h h1 : Heap) :
  Sandbox.loadPerimeter_visit s perimeter (c, h) = (Ret tt, (c1, h1)) ->
  (c1 = c /\ h1 = h)
  \/ (c1 = (c + 1)%Z
      /\ exists p, perimeter = VObject (PerimeterRef p)
                   /\ Sandbox.holds s perimeter h = false
                   /\ Sandbox.getPerimeters s h1
                      = Sandbox.getPerimeters s h ++ [p]).
Proof.
  destruct perimeter as [| | | | | | | |[g|p|t|pu|o]]; try discriminate.
  destruct (Sandbox.hasPerimeter s (VObject (PerimeterRef p)) h)
    as [[]|e0] eqn:Hhas.
  { rewrite loadPerimeter_visit_skip by done. intros [= <- <-]. by left. }
  2: { by rewrite (loadPerimeter_visit_stuck _ _ _ _ e0). }
  pose proof (prepared_instance s p _ _ h Hhas) as Hinst.
  apply hasPerimeter_Ret in Hhas as Hno. destruct Hno as (_ & _ & Hno).
  rewrite loadPerimeter_visit_new by done.
  pose proof (prepare_same_perimeters s s p h) as Hl1.
  destruct (prepare s p h) as [[[]|e1] h2]; [|discriminate].
  pose proof (attach_perimeters s p h2 Hinst) as Hl2.
  destruct (attach s p h2) as [[[]|e2] h3]; [|discriminate].
  simpl in Hl1, Hl2. intros [= <- <-]. right. split; [done|].
  exists p. split; [done|]. split; [done|].
  rewrite Hl2. unfold Sandbox.getPerimeters. by rewrite Hl1.
Qed.

(** X26.  The number that [loadPerimeter] returns is the number of
    perimeters it added: when it returns, the sandbox holds the perimeters
    it held, in their order, and after them as many new ones as the number
    says, each of them an argument of the call. *)
Theorem loadPerimeter_count (s : nat) (perimeters : list Value) (h h' : Heap)
    (n : Z) :
  Sandbox.loadPerimeter s perimeters h = (Ret n, h') ->
  exists added,
    Sandbox.getPerimeters s h' = Sandbox.getPerimeters s h ++ added
    /\ n = Z.of_nat (length added)
    /\ Forall (fun p => In (VObject (PerimeterRef p)) perimeters) added.
Proof.
  assert (Hloop : forall c c' h0,
            each perimeters (Sandbox.loadPerimeter_visit s) (c, h0)
            = (Ret tt, (c', h')) ->
            exists added,
              Sandbox.getPerimeters s h' = Sandbox.getPerimeters s h0 ++ added
              /\ c' = (c + Z.of_nat (length added))%Z
              /\ Forall (fun p => In (VObject (PerimeterRef p)) perimeters)
                        added).
  { clear h. induction perimeters as [|perimeter rest IH]; intros c c' h.
    { intros [= <- <-]. exists []. rewrite app_nil_r. simpl.
      split; [done|]. split; [lia|done]. }
    rewrite each_cons.
    destruct (Sandbox.loadPerimeter_visit s perimeter (c, h))
      as [[[]|e] [c1 h1]] eqn:Hvisit; [|discriminate].
    intros (added & Hheld & Hcount & Hargs)%IH.
    assert (Hargs' : Forall (fun p => In (VObject (PerimeterRef p))
                                        (perimeter :: rest)) added).
    { eapply Forall_impl; [exact Hargs|]. intros p Hp. by right. }
    apply loadPerimeter_visit_count in Hvisit
      as [[-> ->]|(-> & p & -> & _ & Hpush)].
    - by exists added.
    - exists (p :: added). rewrite Hheld, Hpush, <- app_assoc.
      split; [done|]. split; [simpl length; lia|].
      constructor; [by left | done]. }
  unfold Sandbox.loadPerimeter, Sandbox.method, counting.
  destruct (Sandbox.hides _ _); [discriminate|].
  destruct (each _ _ _) as [[[]|e] [c1 h1]] eqn:Heach; [|discriminate].
  intros [= <- <-].
  destruct (Hloop _ _ _ Heach) as (added & Hheld & Hcount & Hargs).
  exists added. split; [done|]. split; [lia|done].
Qed.

Lemma loadPerimeter_count_witness :
  Sandbox.loadPerimeter 0 [Sample.playground; Sample.playground] Sample.heap0
  = (Ret 1%Z, Sample.heap1)
  /\ exists added,
       Sandbox.getPerimeters 0 Sample.heap1
       = Sandbox.getPerimeters 0 Sample.heap0 ++ added
       /\ 1%Z = Z.of_nat (length added)
       /\ Forall (fun p => In (VObject (PerimeterRef p))
                              [Sample.playground; Sample.playground]) added.
Proof.
  assert (Hload : Sandbox.loadPerimeter 0
                    [Sample.playground; Sample.playground] Sample.heap0
                  = (Ret 1%Z, Sample.heap1)) by (by vm_compute).
  split; [exact Hload|].
  exact (loadPerimeter_count 0 [Sample.playground; Sample.playground]
           Sample.heap0 Sample.heap1 1 Hload).
Defined.
